(** * A hybrid recommender and its interaction store

    Shallow embedding of [recommender.py] ([HybridRecommender]), of the
    parts of [database.py] ([DatabaseManager]) it talks to, and of the
    callback handler of [bot.py] that drives both.

    Conventions of the embedding.
    - Python exceptions are values of [exn]; a computation that may raise
      returns a [result].  Code that also writes to the store is a function
      from the store to a [result] and the store it leaves behind, so that
      writes committed before an exception stay visible.
    - NumPy score vectors are lists over an [arith]: the numbers and the
      operations the code applies to them.  The recommender is written once
      for every [arith]; the rationals ([exact]), binary64 and binary32 are
      instances, and what is proved for every [arith] holds for the floats
      the code runs on.  Statements that need the laws of real arithmetic
      are made about [exact] and say so.
    - [np.argsort] is a parameter: NumPy's default kind is not a stable
      sort, and which of two equal scores comes first depends on the sort
      NumPy picks for the array and the processor.  What every kind promises
      is [Np.sorts].  [Np.insertion_argsort], the insertion sort of short
      arrays, is one instance and is used to run examples.
    - [list(s)] of a set is a parameter too: the order follows the hashes of
      the strings, which change from one process to the next.  What every
      listing promises is [Py.lists_set].
    - The two language models are parameters: [encode] and
      [cosine_similarity] for the semantic path, [keyword_inference] for the
      body of the [try] block of [keyword_relevance].
    - The recommender reaches its store through the methods of the [db]
      object only; they are the fields of [store_api].
    - The SQLite store is the record [DatabaseManager.store]: the four tables
      with the columns and CHECK constraints that [_initialize_db] declares,
      taken as created and reachable.  (As written, the CREATE TABLE text of
      [users] holds a [#] comment, which SQLite does not accept.)  Its
      statements fail where the schema makes them fail; integers handed to
      it are those SQLite can bind ([Sqlite.bindable], 64 bits), and the
      properties of the store are stated for such integers.  [write_locked]
      is the same store while another connection holds the write lock: its
      reads answer, its writes answer false.
    - A Python [str] is kept as its UTF-8 encoding; [Utf8.chars] cuts it
      into its characters.  White space and decimal digits are those of
      Unicode 14.0, as in CPython 3.11. *)

From Stdlib Require Import ZArith NArith QArith Qminmax Lqa Lia Floats Ascii String.
From Stdlib Require Import Sorted Permutation.
From Stdlib Require DecimalString DecimalPos DecimalZ.
From stdpp Require Import base tactics option list strings gmap sorting.

Set Default Proof Using "Type".
#[local] Open Scope Z_scope.

(** ** Exceptions *)

Inductive exn : Type :=
| AttributeError   (* attribute access on None *)
| IndexError       (* list or array index out of range *)
| ValueError       (* NumPy shape mismatch *)
| ModelError (msg : string)   (* raised inside an embedding or language model *)
| StoreError (msg : string).  (* sqlite3.Error *)

Inductive result (A : Type) : Type :=
| Ok (a : A)
| Raise (e : exn).
Arguments Ok {A} a.
Arguments Raise {A} e.

Definition result_bind {A B} (r : result A) (k : A -> result B) : result B :=
  match r with
  | Ok a => k a
  | Raise e => Raise e
  end.

#[global] Instance result_mbind : MBind result := fun A B k r => result_bind r k.
#[global] Instance result_mret : MRet result := fun A a => Ok a.

Fixpoint result_map {A B} (f : A -> result B) (l : list A) : result (list B) :=
  match l with
  | [] => Ok []
  | a :: l' => b ← f a; bs ← result_map f l'; Ok (b :: bs)
  end.

(** A store-passing computation that may raise. *)
Definition M (S A : Type) : Type := S -> result A * S.

Definition ret {S A} (a : A) : M S A := fun s => (Ok a, s).

Definition bind {S A B} (m : M S A) (k : A -> M S B) : M S B :=
  fun s =>
    match m s with
    | (Ok a, s') => k a s'
    | (Raise e, s') => (Raise e, s')
    end.

(** A read of the store: the store is left as it is. *)
Definition read {S A} (f : S -> result A) : M S A := fun s => (f s, s).

(** A computation that does not touch the store. *)
Definition pure {S A} (r : result A) : M S A := fun s => (r, s).

(** [try: m except Exception: return d]. *)
Definition try_except {S A} (m : M S A) (d : A) : M S A :=
  fun s =>
    match m s with
    | (Ok a, s') => (Ok a, s')
    | (Raise _, s') => (Ok d, s')
    end.

#[global] Instance M_mbind {S} : MBind (M S) := fun A B k m => bind m k.
#[global] Instance M_mret {S} : MRet (M S) := fun A a => ret a.

(** ** Python strings *)

Module Utf8.

(** A continuation byte, [10xxxxxx]. *)
Definition is_continuation (a : ascii) : bool :=
  let n := N_of_ascii a in ((128 <=? n) && (n <? 192))%N.

Definition starts_inside (c : string) : bool :=
  match c with
  | String b _ => is_continuation b
  | EmptyString => false
  end.

(** The characters of a text: each is a byte with the continuation bytes
    that follow it. *)
Fixpoint chars (s : string) : list string :=
  match s with
  | EmptyString => []
  | String a s' =>
      match chars s' with
      | c :: cs =>
          if starts_inside c then String a c :: cs
          else String a EmptyString :: c :: cs
      | [] => [String a EmptyString]
      end
  end.

(** The bits of a code point that its first byte carries. *)
Definition lead (a : ascii) : N :=
  let n := N_of_ascii a in
  (if n <? 128 then n else if n <? 224 then n - 192
   else if n <? 240 then n - 224 else n - 240)%N.

Fixpoint extend (cp : N) (s : string) : N :=
  match s with
  | EmptyString => cp
  | String b s' => extend (cp * 64 + (N_of_ascii b - 128))%N s'
  end.

(** [ord(c)] *)
Definition code_point (c : string) : N :=
  match c with
  | String a s => extend (lead a) s
  | EmptyString => 0%N
  end.

End Utf8.

Module Py.

(** [c.isspace()] for a character: the white space of Unicode (categories
    Zs and the bidirectional types WS, B and S). *)
Definition is_space (c : string) : bool :=
  let n := Utf8.code_point c in
  (((0x9 <=? n) && (n <=? 0xD)) || ((0x1C <=? n) && (n <=? 0x20))
   || (n =? 0x85) || (n =? 0xA0) || (n =? 0x1680)
   || ((0x2000 <=? n) && (n <=? 0x200A))
   || (n =? 0x2028) || (n =? 0x2029) || (n =? 0x202F) || (n =? 0x205F)
   || (n =? 0x3000))%N.

Fixpoint drop_spaces (cs : list string) : list string :=
  match cs with
  | [] => []
  | c :: cs' => if is_space c then drop_spaces cs' else cs
  end.

(** [s.strip()]: the text without the white space at its two ends. *)
Definition strip (s : string) : string :=
  String.concat "" (reverse (drop_spaces (reverse (drop_spaces (Utf8.chars s))))).

(** [s.split(sep)] for a one-byte separator: never empty. *)
Fixpoint split (sep : ascii) (s : string) : list string :=
  match s with
  | EmptyString => [EmptyString]
  | String a s' =>
      if Ascii.eqb a sep then EmptyString :: split sep s'
      else match split sep s' with
           | h :: t => String a h :: t
           | [] => [String a EmptyString]
           end
  end.

(** [str(x)] of an optional text inside an f-string. *)
Definition fmt (o : option string) : string :=
  match o with
  | Some s => s
  | None => "None"%string
  end.

(** [if user_id:] on an optional integer: the integer when the test
    succeeds; [None] and [0] are false. *)
Definition truthy_int (o : option Z) : option Z :=
  match o with
  | Some z => if z =? 0 then None else Some z
  | None => None
  end.

(** [l[:n]] *)
Definition slice_to {A} (n : Z) (l : list A) : list A :=
  if 0 <=? n then take (Z.to_nat n) l
  else take (length l - Z.to_nat (- n)) l.

(** [l[i]] for an index that is not negative. *)
Definition index {A} (l : list A) (i : nat) : result A :=
  match l !! i with
  | Some a => Ok a
  | None => Raise IndexError
  end.

(** What [list(s)] promises of a set of strings: every element once, in
    some order. *)
Definition lists_set (list_of_set : gset string -> list string) : Prop :=
  forall T, list_of_set T ≡ₚ elements T.

End Py.

(** [set(tag.strip() for tag in tags.split(','))] *)
Definition tag_set (tags : string) : gset string :=
  list_to_set (Py.strip <$> Py.split ","%char tags).

(** ** Numbers *)

(** The numbers of the score vectors and what the code does with them:
    [a_fifth] is the literal [0.2], [a_of_nat] turns a [len] into a
    number, [a_ltb] is [<]. *)
Record arith (A : Type) : Type := {
  a_zero : A;
  a_one : A;
  a_fifth : A;
  a_of_nat : nat -> A;
  a_add : A -> A -> A;
  a_sub : A -> A -> A;
  a_mul : A -> A -> A;
  a_leb : A -> A -> bool;
  a_ltb : A -> A -> bool
}.
Arguments a_zero {A}.
Arguments a_one {A}.
Arguments a_fifth {A}.
Arguments a_of_nat {A}.
Arguments a_add {A}.
Arguments a_sub {A}.
Arguments a_mul {A}.
Arguments a_leb {A}.
Arguments a_ltb {A}.

(** [hybrid_weight * semantic + (1 - hybrid_weight) * keyword] *)
Definition blend {A} (ar : arith A) (hybrid_weight semantic keyword : A) : A :=
  a_add ar (a_mul ar hybrid_weight semantic)
           (a_mul ar (a_sub ar (a_one ar) hybrid_weight) keyword).

Definition a_min {A} (ar : arith A) (x y : A) : A := if a_leb ar x y then x else y.
Definition a_max {A} (ar : arith A) (x y : A) : A := if a_leb ar x y then y else x.

(** The claim of the convex-combination bound, as a test on one triple. *)
Definition within_min_max {A} (ar : arith A) (hybrid_weight semantic keyword : A) : bool :=
  a_leb ar (a_min ar semantic keyword) (blend ar hybrid_weight semantic keyword)
  && a_leb ar (blend ar hybrid_weight semantic keyword) (a_max ar semantic keyword).

Definition exact : arith Q :=
  {| a_zero := 0%Q; a_one := 1%Q; a_fifth := (2 # 10)%Q;
     a_of_nat := fun n => inject_Z (Z.of_nat n);
     a_add := Qplus; a_sub := Qminus; a_mul := Qmult; a_leb := Qle_bool;
     a_ltb := fun x y => negb (Qle_bool y x) |}.

Definition binary64 : arith float :=
  {| a_zero := 0%float; a_one := 1%float; a_fifth := 0x1.999999999999ap-3%float;
     a_of_nat := fun n => PrimFloat.of_uint63 (Uint63.of_Z (Z.of_nat n));
     a_add := PrimFloat.add; a_sub := PrimFloat.sub;
     a_mul := PrimFloat.mul; a_leb := PrimFloat.leb; a_ltb := PrimFloat.ltb |}.

Definition binary32 : arith spec_float :=
  {| a_zero := S754_zero false; a_one := SFone 24 128;
     a_fifth := S754_finite false 0xCCCCCD (-26);
     a_of_nat := fun n => binary_normalize 24 128 (Z.of_nat n) 0 false;
     a_add := SFadd 24 128; a_sub := SFsub 24 128;
     a_mul := SFmul 24 128; a_leb := SFleb; a_ltb := SFltb |}.

Definition hybrid_score : Q -> Q -> Q -> Q := blend exact.
Definition blend_f64 : float -> float -> float -> float := blend binary64.

(** ** NumPy vectors *)

Module Np.

Section Vectors.

Context {A : Type} (ar : arith A).

(** [np.zeros(n)] *)
Definition zeros (n : nat) : list A := replicate n (a_zero ar).

(** [c * xs] for a Python scalar [c]. *)
Definition scale (c : A) (xs : list A) : list A := a_mul ar c <$> xs.

(** [xs + ys], with the broadcasting rule for one-dimensional arrays. *)
Definition add (xs ys : list A) : result (list A) :=
  if (length xs =? length ys)%nat then Ok (zip_with (a_add ar) xs ys)
  else match xs, ys with
       | [x], _ => Ok (a_add ar x <$> ys)
       | _, [y] => Ok ((fun x => a_add ar x y) <$> xs)
       | _, _ => Raise ValueError
       end.

(** What [np.argsort(xs)] promises, whatever the kind of sort: the result
    holds every index of [xs] once, and no entry is smaller than an entry
    before it.  Nothing is promised about the order of equal entries. *)
Definition sorts (argsort : list A -> list nat) : Prop :=
  forall xs,
    argsort xs ≡ₚ seq 0 (length xs) /\
    forall p q a b x y,
      argsort xs !! p = Some a -> argsort xs !! q = Some b -> (p < q)%nat ->
      xs !! a = Some x -> xs !! b = Some y -> a_ltb ar y x = false.

End Vectors.

#[local] Open Scope Q_scope.

(** Insertion of an (index, key) pair into a list sorted by key; the pair
    goes in front of the first entry whose key is not smaller. *)
Fixpoint insert (p : nat * Q) (l : list (nat * Q)) : list (nat * Q) :=
  match l with
  | [] => [p]
  | q :: l' => if Qle_bool p.2 q.2 then p :: l else q :: insert p l'
  end.

Fixpoint isort (l : list (nat * Q)) : list (nat * Q) :=
  match l with
  | [] => []
  | p :: l' => insert p (isort l')
  end.

Definition enumerate (xs : list Q) : list (nat * Q) :=
  zip (seq 0 (length xs)) xs.

(** One [np.argsort]: the insertion sort that NumPy's default kind runs on
    arrays of up to 16 entries where it has no vectorised sort for them.
    It leaves entries with equal values in index order. *)
Definition insertion_argsort (xs : list Q) : list nat := fst <$> isort (enumerate xs).

End Np.

(** ** Data model *)

(** A catalog item as the recommender reads it: the row of an event or of a
    course, with the table it comes from in [it_type]. *)
Record item : Type := {
  it_id : Z;
  it_type : string;
  it_title : string;
  it_tags : option string;
  it_description : option string;
  it_url : option string
}.

(** An interaction as [get_user_interactions] returns it. *)
Record interaction : Type := {
  ia_user_id : Z;
  ia_item_id : Z;
  ia_item_type : string;
  ia_interaction_type : string
}.

(** One entry of the list [recommend] returns. *)
Record recommendation (A : Type) : Type := {
  r_type : string;
  r_id : Z;
  r_title : string;
  r_score : A;
  r_url : option string;
  r_tags : option string;
  r_description : option string;
  r_semantic_score : A;
  r_keyword_score : A
}.
Arguments Build_recommendation {A}.
Arguments r_type {A}.
Arguments r_id {A}.
Arguments r_title {A}.
Arguments r_score {A}.
Arguments r_url {A}.
Arguments r_tags {A}.
Arguments r_description {A}.
Arguments r_semantic_score {A}.
Arguments r_keyword_score {A}.

(** The preferences dictionary of a user: keys to lists of strings. *)
Abbreviation prefs := (gmap string (list string)).

(** The methods of the [db] object the recommender calls.  Reads return a
    result and leave the store alone; writes return the new store too. *)
Record store_api (S : Type) : Type := {
  get_all_items : S -> result (list item);
  get_item : Z -> string -> S -> result (option item);
  get_user_preferences : Z -> S -> result prefs;
  get_user_interactions : Z -> S -> result (list interaction);
  update_user_preferences : Z -> prefs -> M S bool;
  log_interaction : Z -> Z -> string -> string -> M S bool
}.
Arguments get_all_items {S}.
Arguments get_item {S}.
Arguments get_user_preferences {S}.
Arguments get_user_interactions {S}.
Arguments update_user_preferences {S}.
Arguments log_interaction {S}.

(** ** HybridRecommender *)

(** [f"{item['title']}. {item['tags']}. {item['description']}"] *)
Definition item_text (it : item) : string :=
  (it_title it +:+ ". " +:+ Py.fmt (it_tags it) +:+ ". " +:+ Py.fmt (it_description it))%string.

(** The number of tags an item shares with the preferred ones. *)
Definition common_tags (preferred_tags : gset string) (tags : string) : gset string :=
  preferred_tags ∩ tag_set tags.

Section Scores.

Context {A : Type} (ar : arith A).

(** [hybrid_weight * semantic_scores + (1 - hybrid_weight) * keyword_scores] *)
Definition hybrid_scores (hybrid_weight : A) (semantic_scores keyword_scores : list A)
  : result (list A) :=
  Np.add ar (Np.scale ar hybrid_weight semantic_scores)
            (Np.scale ar (a_sub ar (a_one ar) hybrid_weight) keyword_scores).

(** [1 + 0.2 * len(common_tags)] *)
Definition boost_factor (c : nat) : A :=
  a_add ar (a_one ar) (a_mul ar (a_fifth ar) (a_of_nat ar c)).

(** The loop [for i, item in enumerate(items)] of [recommend], from index
    [i] on: the score of an item that shares tags is multiplied in place. *)
Fixpoint boost (preferred_tags : gset string) (items : list item) (i : nat)
    (hybrid : list A) : result (list A) :=
  match items with
  | [] => Ok hybrid
  | it :: rest =>
      match it_tags it with
      | None => Raise AttributeError
      | Some tags =>
          let common := common_tags preferred_tags tags in
          if decide (common = ∅) then boost preferred_tags rest (S i) hybrid
          else
            s ← Py.index hybrid i;
            boost preferred_tags rest (S i)
                  (<[i := a_mul ar s (boost_factor (size common))]> hybrid)
      end
  end.

(** The score of an item with tags [tags] after the boost. *)
Definition boosted (preferred_tags : gset string) (tags : string) (v : A) : A :=
  if decide (common_tags preferred_tags tags = ∅) then v
  else a_mul ar v (boost_factor (size (common_tags preferred_tags tags))).

End Scores.

(** [np.argsort(hybrid_scores)[::-1]] *)
Definition sorted_indices {A} (argsort : list A -> list nat) (hybrid : list A) : list nat :=
  reverse (argsort hybrid).

Section Recommender.

Context {A : Type} (ar : arith A).

(** [np.argsort] *)
Variable argsort : list A -> list nat.

Context {S : Type} (db : store_api S).

(** [self.embedding_model.encode(text, convert_to_tensor=False)] *)
Variable encode : string -> result (list A).
(** [sklearn.metrics.pairwise.cosine_similarity] *)
Variable cosine_similarity : list (list A) -> list (list A) -> result (list (list A)).
(** The body of the [try] block of [keyword_relevance]: tokenizer, model
    and sigmoid, column 0 of the scores. *)
Variable keyword_inference : string -> list string -> result (list A).

Definition get_text_embedding (text : string) : result (list A) :=
  match text with
  | EmptyString => Ok (Np.zeros ar 384)
  | _ => encode text
  end.

Definition semantic_similarity (query : string) (texts : list string) : result (list A) :=
  query_embedding ← get_text_embedding query;
  text_embeddings ← result_map get_text_embedding texts;
  similarities ← cosine_similarity [query_embedding] text_embeddings;
  Py.index similarities 0.

Definition keyword_relevance (query : string) (texts : list string) : list A :=
  match keyword_inference query texts with
  | Ok scores => scores
  | Raise _ => Np.zeros ar (length texts)
  end.

(** Lines 116 to 124: the tag boost of a user with preferred tags. *)
Definition personalize (user_id : option Z) (items : list item) (hybrid : list A)
  : M S (list A) :=
  match Py.truthy_int user_id with
  | Some uid =>
      user_prefs ← read (get_user_preferences db uid);
      match user_prefs !! "preferred_tags"%string with
      | Some (t :: ts) => pure (boost ar (list_to_set (t :: ts)) items 0 hybrid)
      | _ => ret hybrid
      end
  | None => ret hybrid
  end.

Definition render (it : item) (score semantic keyword : A) : recommendation A :=
  {| r_type := it_type it; r_id := it_id it; r_title := it_title it;
     r_score := score; r_url := it_url it; r_tags := it_tags it;
     r_description := it_description it;
     r_semantic_score := semantic; r_keyword_score := keyword |}.

(** The loop [for idx in sorted_indices[:limit]]. *)
Fixpoint emit (user_id : option Z) (items : list item)
    (hybrid semantic_scores keyword_scores : list A)
    (indices : list nat) (recommendations : list (recommendation A))
  : M S (list (recommendation A)) :=
  match indices with
  | [] => ret recommendations
  | idx :: rest =>
      it ← pure (Py.index items idx);
      score ← pure (Py.index hybrid idx);
      semantic ← pure (Py.index semantic_scores idx);
      keyword ← pure (Py.index keyword_scores idx);
      let recommendations := recommendations ++ [render it score semantic keyword] in
      _ ← match Py.truthy_int user_id with
          | Some uid => log_interaction db uid (it_id it) (it_type it) "recommendation"
          | None => ret true
          end;
      emit user_id items hybrid semantic_scores keyword_scores rest recommendations
  end.

(** The body of the [try] block of [recommend]. *)
Definition recommend_body (query : string) (user_id : option Z) (limit : Z)
    (hybrid_weight : A) : M S (list (recommendation A)) :=
  items ← read (get_all_items db);
  match items with
  | [] => ret []
  | _ =>
      let texts := item_text <$> items in
      semantic_scores ← pure (semantic_similarity query texts);
      let keyword_scores := keyword_relevance query texts in
      hybrid ← pure (hybrid_scores ar hybrid_weight semantic_scores keyword_scores);
      hybrid ← personalize user_id items hybrid;
      emit user_id items hybrid semantic_scores keyword_scores
           (Py.slice_to limit (sorted_indices argsort hybrid)) []
  end.

Definition recommend (query : string) (user_id : option Z) (limit : Z)
    (hybrid_weight : A) : M S (list (recommendation A)) :=
  try_except (recommend_body query user_id limit hybrid_weight) [].

End Recommender.

Section Learner.

Context {S : Type} (db : store_api S).

(** [list(preferred_tags)] *)
Variable list_of_set : gset string -> list string.

(** [interaction_type in ('like', 'bookmark')] *)
Definition is_positive (i : interaction) : bool :=
  bool_decide (ia_interaction_type i ∈ ["like"; "bookmark"]%string).

Definition positive_items (interactions : list interaction) : list (Z * string) :=
  (fun i => (ia_item_id i, ia_item_type i)) <$> List.filter is_positive interactions.

(** The loop [for item_id, item_type in positive_items]. *)
Fixpoint collect_tags (positive : list (Z * string)) (preferred_tags : gset string)
  : M S (gset string) :=
  match positive with
  | [] => ret preferred_tags
  | (item_id, item_type) :: rest =>
      it ← read (get_item db item_id item_type);
      match it with
      | Some it =>
          match it_tags it with
          | Some (String a tags) =>
              collect_tags rest (preferred_tags ∪ tag_set (String a tags))
          | _ => collect_tags rest preferred_tags
          end
      | None => collect_tags rest preferred_tags
      end
  end.

(** The body of the [try] block of [train_user_preferences]. *)
Definition train_body (user_id : Z) : M S bool :=
  interactions ← read (get_user_interactions db user_id);
  match interactions with
  | [] => ret false
  | _ =>
      match positive_items interactions with
      | [] => ret false
      | positive =>
          preferred_tags ← collect_tags positive ∅;
          _ ← update_user_preferences db user_id
                {[ "preferred_tags"%string := list_of_set preferred_tags ]};
          ret true
      end
  end.

Definition train_user_preferences (user_id : Z) : M S bool :=
  try_except (train_body user_id) false.

End Learner.

(** ** SQLite *)

Module Sqlite.

#[local] Open Scope Z_scope.

(** The integers the [sqlite3] module binds to a statement: those of 64
    bits.  For any other it raises [OverflowError] before the statement
    runs; the store below is written for integers that can be bound. *)
Definition bindable (z : Z) : Prop := - 2 ^ 63 <= z < 2 ^ 63.

End Sqlite.

(** ** DatabaseManager *)

Module DatabaseManager.

(** A row of [events]. *)
Record event_row : Type := {
  ev_id : Z;
  ev_title : string;
  ev_date : option string;
  ev_location : option string;
  ev_tags : option string;
  ev_description : option string;
  ev_url : option string;
  ev_source : option string;
  ev_popularity : Z;
  ev_created_at : option string;
  ev_updated_at : option string
}.

(** A row of [courses]: the table declares no [popularity] column. *)
Record course_row : Type := {
  co_id : Z;
  co_title : string;
  co_provider : option string;
  co_tags : option string;
  co_description : option string;
  co_start_date : option string;
  co_url : option string;
  co_duration : option string;
  co_price : option Q;
  co_rating : option Q;
  co_created_at : option string;
  co_updated_at : option string
}.

(** The text of the [preferences] column, kept parsed: [Json d] is the text
    [json.dumps(d)], [NotJson raw] is a text [json.loads] rejects. *)
Inductive pref_text : Type :=
| Json (d : prefs)
| NotJson (raw : string).

(** A row of [users], keyed by [user_id] in the table. *)
Record user_row : Type := {
  us_username : option string;
  us_first_name : option string;
  us_last_name : option string;
  us_preferences : option pref_text;
  us_registration_date : option string;
  us_last_activity : option string
}.

(** A row of [interactions]. *)
Record interaction_row : Type := {
  in_id : Z;
  in_user_id : Z;
  in_item_id : Z;
  in_item_type : string;
  in_interaction_type : string;
  in_timestamp : option string
}.

(** The database file.  [interactions_seq] is the AUTOINCREMENT counter of
    [interactions]; [clock] is what [datetime('now')] evaluates to. *)
Record store : Type := {
  events : list event_row;
  courses : list course_row;
  users : gmap Z user_row;
  interactions : list interaction_row;
  interactions_seq : Z;
  clock : string
}.

Definition set_events (f : list event_row -> list event_row) (db : store) : store :=
  {| events := f (events db); courses := courses db; users := users db;
     interactions := interactions db; interactions_seq := interactions_seq db;
     clock := clock db |}.

Definition set_users (f : gmap Z user_row -> gmap Z user_row) (db : store) : store :=
  {| events := events db; courses := courses db; users := f (users db);
     interactions := interactions db; interactions_seq := interactions_seq db;
     clock := clock db |}.

(** [CHECK(item_type IN ('event', 'course'))] *)
Definition check_item_type (item_type : string) : bool :=
  bool_decide (item_type ∈ ["event"; "course"]%string).

(** [CHECK(interaction_type IN ('view', 'like', 'dislike', 'bookmark'))] *)
Definition check_interaction_type (interaction_type : string) : bool :=
  bool_decide (interaction_type ∈ ["view"; "like"; "dislike"; "bookmark"]%string).

(** [INSERT INTO interactions (user_id, item_id, item_type, interaction_type)
    VALUES (?, ?, ?, ?)] *)
Definition insert_interaction (user_id item_id : Z) (item_type interaction_type : string)
    (db : store) : result store :=
  if negb (check_item_type item_type) then
    Raise (StoreError "CHECK constraint failed: item_type")
  else if negb (check_interaction_type interaction_type) then
    Raise (StoreError "CHECK constraint failed: interaction_type")
  else
    let id := interactions_seq db + 1 in
    Ok {| events := events db; courses := courses db; users := users db;
          interactions := interactions db ++
            [ {| in_id := id; in_user_id := user_id; in_item_id := item_id;
                 in_item_type := item_type; in_interaction_type := interaction_type;
                 in_timestamp := Some (clock db) |} ];
          interactions_seq := id;
          clock := clock db |}.

Definition bump_popularity (item_id : Z) (row : event_row) : event_row :=
  if ev_id row =? item_id then
    {| ev_id := ev_id row; ev_title := ev_title row; ev_date := ev_date row;
       ev_location := ev_location row; ev_tags := ev_tags row;
       ev_description := ev_description row; ev_url := ev_url row;
       ev_source := ev_source row; ev_popularity := ev_popularity row + 1;
       ev_created_at := ev_created_at row; ev_updated_at := ev_updated_at row |}
  else row.

(** [UPDATE {table} SET popularity = popularity + 1 WHERE id = ?] *)
Definition update_popularity (table : string) (item_id : Z) (db : store) : result store :=
  if String.eqb table "events" then Ok (set_events (fmap (bump_popularity item_id)) db)
  else if String.eqb table "courses" then Raise (StoreError "no such column: popularity")
  else Raise (StoreError "no such table").

Definition touch (now : string) (row : user_row) : user_row :=
  {| us_username := us_username row; us_first_name := us_first_name row;
     us_last_name := us_last_name row; us_preferences := us_preferences row;
     us_registration_date := us_registration_date row;
     us_last_activity := Some now |}.

(** [UPDATE users SET last_activity = datetime('now') WHERE user_id = ?] *)
Definition update_last_activity (user_id : Z) (db : store) : result store :=
  Ok (set_users (alter (touch (clock db)) user_id) db).

(** The statements of [log_interaction] between opening the connection and
    [conn.commit()]. *)
Definition log_interaction_statements (user_id item_id : Z)
    (item_type interaction_type : string) (db : store) : result store :=
  db ← insert_interaction user_id item_id item_type interaction_type db;
  db ← (if bool_decide (interaction_type ∈ ["like"; "bookmark"]%string) then
          let table := if String.eqb item_type "event" then "events" else "courses" in
          update_popularity table item_id db
        else Ok db);
  update_last_activity user_id db.

(** A transaction under [try: ... except Error: return False]: the store
    changes only when every statement went through and the commit is
    reached; an [sqlite3.Error] closes the connection with nothing
    committed. *)
Definition transaction (statements : store -> result store) : M store bool :=
  fun db =>
    match statements db with
    | Ok db' => (Ok true, db')
    | Raise (StoreError _) => (Ok false, db)
    | Raise e => (Raise e, db)
    end.

Definition log_interaction (user_id item_id : Z) (item_type interaction_type : string)
  : M store bool :=
  transaction (log_interaction_statements user_id item_id item_type interaction_type).

Definition get_user_preferences (user_id : Z) (db : store) : result prefs :=
  match users db !! user_id with
  | Some row =>
      match us_preferences row with
      | Some (Json d) => Ok d
      | Some (NotJson _) => Ok ∅
      | None => Ok ∅
      end
  | None => Ok ∅
  end.

(** The row [INSERT OR IGNORE INTO users (user_id) VALUES (?)] creates. *)
Definition new_user (now : string) : user_row :=
  {| us_username := None; us_first_name := None; us_last_name := None;
     us_preferences := None; us_registration_date := Some now;
     us_last_activity := Some now |}.

Definition insert_or_ignore_user (user_id : Z) (db : store) : result store :=
  match users db !! user_id with
  | Some _ => Ok db
  | None => Ok (set_users (insert user_id (new_user (clock db))) db)
  end.

Definition set_preferences (p : prefs) (now : string) (row : user_row) : user_row :=
  {| us_username := us_username row; us_first_name := us_first_name row;
     us_last_name := us_last_name row; us_preferences := Some (Json p);
     us_registration_date := us_registration_date row;
     us_last_activity := Some now |}.

(** [UPDATE users SET preferences = ?, last_activity = datetime('now')
    WHERE user_id = ?] *)
Definition update_preferences_row (user_id : Z) (p : prefs) (db : store) : result store :=
  Ok (set_users (alter (set_preferences p (clock db)) user_id) db).

Definition update_user_preferences (user_id : Z) (preferences : prefs) : M store bool :=
  transaction (fun db =>
    db ← insert_or_ignore_user user_id db;
    update_preferences_row user_id preferences db).

Definition event_item (row : event_row) : item :=
  {| it_id := ev_id row; it_type := "event"; it_title := ev_title row;
     it_tags := ev_tags row; it_description := ev_description row;
     it_url := ev_url row |}.

Definition course_item (row : course_row) : item :=
  {| it_id := co_id row; it_type := "course"; it_title := co_title row;
     it_tags := co_tags row; it_description := co_description row;
     it_url := co_url row |}.

(** Modelled from the spec: [get_all_items], which [DatabaseManager] does
    not define.  It returns the sequence of catalog items: the events, then
    the courses, each in table order. *)
Definition get_all_items (db : store) : result (list item) :=
  Ok ((event_item <$> events db) ++ (course_item <$> courses db)).

(** Modelled from the spec: [get_item], which [DatabaseManager] does not
    define.  It returns the catalog item of that id and type, or not-found. *)
Definition get_item (item_id : Z) (item_type : string) (db : store) : result (option item) :=
  Ok (List.find (fun it => (it_id it =? item_id) && String.eqb (it_type it) item_type)
                ((event_item <$> events db) ++ (course_item <$> courses db))).

Definition interaction_of_row (row : interaction_row) : interaction :=
  {| ia_user_id := in_user_id row; ia_item_id := in_item_id row;
     ia_item_type := in_item_type row;
     ia_interaction_type := in_interaction_type row |}.

(** Modelled from the spec: [get_user_interactions], which [DatabaseManager]
    does not define.  It returns the interactions of the user, oldest
    first. *)
Definition get_user_interactions (user_id : Z) (db : store) : result (list interaction) :=
  Ok (interaction_of_row <$>
        List.filter (fun row => in_user_id row =? user_id) (interactions db)).

Definition api : store_api store :=
  Build_store_api store get_all_items get_item get_user_preferences
    get_user_interactions update_user_preferences log_interaction.

End DatabaseManager.

(** The same database while another connection holds its write lock: every
    SELECT answers as before; every INSERT and UPDATE raises
    [sqlite3.OperationalError] ("database is locked"), which the
    [except Error] of [update_user_preferences] and of [log_interaction]
    turns into the answer false; nothing is written. *)
Definition write_locked : store_api DatabaseManager.store :=
  Build_store_api DatabaseManager.store
    DatabaseManager.get_all_items DatabaseManager.get_item
    DatabaseManager.get_user_preferences DatabaseManager.get_user_interactions
    (fun _ _ db => (Ok false, db))
    (fun _ _ _ _ db => (Ok false, db)).
(** ** Orders used to state the ranking *)

(** The order an ascending stable sort puts (index, key) pairs in: by key,
    and by index among equal keys. *)
Definition lex_lt (p q : nat * Q) : Prop :=
  (p.2 < q.2)%Q \/ (p.2 == q.2 /\ (p.1 < q.1)%nat).

(** [a] stands at an earlier position of [l] than [b]. *)
Definition before {A} (l : list A) (a b : A) : Prop :=
  exists i j, l !! i = Some a /\ l !! j = Some b /\ (i < j)%nat.

(** No value of the list is smaller than a value after it. *)
Definition descending {A} (ar : arith A) (l : list A) : Prop :=
  forall i j x y, l !! i = Some x -> l !! j = Some y -> (i < j)%nat -> a_ltb ar x y = false.

(** One entry of the output of [recommend], made from catalog index [idx]. *)
Definition entry {A} (items : list item) (hybrid semantic_scores keyword_scores : list A)
    (idx : nat) (r : recommendation A) : Prop :=
  exists it score semantic keyword,
    items !! idx = Some it /\ hybrid !! idx = Some score /\
    semantic_scores !! idx = Some semantic /\ keyword_scores !! idx = Some keyword /\
    r = render it score semantic keyword.

(** ** Texts *)

(** [l] is what cutting [s] at every [sep] gives: the pieces hold no [sep]
    and joined by [sep] they are [s]. *)
Definition pieces_of (sep : ascii) (s : string) (l : list string) : Prop :=
  l <> [] /\ String.concat (String sep EmptyString) l = s /\
  Forall (fun piece => sep ∉ list_ascii_of_string piece) l.

(** [t] is [piece] without the white space at its two ends: the characters
    of [piece] are a run of white space, the characters of [t], and a run
    of white space, and [t] neither starts nor ends with white space. *)
Definition trims (piece t : string) : Prop :=
  exists l m r,
    Utf8.chars piece = l ++ m ++ r /\
    Forall (fun c => Py.is_space c = true) l /\
    Forall (fun c => Py.is_space c = true) r /\
    (forall c, head m = Some c -> Py.is_space c = false) /\
    (forall c, last m = Some c -> Py.is_space c = false) /\
    t = String.concat "" m.

(** The tags a positive interaction contributes: those of its catalog item,
    when the item exists and its [tags] text is not empty. *)
Definition contributes (db : DatabaseManager.store) (item_id : Z) (item_type : string) (t : string) : Prop :=
  exists it item_tags,
    DatabaseManager.get_item item_id item_type db = Ok (Some it) /\
    it_tags it = Some item_tags /\ item_tags <> ""%string /\
    t ∈ Py.strip <$> Py.split "," item_tags.

(** ** Concrete stores and models, used to run the code *)

Module Examples.

Import DatabaseManager.
#[local] Open Scope string_scope.

Definition event (id : Z) (title tags : string) : event_row :=
  {| ev_id := id; ev_title := title; ev_date := Some "2025-06-20";
     ev_location := None; ev_tags := Some tags; ev_description := Some "";
     ev_url := None; ev_source := Some "manual"; ev_popularity := 0;
     ev_created_at := None; ev_updated_at := None |}.

Definition course (id : Z) (title tags : string) : course_row :=
  {| co_id := id; co_title := title; co_provider := None; co_tags := Some tags;
     co_description := Some ""; co_start_date := None; co_url := None;
     co_duration := None; co_price := None; co_rating := None;
     co_created_at := None; co_updated_at := None |}.

Definition user (preferred_tags : list string) : user_row :=
  {| us_username := None; us_first_name := None; us_last_name := None;
     us_preferences := Some (Json {[ "preferred_tags" := preferred_tags ]});
     us_registration_date := None; us_last_activity := None |}.

Definition logged (id user_id item_id : Z) (item_type kind : string) : interaction_row :=
  {| in_id := id; in_user_id := user_id; in_item_id := item_id;
     in_item_type := item_type; in_interaction_type := kind;
     in_timestamp := None |}.

(** An empty database. *)
Definition empty_db : store :=
  {| events := []; courses := []; users := ∅; interactions := [];
     interactions_seq := 0; clock := "2025-06-01 12:00:00" |}.

(** Two events and one course; user 7 prefers the tag [ml]. *)
Definition db1 : store :=
  {| events := [event 1 "ML conference" "ml,ai"; event 2 "Frontend meetup" "frontend"];
     courses := [course 1 "ML from scratch" "ml, python"];
     users := {[ 7 := user ["ml"] ]};
     interactions := [];
     interactions_seq := 0;
     clock := "2025-06-01 12:00:00" |}.

(** Two events that share tags with the preferences of user 7: the first
    shares two tags, the second one. *)
Definition db2 : store :=
  {| events := [event 1 "ML conference" "ml,ai"; event 2 "ML meetup" "ml"];
     courses := [];
     users := {[ 7 := user ["ml"; "ai"] ]};
     interactions := [];
     interactions_seq := 0;
     clock := "2025-06-01 12:00:00" |}.

(** User 7 has viewed event 2 and liked event 1 and course 1. *)
Definition db3 : store :=
  {| events := events db1;
     courses := courses db1;
     users := {[ 7 := user ["old"] ]};
     interactions := [logged 1 7 2 "event" "view"; logged 2 7 1 "event" "like";
                      logged 3 7 1 "course" "bookmark"];
     interactions_seq := 3;
     clock := "2025-06-01 12:00:00" |}.

Definition seen (user_id item_id : Z) (item_type kind : string) : interaction :=
  {| ia_user_id := user_id; ia_item_id := item_id; ia_item_type := item_type;
     ia_interaction_type := kind |}.

(** The interactions of user 7 in [db3]. *)
Definition history3 : list interaction :=
  [seen 7 2 "event" "view"; seen 7 1 "event" "like"; seen 7 1 "course" "bookmark"].

(** User 7 has only viewed and disliked. *)
Definition db4 : store :=
  {| events := events db1;
     courses := courses db1;
     users := {[ 7 := user ["old"] ]};
     interactions := [logged 1 7 2 "event" "view"; logged 2 7 1 "event" "dislike"];
     interactions_seq := 2;
     clock := "2025-06-01 12:00:00" |}.

(** Event 1 shares the tag [ml] with user 7; event 2 has no tags text. *)
Definition db6 : store :=
  {| events := [ event 1 "ML conference" "ml,ai";
                 {| ev_id := 2; ev_title := "Untagged"; ev_date := None;
                    ev_location := None; ev_tags := None; ev_description := None;
                    ev_url := None; ev_source := None; ev_popularity := 0;
                    ev_created_at := None; ev_updated_at := None |} ];
     courses := [];
     users := {[ 7 := user ["ml"] ]};
     interactions := [];
     interactions_seq := 0;
     clock := "2025-06-01 12:00:00" |}.

(** The no-break space U+00A0. *)
Definition nbsp : string := String (ascii_of_nat 194) (String (ascii_of_nat 160) EmptyString).

(** User 7 has liked event 1, whose tags text puts a no-break space after
    the comma. *)
Definition db7 : store :=
  {| events := [event 1 "ML conference" ("ml," +:+ nbsp +:+ "ai")];
     courses := [];
     users := ∅;
     interactions := [logged 1 7 1 "event" "like"];
     interactions_seq := 1;
     clock := "2025-06-01 12:00:00" |}.

(** An order [list] can give to the elements of a set other than that of
    [elements]. *)
Definition reverse_elements (T : gset string) : list string := reverse (elements T).

(** An embedding model that answers with a one-dimensional vector. *)
Definition encode1 : string -> result (list Q) := fun _ => Ok [1%Q].

(** A similarity that rates every text [c]. *)
Definition similarity (c : Q) : list (list Q) -> list (list Q) -> result (list (list Q)) :=
  fun _ texts => Ok [ (fun _ => c) <$> texts ].


(** The relevance model as loaded by [AutoModel]: its output has no
    [logits]. *)
Definition no_logits : string -> list string -> result (list Q) :=
  fun _ _ => Raise AttributeError.

End Examples.

(** ** Notions used to state further properties *)

(** Whether [log_interaction] goes through: both CHECK constraints of
    [interactions] hold, and the call is not a like or a bookmark of a
    course. *)
Definition log_accepted (item_type interaction_type : string) : bool :=
  DatabaseManager.check_item_type item_type
  && DatabaseManager.check_interaction_type interaction_type
  && (String.eqb item_type "event"
      || negb (bool_decide (interaction_type ∈ ["like"; "bookmark"]%string))).

(** The row [log_interaction] appends. *)
Definition logged_row (user_id item_id : Z) (item_type interaction_type : string)
    (db : DatabaseManager.store) : DatabaseManager.interaction_row :=
  {| DatabaseManager.in_id := DatabaseManager.interactions_seq db + 1;
     DatabaseManager.in_user_id := user_id;
     DatabaseManager.in_item_id := item_id;
     DatabaseManager.in_item_type := item_type;
     DatabaseManager.in_interaction_type := interaction_type;
     DatabaseManager.in_timestamp := Some (DatabaseManager.clock db) |}.

(** The ids of the interactions are distinct and none is above the
    AUTOINCREMENT counter. *)
Definition interaction_ids_fresh (db : DatabaseManager.store) : Prop :=
  NoDup (DatabaseManager.in_id <$> DatabaseManager.interactions db) /\
  Forall (fun row => DatabaseManager.in_id row <= DatabaseManager.interactions_seq db)
         (DatabaseManager.interactions db).

(** Every character of [s] passes the test [P]. *)
Fixpoint all_chars (P : ascii -> bool) (s : string) : bool :=
  match s with
  | EmptyString => true
  | String a s' => P a && all_chars P s'
  end.

Definition not_underscore (a : ascii) : bool := negb (Ascii.eqb a "_").

(** ** DatabaseManager: the catalog writes and the SQL recommendations *)

Module DatabaseCatalog.

Import DatabaseManager.
#[local] Open Scope string_scope.
#[local] Open Scope list_scope.
#[local] Open Scope Z_scope.

(** The dictionary of named parameters handed to a statement; [None] is
    Python's [None]. *)
Abbreviation row_data := (gmap string (option string)).

(** The columns [_initialize_db] creates [events] and [courses] with. *)
Definition events_columns : list string :=
  ["id"; "title"; "date"; "location"; "tags"; "description"; "url"; "source";
   "popularity"; "created_at"; "updated_at"].

Definition courses_columns : list string :=
  ["id"; "title"; "provider"; "tags"; "description"; "start_date"; "url";
   "duration"; "price"; "rating"; "created_at"; "updated_at"].

(** Compiling a statement: every column it names has to exist in the
    table. *)
Definition prepare (columns named : list string) : result unit :=
  match List.find (fun c => negb (bool_decide (c ∈ columns))) named with
  | Some c => Raise (StoreError ("no such column: " +:+ c))
  | None => Ok tt
  end.

(** Binding [:name] from the dictionary; a missing key is an
    [sqlite3.ProgrammingError]. *)
Definition bind_parameter (data : row_data) (name : string) : result (option string) :=
  match data !! name with
  | Some v => Ok v
  | None => Raise (StoreError ("You did not supply a value for binding parameter :" +:+ name))
  end.

(** The database file with the AUTOINCREMENT counters of the two catalog
    tables. *)
Record db_file : Type := {
  tables : store;
  events_seq : Z;
  courses_seq : Z
}.

(** The rowid an AUTOINCREMENT table draws: one more than the largest id it
    holds or has ever drawn. *)
Definition next_rowid (seq : Z) (ids : list Z) : Z := (foldr Z.max seq ids + 1)%Z.

(** [url] is UNIQUE; NULL conflicts with nothing. *)
Definition same_url (url : option string) (row : event_row) : bool :=
  match url, ev_url row with
  | Some u, Some v => String.eqb u v
  | _, _ => false
  end.

(** [DO UPDATE SET title = excluded.title, ..., updated_at = datetime('now')] *)
Definition excluded_update (title : string) (date location tags description : option string)
    (now : string) (row : event_row) : event_row :=
  {| ev_id := ev_id row; ev_title := title; ev_date := date; ev_location := location;
     ev_tags := tags; ev_description := description; ev_url := ev_url row;
     ev_source := ev_source row; ev_popularity := ev_popularity row;
     ev_created_at := ev_created_at row; ev_updated_at := Some now |}.

(** The row an INSERT into [events] creates, with the column defaults. *)
Definition inserted_event (id : Z) (title : string)
    (date location tags description url source : option string) (now : string) : event_row :=
  {| ev_id := id; ev_title := title; ev_date := date; ev_location := location;
     ev_tags := tags; ev_description := description; ev_url := url;
     ev_source := source; ev_popularity := 0;
     ev_created_at := Some now; ev_updated_at := Some now |}.

(** The statement of [add_event]: INSERT ... ON CONFLICT(url) DO UPDATE ...
    RETURNING id.  The rowid is drawn before the conflict is met, and the
    counter keeps it. *)
Definition add_event_statement (event_data : row_data) (f : db_file)
  : result (Z * db_file) :=
  _ ← prepare events_columns
        ["title"; "date"; "location"; "tags"; "description"; "url"; "source";
         "updated_at"; "id"];
  title ← bind_parameter event_data "title";
  date ← bind_parameter event_data "date";
  location ← bind_parameter event_data "location";
  tags ← bind_parameter event_data "tags";
  description ← bind_parameter event_data "description";
  url ← bind_parameter event_data "url";
  source ← bind_parameter event_data "source";
  match title with
  | None => Raise (StoreError "NOT NULL constraint failed: events.title")
  | Some title =>
      let db := tables f in
      let rowid := next_rowid (events_seq f) (ev_id <$> events db) in
      match List.find (same_url url) (events db) with
      | Some old =>
          Ok (ev_id old,
              {| tables :=
                   set_events
                     (fmap (fun row =>
                        if (ev_id row =? ev_id old)%Z
                        then excluded_update title date location tags description
                               (clock db) row
                        else row)) db;
                 events_seq := rowid;
                 courses_seq := courses_seq f |})
      | None =>
          Ok (rowid,
              {| tables :=
                   set_events
                     (fun rows => rows ++
                        [inserted_event rowid title date location tags description
                           url source (clock db)]) db;
                 events_seq := rowid;
                 courses_seq := courses_seq f |})
      end
  end.

(** The seven keys [add_event] reads are present. *)
Definition event_keys (event_data : row_data)
    (title date location tags description url source : option string) : Prop :=
  event_data !! "title" = Some title /\ event_data !! "date" = Some date /\
  event_data !! "location" = Some location /\ event_data !! "tags" = Some tags /\
  event_data !! "description" = Some description /\ event_data !! "url" = Some url /\
  event_data !! "source" = Some source.

(** [add_event]: the statement, then the commit; an error leaves the
    method with nothing committed. *)
Definition add_event (event_data : row_data) : M db_file Z :=
  fun f =>
    match add_event_statement event_data f with
    | Ok (id, f') => (Ok id, f')
    | Raise e => (Raise e, f)
    end.

(** [for x in l: f(x)] *)
Fixpoint for_each {S A B} (f : A -> M S B) (l : list A) : M S unit :=
  match l with
  | [] => ret tt
  | a :: l' => _ ← f a; for_each f l'
  end.

Definition initial_events : list row_data :=
  [ {[ "title" := Some "Конференция по машинному обучению";
       "date" := Some "2025-06-20";
       "location" := Some "Москва";
       "tags" := Some "машинное обучение, ML, искусственный интеллект";
       "description" := Some "Обсуждение новых алгоритмов и практик в машинном обучении.";
       "url" := Some "https://mlconf.ru";
       "source" := Some "manual" ]} ].

(** The price is the float [0.0], written here as its text. *)
Definition initial_courses : list row_data :=
  [ {[ "title" := Some "Машинное обучение с нуля на Python";
       "provider" := Some "Coursera";
       "tags" := Some "машинное обучение, python, ai";
       "description" := Some "Вводный курс по машинному обучению с практическими заданиями.";
       "start_date" := Some "2025-06-01";
       "url" := Some "https://coursera.org/ml";
       "duration" := Some "6 weeks";
       "price" := Some "0.0";
       "source" := Some "manual" ]} ].

Section Statements.

(** What the INSERT of [add_course] does once compiled. *)
Variable insert_course : row_data -> db_file -> result (Z * db_file).

(** [add_course]: the INSERT names the columns title, provider, tags,
    description, start_date, url, duration, price, rating and source. *)
Definition add_course (course_data : row_data) : M db_file Z :=
  fun f =>
    match (_ ← prepare courses_columns
                 ["title"; "provider"; "tags"; "description"; "start_date"; "url";
                  "duration"; "price"; "rating"; "source"; "updated_at"; "id"];
           insert_course course_data f) with
    | Ok (id, f') => (Ok id, f')
    | Raise e => (Raise e, f)
    end.

Definition _fill_initial_data : M db_file unit :=
  _ ← for_each add_event initial_events;
  for_each add_course initial_courses.

(** What the UNION query of [get_recommendations] returns once compiled. *)
Context {R : Type}.
Variable union_query : option Z -> option (list string) -> Z -> store -> result R.

(** [get_recommendations]: the query selects id, title, date, location,
    tags, description, url and popularity from [events], and id, title,
    provider, tags, description, url, start_date and popularity from
    [courses]. *)
Definition get_recommendations (user_id : option Z) (tags : option (list string))
    (limit : Z) (db : store) : result R :=
  _ ← prepare events_columns
        ["id"; "title"; "date"; "location"; "tags"; "description"; "url"; "popularity"];
  _ ← prepare courses_columns
        ["id"; "title"; "provider"; "tags"; "description"; "url"; "start_date";
         "popularity"];
  union_query user_id tags limit db.

End Statements.

(** Ids and urls of [events] are distinct, and no id is above the
    counter. *)
Definition events_wellformed (f : db_file) : Prop :=
  NoDup (ev_id <$> events (tables f)) /\
  (forall i j r1 r2 u, events (tables f) !! i = Some r1 -> events (tables f) !! j = Some r2 ->
     ev_url r1 = Some u -> ev_url r2 = Some u -> i = j) /\
  Forall (fun row => (ev_id row <= events_seq f)%Z) (events (tables f)).

End DatabaseCatalog.

(** ** Concrete database files and dictionaries *)

Module CatalogExamples.

Import DatabaseManager DatabaseCatalog.
#[local] Open Scope string_scope.

(** The database of [Examples.db1] as a file; the counter of [events] is
    at the id of its last event. *)
Definition file1 : db_file :=
  {| tables := Examples.db1; events_seq := 2; courses_seq := 1 |}.

(** A crawled event. *)
Definition crawled (title url : string) : row_data :=
  {[ "title" := Some title; "date" := Some "2025-09-01"; "location" := None;
     "tags" := Some "ml"; "description" := Some "crawled"; "url" := Some url;
     "source" := Some "crawler" ]}.

(** [file1] after event 1 was given a url and liked three times. *)
Definition file2 : db_file :=
  {| tables :=
       set_events (fun _ =>
         [ {| ev_id := 1; ev_title := "ML conference"; ev_date := Some "2025-06-20";
              ev_location := None; ev_tags := Some "ml,ai"; ev_description := Some "";
              ev_url := Some "https://mlconf.ru"; ev_source := Some "manual";
              ev_popularity := 3; ev_created_at := Some "2025-05-01 09:00:00";
              ev_updated_at := Some "2025-05-01 09:00:00" |} ]) Examples.db1;
     events_seq := 1; courses_seq := 1 |}.

End CatalogExamples.
(** ** Python integers and their texts *)

Module PyInt.

#[local] Open Scope string_scope.

(** The digit zero of every decimal digit system of Unicode 14.0; its nine
    other digits follow it. *)
Definition decimal_zeros : list N :=
  [ 0x30; 0x660; 0x6F0; 0x7C0; 0x966; 0x9E6; 0xA66; 0xAE6;
    0xB66; 0xBE6; 0xC66; 0xCE6; 0xD66; 0xDE6; 0xE50; 0xED0;
    0xF20; 0x1040; 0x1090; 0x17E0; 0x1810; 0x1946; 0x19D0; 0x1A80;
    0x1A90; 0x1B50; 0x1BB0; 0x1C40; 0x1C50; 0xA620; 0xA8D0; 0xA900;
    0xA9D0; 0xA9F0; 0xAA50; 0xABF0; 0xFF10; 0x104A0; 0x10D30; 0x11066;
    0x110F0; 0x11136; 0x111D0; 0x112F0; 0x11450; 0x114D0; 0x11650; 0x116C0;
    0x11730; 0x118E0; 0x11950; 0x11C50; 0x11D50; 0x11DA0; 0x16A60; 0x16AC0;
    0x16B50; 0x1D7CE; 0x1D7D8; 0x1D7E2; 0x1D7EC; 0x1D7F6; 0x1E140; 0x1E2F0;
    0x1E950; 0x1FBF0 ]%N.

(** [Py_UNICODE_TODECIMAL]: the value of a decimal digit. *)
Definition decimal (cp : N) : option N :=
  (fun z => (cp - z)%N)
    <$> List.find (fun z => ((z <=? cp) && (cp <? z + 10))%N) decimal_zeros.

(** What [int] makes of one character before it parses: a character below
    127 stays, any other white space becomes a space, any other decimal
    digit its ASCII digit, and the rest the character [?]. *)
Definition to_ascii (c : string) : ascii :=
  let cp := Utf8.code_point c in
  if (cp <? 127)%N then ascii_of_N cp
  else if Py.is_space c then " "%char
  else match decimal cp with
       | Some d => ascii_of_N (48 + d)
       | None => "?"%char
       end.

Definition transform (s : string) : string :=
  string_of_list_ascii (to_ascii <$> Utf8.chars s).

(** C's [isspace], which the parser skips at both ends. *)
Definition c_space (a : ascii) : bool :=
  let n := nat_of_ascii a in (((9 <=? n) && (n <=? 13)) || (n =? 32))%nat.

Fixpoint lstrip (s : string) : string :=
  match s with
  | EmptyString => EmptyString
  | String a s' => if c_space a then lstrip s' else s
  end.

Fixpoint rstrip (s : string) : string :=
  match s with
  | EmptyString => EmptyString
  | String a s' =>
      match rstrip s' with
      | EmptyString => if c_space a then EmptyString else String a EmptyString
      | r => String a r
      end
  end.

Definition is_digit (a : ascii) : bool :=
  let n := nat_of_ascii a in ((48 <=? n)%nat && (n <=? 57)%nat).

(** The digits of an integer literal: one or more digits, with single
    underscores allowed between digits. *)
Fixpoint grammar (s : string) (after_digit : bool) : bool :=
  match s with
  | EmptyString => after_digit
  | String a s' =>
      if is_digit a then grammar s' true
      else if Ascii.eqb a "_" then after_digit && grammar s' false
      else false
  end.

Fixpoint without_underscores (s : string) : string :=
  match s with
  | EmptyString => EmptyString
  | String a s' =>
      if Ascii.eqb a "_" then without_underscores s' else String a (without_underscores s')
  end.

Definition of_digits (s : string) : option Z :=
  if grammar s false
  then Z.of_uint <$> DecimalString.NilEmpty.uint_of_string (without_underscores s)
  else None.

(** An integer literal: digits, after a sign or without one. *)
Definition literal (s : string) : option Z :=
  match s with
  | String "+" digits => of_digits digits
  | String "-" digits => Z.opp <$> of_digits digits
  | digits => of_digits digits
  end.

(** [int(s)] in base 10: the characters are brought to ASCII, white space
    around the number is dropped, a sign may come first.  (The limit of
    4300 digits is out of reach of the texts handled here: callback data
    holds at most 64 bytes.) *)
Definition int (s : string) : result Z :=
  match literal (rstrip (lstrip (transform s))) with
  | Some z => Ok z
  | None => Raise ValueError
  end.

(** [str(z)] *)
Definition str (z : Z) : string := DecimalString.NilZero.string_of_int (Z.to_int z).

End PyInt.

(** ** RecommendationBot: the callback handler *)

Module RecommendationBot.

#[local] Open Scope string_scope.

(** [InlineKeyboardButton(text, callback_data=...)] *)
Record button : Type := InlineKeyboardButton {
  button_text : string;
  callback_data : string
}.

(** The calls made on the Telegram bot object, taken to go through. *)
Inductive bot_call : Type :=
| answer_callback_query (text : string) (show_alert : bool)
| edit_message_text (text : string) (reply_markup : option (list (list button))).

(** The row of buttons [_send_recommendations] puts under a
    recommendation. *)
Definition recommendation_buttons {A} (rec : recommendation A) : list button :=
  [ InlineKeyboardButton "👍" ("like_" +:+ r_type rec +:+ "_" +:+ PyInt.str (r_id rec));
    InlineKeyboardButton "👎" ("dislike_" +:+ r_type rec +:+ "_" +:+ PyInt.str (r_id rec));
    InlineKeyboardButton "⭐ Сохранить"
      ("bookmark_" +:+ r_type rec +:+ "_" +:+ PyInt.str (r_id rec)) ].

(** [sep.join(l)] *)
Definition join (sep : string) (l : list string) : string := String.concat sep l.

Definition newline : string := String (ascii_of_nat 10) EmptyString.

Definition _format_preferences (preferences : prefs) : string :=
  if decide (preferences = ∅) then "Не заданы"
  else
    match default [] (preferences !! "preferred_tags") with
    | [] => "Не заданы"
    | tags => "🔹 " +:+ join (newline +:+ "🔹 ") tags
    end.

Section Handlers.

(** [self.db.get_all_tags], which [DatabaseManager] does not define. *)
Variable get_all_tags : DatabaseManager.store -> result (list string).

(** [list(preferred_tags)] inside [train_user_preferences]. *)
Variable list_of_set : gset string -> list string.

(** One button per tag, each on a row of its own, for the first 15 tags. *)
Definition tag_button (user_id : Z) (db : DatabaseManager.store) (tag : string)
  : result (list button) :=
  preferences ← DatabaseManager.get_user_preferences user_id db;
  let mark :=
    if bool_decide (tag ∈ default [] (preferences !! "preferred_tags"))
    then "✅" else "🔹" in
  Ok [InlineKeyboardButton (mark +:+ " " +:+ tag) ("tag_toggle_" +:+ tag)].

Definition _edit_tags (user_id : Z) (db : DatabaseManager.store) : result (list bot_call) :=
  all_tags ← get_all_tags db;
  rows ← result_map (tag_button user_id db) (take 15 all_tags);
  Ok [edit_message_text "Выберите интересующие вас теги:"
        (Some (rows ++ [[InlineKeyboardButton "Готово" "tags_done";
                         InlineKeyboardButton "Отмена" "tags_cancel"]])%list)].

(** [{'like': 'like', 'dislike': 'dislike', 'bookmark': 'bookmark'}[action]];
    the KeyError of a missing key is rendered by [IndexError], its sibling
    under LookupError. *)
Definition interaction_type_of (action : string) : result string :=
  if bool_decide (action ∈ ["like"; "dislike"; "bookmark"]) then Ok action
  else Raise IndexError.

(** The body of the [try] block of [_handle_callback]: the calls it makes on
    the bot, in order. *)
Definition handle_callback_body (user_id : Z) (data : string)
  : M DatabaseManager.store (list bot_call) :=
  if String.prefix "like_" data || String.prefix "dislike_" data
     || String.prefix "bookmark_" data then
    match Py.split "_" data with
    | [action; item_type; item_id] =>
        interaction_type ← pure (interaction_type_of action);
        id ← pure (PyInt.int item_id);
        _ ← DatabaseManager.log_interaction user_id id item_type interaction_type;
        _ ← train_user_preferences DatabaseManager.api list_of_set user_id;
        ret [answer_callback_query "Спасибо за ваш отзыв! Мы учтем ваши предпочтения." false]
    | _ => pure (Raise ValueError)
    end
  else if String.eqb data "feedback_good" then
    ret [answer_callback_query "Рады, что вам понравилось!" false]
  else if String.eqb data "feedback_bad" then
    ret [edit_message_text "Жаль, что не подошло. Попробуйте уточнить ваш запрос." None]
  else if String.prefix "pref_" data then
    if String.eqb data "pref_tags" then read (_edit_tags user_id)
    else if String.eqb data "pref_reset" then
      _ ← DatabaseManager.update_user_preferences user_id ∅;
      ret [answer_callback_query "Ваши предпочтения сброшены" false]
    else ret []
  else ret [].

(** [_handle_callback]: any exception of the body is answered with an
    alert. *)
Definition _handle_callback (user_id : Z) (data : string)
  : DatabaseManager.store -> list bot_call * DatabaseManager.store :=
  fun db =>
    match handle_callback_body user_id data db with
    | (Ok calls, db') => (calls, db')
    | (Raise _, db') => ([answer_callback_query "Произошла ошибка" true], db')
    end.

End Handlers.

(** The two answers of the feedback branch: the thanks, and the alert of
    the [except] clause. *)
Definition thanks : list bot_call :=
  [answer_callback_query "Спасибо за ваш отзыв! Мы учтем ваши предпочтения." false].

Definition error_alert : list bot_call :=
  [answer_callback_query "Произошла ошибка" true].

(** The store after the "Сбросить" button. *)
Definition after_reset (user_id : Z) (db : DatabaseManager.store) : DatabaseManager.store :=
  (DatabaseManager.update_user_preferences user_id ∅ db).2.

End RecommendationBot.

Module BotExamples.

#[local] Open Scope string_scope.

(** A [get_all_tags] that lists the tags of the catalog. *)
Definition get_all_tags (db : DatabaseManager.store) : result (list string) :=
  Ok (elements (⋃ ((fun row => tag_set (default "" (DatabaseManager.ev_tags row)))
                     <$> DatabaseManager.events db) : gset string)).

(** The first event of [Examples.db1] as a recommendation. *)
Definition rec1 : recommendation Q :=
  {| r_type := "event"; r_id := 1; r_title := "ML conference"; r_score := 1%Q;
     r_url := None; r_tags := Some "ml,ai"; r_description := Some "";
     r_semantic_score := 1%Q; r_keyword_score := 0%Q |}.

End BotExamples.

(** * Properties *)

(** Unfolds the operations of the store-passing monad. *)
Ltac unfold_M :=
  unfold mbind, M_mbind, bind, mret, M_mret, ret, read, pure in *.

(** ** The sort behind [np.argsort] *)

Section Sorting.

#[local] Open Scope Q_scope.

Lemma lex_lt_trans p q r : lex_lt p q -> lex_lt q r -> lex_lt p r.
Proof.
  unfold lex_lt. intros [H1 | [H1 H1']] [H2 | [H2 H2']].
  - left. lra.
  - left. lra.
  - left. lra.
  - right. split; [lra | lia].
Qed.

Lemma lex_lt_asym p q : lex_lt p q -> lex_lt q p -> False.
Proof.
  unfold lex_lt. intros [H1 | [H1 H1']] [H2 | [H2 H2']]; try lra. lia.
Qed.

Lemma lex_lt_key p q : lex_lt p q -> p.2 <= q.2.
Proof. unfold lex_lt. intros [H | [H _]]; lra. Qed.

Lemma insert_perm p l : Np.insert p l ≡ₚ p :: l.
Proof.
  induction l as [| q l IH]; simpl; [done |].
  destruct (Qle_bool p.2 q.2); [done |].
  rewrite IH. apply Permutation_swap.
Qed.

Lemma isort_perm l : Np.isort l ≡ₚ l.
Proof.
  induction l as [| p l IH]; simpl; [done |].
  by rewrite insert_perm, IH.
Qed.

Lemma insert_sorted p l :
  StronglySorted lex_lt l ->
  Forall (fun q => (p.1 < q.1)%nat) l ->
  StronglySorted lex_lt (Np.insert p l).
Proof.
  induction l as [| q l IH]; simpl; intros Hs Hidx.
  - repeat constructor.
  - apply StronglySorted_cons in Hs as [Hq Hs].
    apply Forall_cons in Hidx as [Hpq Hidx].
    destruct (Qle_bool p.2 q.2) eqn:Hle.
    + apply Qle_bool_iff in Hle.
      assert (Hp : lex_lt p q).
      { destruct (Qlt_le_dec p.2 q.2) as [Hlt | Hge]; [by left |].
        right. split; [lra | done]. }
      apply StronglySorted_cons. split.
      * constructor; [done |].
        eapply Forall_impl; [exact Hq |]. intros r Hr. by eapply lex_lt_trans.
      * by apply StronglySorted_cons.
    + assert (Hqp : q.2 < p.2).
      { destruct (Qlt_le_dec q.2 p.2) as [Hlt | Hge]; [done |].
        apply Qle_bool_iff in Hge. congruence. }
      apply StronglySorted_cons. split.
      * rewrite insert_perm. constructor; [by left | done].
      * by apply IH.
Qed.

Lemma isort_sorted l :
  StronglySorted (fun p q : nat * Q => (p.1 < q.1)%nat) l ->
  StronglySorted lex_lt (Np.isort l).
Proof.
  induction l as [| p l IH]; simpl; intros Hs; [constructor |].
  apply StronglySorted_cons in Hs as [Hp Hs].
  apply insert_sorted; [by apply IH |].
  by rewrite isort_perm.
Qed.

Lemma StronglySorted_lookup {A} (R : relation A) l i j x y :
  StronglySorted R l -> l !! i = Some x -> l !! j = Some y -> (i < j)%nat -> R x y.
Proof.
  intros Hs. revert i j. induction Hs as [| a l Hs IH Ha]; intros i j Hi Hj Hij.
  - done.
  - destruct j as [| j]; [lia |]. destruct i as [| i]; simpl in *.
    + injection Hi as ->. rewrite Forall_forall in Ha. apply Ha.
      rewrite list_elem_of_lookup. eauto.
    + eapply IH; eauto. lia.
Qed.

Lemma zip_seq_lookup (xs : list Q) k i j x :
  zip (seq k (length xs)) xs !! i = Some (j, x) <-> j = (k + i)%nat /\ xs !! i = Some x.
Proof.
  rewrite lookup_zip_with_Some. split.
  - intros (a & b & [= -> ->] & Ha & Hb). apply lookup_seq in Ha as [-> _]. done.
  - intros [-> Hx]. exists (k + i)%nat, x. split_and!; [done | | done].
    apply lookup_seq_lt. by eapply lookup_lt_Some.
Qed.

Lemma enumerate_lookup xs i j x :
  Np.enumerate xs !! i = Some (j, x) <-> j = i /\ xs !! i = Some x.
Proof. unfold Np.enumerate. by rewrite zip_seq_lookup. Qed.

Lemma enumerate_elem xs j x : (j, x) ∈ Np.enumerate xs <-> xs !! j = Some x.
Proof.
  rewrite list_elem_of_lookup. split.
  - intros [i Hi]. apply enumerate_lookup in Hi as [-> Hx]. done.
  - intros Hx. exists j. by apply enumerate_lookup.
Qed.

Lemma enumerate_increasing xs :
  StronglySorted (fun p q : nat * Q => (p.1 < q.1)%nat) (Np.enumerate xs).
Proof.
  unfold Np.enumerate. generalize 0%nat. induction xs as [| x xs IH]; intros k; simpl.
  - constructor.
  - constructor; [apply IH |].
    rewrite Forall_forall. intros [j y] Hin. simpl.
    apply list_elem_of_lookup in Hin as [i Hi].
    apply zip_seq_lookup in Hi as [-> _]. lia.
Qed.

Lemma isort_enumerate_sorted xs : StronglySorted lex_lt (Np.isort (Np.enumerate xs)).
Proof. apply isort_sorted, enumerate_increasing. Qed.

Lemma isort_enumerate_elem xs j x :
  (j, x) ∈ Np.isort (Np.enumerate xs) <-> xs !! j = Some x.
Proof. by rewrite isort_perm, enumerate_elem. Qed.

Lemma length_argsort xs : length (Np.insertion_argsort xs) = length xs.
Proof.
  unfold Np.insertion_argsort. rewrite length_fmap, (Permutation_length (isort_perm _)).
  unfold Np.enumerate. rewrite length_zip_with, length_seq. lia.
Qed.

Lemma argsort_lookup xs i a :
  Np.insertion_argsort xs !! i = Some a ->
  exists x, xs !! a = Some x /\ Np.isort (Np.enumerate xs) !! i = Some (a, x).
Proof.
  unfold Np.insertion_argsort. rewrite list_lookup_fmap_Some. intros ([a' x] & Ha & Hi).
  simpl in Ha. subst a'. exists x. split; [| done].
  apply isort_enumerate_elem, list_elem_of_lookup. eauto.
Qed.

Lemma argsort_elem xs a x :
  xs !! a = Some x -> exists i, Np.insertion_argsort xs !! i = Some a.
Proof.
  intros Hx. apply isort_enumerate_elem, list_elem_of_lookup in Hx as [i Hi].
  exists i. unfold Np.insertion_argsort. rewrite list_lookup_fmap, Hi. done.
Qed.

(** Positions in the reversed list. *)
Lemma before_reverse {A} (l : list A) a b : before (reverse l) a b <-> before l b a.
Proof.
  unfold before. split.
  - intros (i & j & Hi & Hj & Hij).
    apply reverse_lookup_Some in Hi as [Hi Hil], Hj as [Hj Hjl].
    eexists _, _. split_and!; [exact Hj | exact Hi | lia].
  - intros (i & j & Hi & Hj & Hij).
    pose proof (lookup_lt_Some _ _ _ Hi). pose proof (lookup_lt_Some _ _ _ Hj).
    exists (length l - S j)%nat, (length l - S i)%nat. split_and!.
    + apply reverse_lookup_Some. split; [| lia].
      by replace (length l - S (length l - S j))%nat with j by lia.
    + apply reverse_lookup_Some. split; [| lia].
      by replace (length l - S (length l - S i))%nat with i by lia.
    + lia.
Qed.

(** The ranking under the insertion sort: [a] comes before [b] exactly when
    [a] has the higher score, or the same score and the higher index. *)
Lemma sorted_indices_before xs a b x y :
  xs !! a = Some x -> xs !! b = Some y ->
  before (sorted_indices Np.insertion_argsort xs) a b <-> lex_lt (b, y) (a, x).
Proof.
  intros Hx Hy. unfold sorted_indices. rewrite before_reverse. split.
  - intros (i & j & Hi & Hj & Hij).
    apply argsort_lookup in Hi as (y' & Hy' & Hi), Hj as (x' & Hx' & Hj).
    assert (y' = y) as -> by congruence. assert (x' = x) as -> by congruence.
    eapply StronglySorted_lookup; eauto using isort_enumerate_sorted.
  - intros Hlt.
    destruct (argsort_elem _ _ _ Hx) as [i Hi], (argsort_elem _ _ _ Hy) as [j Hj].
    exists j, i. split_and!; [done | done |].
    destruct (argsort_lookup _ _ _ Hi) as (x' & Hx' & Hi').
    destruct (argsort_lookup _ _ _ Hj) as (y' & Hy' & Hj').
    assert (y' = y) as -> by congruence. assert (x' = x) as -> by congruence.
    destruct (lt_eq_lt_dec i j) as [[Hij | ->] | Hij]; [| | done].
    + exfalso. eapply lex_lt_asym; [exact Hlt |].
      eapply StronglySorted_lookup; eauto using isort_enumerate_sorted.
    + exfalso. rewrite Hi' in Hj'. injection Hj' as -> _.
      assert (x = y) as -> by congruence.
      eapply lex_lt_asym; exact Hlt.
Qed.

(** The insertion sort is one of the sorts [np.argsort] may run. *)
Lemma insertion_argsort_sorts : Np.sorts exact Np.insertion_argsort.
Proof.
  intros xs. split.
  - unfold Np.insertion_argsort. rewrite isort_perm. unfold Np.enumerate.
    rewrite fst_zip; [done |]. by rewrite length_seq.
  - intros p q a b x y Hp Hq Hpq Hx Hy.
    apply argsort_lookup in Hp as (x' & Hx' & Hp), Hq as (y' & Hy' & Hq).
    assert (x' = x) as -> by congruence. assert (y' = y) as -> by congruence.
    assert (Hlt : lex_lt (a, x) (b, y)).
    { eapply StronglySorted_lookup; eauto using isort_enumerate_sorted. }
    apply lex_lt_key in Hlt. simpl in *.
    apply negb_false_iff, Qle_bool_iff. done.
Qed.

End Sorting.


(** ** The store-passing monad *)

Section Monad.

Context {S : Type}.

Lemma bind_ok {A B} (m : M S A) (k : A -> M S B) s a s' :
  m s = (Ok a, s') -> (m ≫= k) s = k a s'.
Proof. unfold mbind, M_mbind, bind. by intros ->. Qed.

Lemma bind_raise {A B} (m : M S A) (k : A -> M S B) s e s' :
  m s = (Raise e, s') -> (m ≫= k) s = (Raise e, s').
Proof. unfold mbind, M_mbind, bind. by intros ->. Qed.



Lemma try_except_raise {A} (m : M S A) d s e s' :
  m s = (Raise e, s') -> try_except m d s = (Ok d, s').
Proof. unfold try_except. by intros ->. Qed.

End Monad.

(** ** What follows from the promise of [np.argsort] *)

Section Ranking.

Context {A : Type} (ar : arith A) (argsort : list A -> list nat).
Hypothesis argsort_sorts : Np.sorts ar argsort.

Lemma sorted_indices_perm hybrid :
  sorted_indices argsort hybrid ≡ₚ seq 0 (length hybrid).
Proof using argsort_sorts.
  unfold sorted_indices. rewrite reverse_Permutation. apply argsort_sorts.
Qed.

Lemma length_sorted_indices hybrid :
  length (sorted_indices argsort hybrid) = length hybrid.
Proof using argsort_sorts.
  by rewrite (Permutation_length (sorted_indices_perm hybrid)), length_seq.
Qed.


Lemma sorted_indices_bound hybrid idx :
  idx ∈ sorted_indices argsort hybrid <-> (idx < length hybrid)%nat.
Proof using argsort_sorts. rewrite sorted_indices_perm, elem_of_seq. lia. Qed.

(** Along the ranking no score is smaller than a score after it. *)
Lemma sorted_indices_order hybrid p q a b x y :
  sorted_indices argsort hybrid !! p = Some a ->
  sorted_indices argsort hybrid !! q = Some b ->
  (p < q)%nat -> hybrid !! a = Some x -> hybrid !! b = Some y ->
  a_ltb ar x y = false.
Proof using argsort_sorts.
  unfold sorted_indices. intros Hp Hq Hpq Hx Hy.
  apply reverse_lookup_Some in Hp as [Hp Hpl], Hq as [Hq Hql].
  destruct (argsort_sorts hybrid) as [_ Hord].
  eapply (Hord _ _ b a y x Hq Hp); [lia | done | done].
Qed.


End Ranking.
(** ** Scoring *)

Section Scoring.

Context {A : Type} (ar : arith A).

Lemma length_zeros n : length (Np.zeros ar n) = n.
Proof. apply length_replicate. Qed.

Lemma zeros_lookup n i x : Np.zeros ar n !! i = Some x -> x = a_zero ar.
Proof. unfold Np.zeros. rewrite lookup_replicate. by intros [-> _]. Qed.

Lemma hybrid_scores_same_length hybrid_weight semantic keyword :
  length semantic = length keyword ->
  hybrid_scores ar hybrid_weight semantic keyword =
    Ok (zip_with (blend ar hybrid_weight) semantic keyword).
Proof.
  intros Hlen. unfold hybrid_scores, Np.add, Np.scale.
  rewrite !length_fmap, Hlen, Nat.eqb_refl. f_equal.
  revert keyword Hlen. induction semantic as [| s sem IH]; intros [| k kw] Hlen;
    simpl in *; try done.
  f_equal. apply IH. lia.
Qed.

End Scoring.

Lemma hybrid_score_between w s k :
  (0 <= w <= 1 -> Qmin s k <= hybrid_score w s k <= Qmax s k)%Q.
Proof.
  intros [H0 H1]. unfold hybrid_score, blend; simpl.
  destruct (Q.min_spec s k) as [[Hlt ->] | [Hle ->]];
    destruct (Q.max_spec s k) as [[Hlt' ->] | [Hle' ->]]; nra.
Qed.

(** C8 (as stated, refuted in binary64): with the default weight 0.7 and both
    sub-scores 0.9, all three in [0,1], the blend computed in binary64
    floating point is larger than the maximum of the two sub-scores. *)
Lemma hybrid_score_exceeds_max_in_binary64 :
  let w := 0x1.6666666666666p-1%float in   (* 0.7 *)
  let s := 0x1.ccccccccccccdp-1%float in   (* 0.9 *)
  (PrimFloat.leb 0 w && PrimFloat.leb w 1 && PrimFloat.leb 0 s && PrimFloat.leb s 1 = true)
  /\ PrimFloat.ltb (a_max binary64 s s) (blend_f64 w s s) = true
  /\ within_min_max binary64 w s s = false.
Proof. vm_compute. done. Qed.

(** The same in binary32 (single precision): with weight 0.7 and both
    sub-scores 0.95 the blend is smaller than the minimum of the two. *)
Lemma hybrid_score_below_min_in_binary32 :
  let w := S754_finite false 0xB33333 (-24) in   (* 0.7 *)
  let s := S754_finite false 0xF33333 (-24) in   (* 0.95 *)
  (SFleb w (a_one binary32) && SFleb s (a_one binary32) = true)
  /\ SFltb (blend binary32 w s s) (a_min binary32 s s) = true
  /\ within_min_max binary32 w s s = false.
Proof. vm_compute. done. Qed.

(** C8 (amended): in exact arithmetic, for every weight in [0,1] and score
    vectors of equal length, every pre-boost hybrid score is
    [hybrid_weight * semantic + (1 - hybrid_weight) * keyword] and lies
    between the minimum and the maximum of its two sub-scores. *)
Theorem hybrid_score_bounded (hybrid_weight : Q) (semantic keyword : list Q) :
  (0 <= hybrid_weight <= 1)%Q ->
  length semantic = length keyword ->
  exists hybrid,
    hybrid_scores exact hybrid_weight semantic keyword = Ok hybrid /\
    length hybrid = length semantic /\
    forall i s k, semantic !! i = Some s -> keyword !! i = Some k ->
      exists v, hybrid !! i = Some v /\
        v = (hybrid_weight * s + (1 - hybrid_weight) * k)%Q /\
        (Qmin s k <= v <= Qmax s k)%Q.
Proof.
  intros Hw Hlen. eexists. split; [by apply (hybrid_scores_same_length exact) |].
  split; [rewrite length_zip_with; lia |].
  intros i s k Hs Hk. exists (hybrid_score hybrid_weight s k).
  split; [| split; [done | by apply hybrid_score_between]].
  apply lookup_zip_with_Some. eauto.
Qed.

Lemma hybrid_score_bounded_witness :
  exists hybrid,
    hybrid_scores exact (7 # 10) [9 # 10; 1 # 2]%Q [9 # 10; 0]%Q = Ok hybrid /\
    length hybrid = 2%nat /\
    forall i s k, [9 # 10; 1 # 2]%Q !! i = Some s -> [9 # 10; 0]%Q !! i = Some k ->
      exists v, hybrid !! i = Some v /\
        v = ((7 # 10) * s + (1 - (7 # 10)) * k)%Q /\
        (Qmin s k <= v <= Qmax s k)%Q.
Proof.
  apply (hybrid_score_bounded (7 # 10) [9 # 10; 1 # 2]%Q [9 # 10; 0]%Q).
  - split; unfold Qle; simpl; lia.
  - reflexivity.
Defined.

(** C9: when the inference of [keyword_relevance] raises, whatever the
    exception, the function returns the zero vector with one entry per
    text; the pre-boost hybrid scores are then the weighted semantic scores
    alone. *)
Theorem keyword_relevance_degrades
    (keyword_inference : string -> list string -> result (list Q))
    (query : string) (texts : list string) (e : exn) :
  keyword_inference query texts = Raise e ->
  keyword_relevance exact keyword_inference query texts = Np.zeros exact (length texts) /\
  length (keyword_relevance exact keyword_inference query texts) = length texts /\
  (forall i x, keyword_relevance exact keyword_inference query texts !! i = Some x -> x = 0%Q) /\
  (forall hybrid_weight semantic, length semantic = length texts ->
     exists hybrid,
       hybrid_scores exact hybrid_weight semantic
         (keyword_relevance exact keyword_inference query texts) = Ok hybrid /\
       length hybrid = length texts /\
       forall i s, semantic !! i = Some s ->
         exists v, hybrid !! i = Some v /\ (v == hybrid_weight * s)%Q).
Proof.
  intros Hfail. unfold keyword_relevance. rewrite Hfail.
  split; [done |]. split; [apply length_zeros |].
  split; [intros i x; apply (zeros_lookup exact) |].
  intros w sem Hlen. eexists. split.
  { apply (hybrid_scores_same_length exact). by rewrite length_zeros. }
  split; [rewrite length_zip_with, length_zeros; lia |].
  intros i s Hs.
  assert (Hk : Np.zeros exact (length texts) !! i = Some 0%Q).
  { unfold Np.zeros. apply lookup_replicate. split; [done |].
    rewrite <- Hlen. by eapply lookup_lt_Some. }
  exists (hybrid_score w s 0). split.
  - apply lookup_zip_with_Some. eauto.
  - unfold hybrid_score, blend; simpl. lra.
Qed.

Lemma keyword_relevance_degrades_witness :
  keyword_relevance exact Examples.no_logits "ml" ["a"; "b"; "c"]%string = [0; 0; 0]%Q.
Proof.
  apply (keyword_relevance_degrades Examples.no_logits "ml" ["a"; "b"; "c"]%string
           AttributeError).
  reflexivity.
Defined.

(** ** recommend *)

Section Recommend.

Context {A : Type} (ar : arith A) (argsort : list A -> list nat).
Context {S : Type} (db : store_api S).
Variable encode : string -> result (list A).
Variable cosine_similarity : list (list A) -> list (list A) -> result (list (list A)).
Variable keyword_inference : string -> list string -> result (list A).



Lemma recommend_body_scoring_fails query user_id limit hybrid_weight s it items e :
  get_all_items db s = Ok (it :: items) ->
  semantic_similarity ar encode cosine_similarity query (item_text <$> it :: items) = Raise e ->
  recommend_body ar argsort db encode cosine_similarity keyword_inference
    query user_id limit hybrid_weight s = (Raise e, s).
Proof.
  intros H Hs. unfold recommend_body. unfold_M. rewrite H. by rewrite Hs.
Qed.


Lemma recommend_body_boost_fails query user_id limit hybrid_weight s it items semantic pre e :
  get_all_items db s = Ok (it :: items) ->
  semantic_similarity ar encode cosine_similarity query (item_text <$> it :: items)
    = Ok semantic ->
  hybrid_scores ar hybrid_weight semantic
    (keyword_relevance ar keyword_inference query (item_text <$> it :: items)) = Ok pre ->
  personalize ar db user_id (it :: items) pre s = (Raise e, s) ->
  recommend_body ar argsort db encode cosine_similarity keyword_inference
    query user_id limit hybrid_weight s = (Raise e, s).
Proof.
  intros H Hs Hb Hp. unfold recommend_body. unfold_M. rewrite H. rewrite Hs. rewrite Hb.
  by rewrite Hp.
Qed.

Lemma personalize_reads user_id items hybrid s r s' :
  personalize ar db user_id items hybrid s = (r, s') -> s' = s.
Proof.
  unfold personalize. unfold_M. destruct (Py.truthy_int user_id) as [uid |].
  - destruct (get_user_preferences db uid s) as [p | e]; [| by intros [= _ <-]].
    destruct (p !! "preferred_tags"%string) as [[| t ts] |]; by intros [= _ <-].
  - by intros [= _ <-].
Qed.

Lemma personalize_no_user items hybrid s :
  personalize ar db None items hybrid s = (Ok hybrid, s).
Proof. done. Qed.

Lemma personalize_no_tags uid p items hybrid s :
  get_user_preferences db uid s = Ok p ->
  p !! "preferred_tags"%string = None \/ p !! "preferred_tags"%string = Some [] ->
  personalize ar db (Some uid) items hybrid s = (Ok hybrid, s).
Proof.
  intros Hp Htags. unfold personalize. unfold_M. unfold Py.truthy_int.
  destruct (uid =? 0)%Z; [done |]. rewrite Hp. by destruct Htags as [-> | ->].
Qed.


(** The loop of the boost over items that all have a tags text. *)
Lemma boost_spec preferred_tags items : forall i hybrid,
  Forall (fun it => is_Some (it_tags it)) items ->
  (i + length items <= length hybrid)%nat ->
  exists hybrid',
    boost ar preferred_tags items i hybrid = Ok hybrid' /\
    length hybrid' = length hybrid /\
    (forall j, (j < i)%nat -> hybrid' !! j = hybrid !! j) /\
    (forall j, (i + length items <= j)%nat -> hybrid' !! j = hybrid !! j) /\
    (forall j it tags v, items !! j = Some it -> it_tags it = Some tags ->
       hybrid !! (i + j)%nat = Some v ->
       hybrid' !! (i + j)%nat = Some (boosted ar preferred_tags tags v)).
Proof.
  induction items as [| it items IH]; intros i hybrid Htags Hlen; simpl in *.
  - exists hybrid. split_and!; try done.
  - apply Forall_cons in Htags as [[tags Ht] Htags]. rewrite Ht.
    destruct (decide (common_tags preferred_tags tags = ∅)) as [He | Hne].
    + destruct (IH (Datatypes.S i) hybrid Htags) as (h' & Hb & Hl & Hlo & Hhi & Hmid); [lia |].
      exists h'. split_and!; [done | done | | |].
      * intros j Hj. apply Hlo. lia.
      * intros j Hj. apply Hhi. lia.
      * intros [| j] it' tags' v Hit Htags' Hv; simpl in Hit.
        -- injection Hit as <-. assert (tags' = tags) as -> by congruence.
           rewrite Hlo by lia. rewrite Hv. unfold boosted.
           by rewrite decide_True.
        -- replace (i + Datatypes.S j)%nat with (Datatypes.S i + j)%nat in * by lia.
           by eapply Hmid.
    + destruct (lookup_lt_is_Some_2 hybrid i) as [s Hs]; [lia |].
      unfold Py.index. rewrite Hs. simpl.
      set (hybrid1 :=
             <[i:=a_mul ar s (boost_factor ar (size (common_tags preferred_tags tags)))]> hybrid).
      destruct (IH (Datatypes.S i) hybrid1 Htags) as (h' & Hb & Hl & Hlo & Hhi & Hmid).
      { unfold hybrid1. rewrite length_insert. lia. }
      exists h'. unfold hybrid1 in *. rewrite length_insert in Hl.
      split_and!; [done | done | | |].
      * intros j Hj. rewrite Hlo by lia. apply list_lookup_insert_ne. lia.
      * intros j Hj. rewrite Hhi by lia. apply list_lookup_insert_ne. lia.
      * intros [| j] it' tags' v Hit Htags' Hv; simpl in Hit.
        -- injection Hit as <-. assert (tags' = tags) as -> by congruence.
           rewrite Hlo by lia. replace (i + 0)%nat with i in * by lia.
           rewrite list_lookup_insert_eq by lia.
           assert (v = s) as -> by congruence.
           unfold boosted. by rewrite decide_False.
        -- replace (i + Datatypes.S j)%nat with (Datatypes.S i + j)%nat in * by lia.
           eapply Hmid; [done | done |].
           rewrite list_lookup_insert_ne by lia. done.
Qed.

(** The loop of the boost over a catalog with an item without a tags
    text: [item['tags'].split] raises at that item, if nothing raised
    before. *)
Lemma boost_null_tags preferred_tags items : forall i hybrid,
  (exists it, it ∈ items /\ it_tags it = None) ->
  exists e, boost ar preferred_tags items i hybrid = Raise e.
Proof.
  induction items as [| it items IH]; intros i hybrid (it0 & Hin & Hnone).
  - by apply elem_of_nil in Hin.
  - simpl. destruct (it_tags it) as [tags |] eqn:Ht; [| by eexists].
    assert (Hrest : exists it, it ∈ items /\ it_tags it = None).
    { apply elem_of_cons in Hin as [-> | Hin]; [congruence | by exists it0]. }
    destruct (decide (common_tags preferred_tags tags = ∅)); [by apply IH |].
    destruct (Py.index hybrid i) as [s |]; [| by eexists]. simpl. by apply IH.
Qed.

Lemma personalize_profile uid p t ts items hybrid s :
  uid <> 0%Z ->
  get_user_preferences db uid s = Ok p ->
  p !! "preferred_tags"%string = Some (t :: ts) ->
  length hybrid = length items ->
  Forall (fun it => is_Some (it_tags it)) items ->
  exists hybrid',
    personalize ar db (Some uid) items hybrid s = (Ok hybrid', s) /\
    length hybrid' = length hybrid /\
    forall i it tags v, items !! i = Some it -> it_tags it = Some tags ->
      hybrid !! i = Some v ->
      hybrid' !! i = Some (boosted ar (list_to_set (t :: ts)) tags v).
Proof.
  intros Huid Hp Htags Hlen Hnn. unfold personalize. unfold_M. unfold Py.truthy_int.
  apply Z.eqb_neq in Huid. rewrite Huid, Hp, Htags.
  destruct (boost_spec (list_to_set (t :: ts)) items 0 hybrid Hnn)
    as (h' & Hb & Hl & _ & _ & Hmid); [simpl; lia |].
  exists h'. rewrite Hb. split_and!; [done | done |].
  intros i it tags v Hit Ht Hv. by apply (Hmid i it tags v).
Qed.

Lemma personalize_null_tags uid p t ts items hybrid s :
  uid <> 0%Z ->
  get_user_preferences db uid s = Ok p ->
  p !! "preferred_tags"%string = Some (t :: ts) ->
  (exists it, it ∈ items /\ it_tags it = None) ->
  exists e, personalize ar db (Some uid) items hybrid s = (Raise e, s).
Proof.
  intros Huid Hp Htags Hnull. unfold personalize. unfold_M. unfold Py.truthy_int.
  apply Z.eqb_neq in Huid. rewrite Huid, Hp, Htags.
  destruct (boost_null_tags (list_to_set (t :: ts)) items 0 hybrid Hnull) as [e ->].
  by exists e.
Qed.

(** The loop that builds the result, when every call of [log_interaction]
    returns. *)
Lemma emit_entries user_id items (hybrid semantic keyword : list A) :
  (Py.truthy_int user_id = None \/
   forall uid i t s, exists b s',
     log_interaction db uid i t "recommendation" s = (Ok b, s')) ->
  forall indices acc s,
    Forall (fun idx => (idx < length items)%nat /\ (idx < length hybrid)%nat /\
                       (idx < length semantic)%nat /\ (idx < length keyword)%nat) indices ->
    exists recs s',
      emit db user_id items hybrid semantic keyword indices acc s = (Ok (acc ++ recs), s') /\
      Forall2 (entry items hybrid semantic keyword) indices recs /\
      (Py.truthy_int user_id = None -> s' = s).
Proof.
  intros Hlog. induction indices as [| idx indices IH]; intros acc s Hidx; simpl.
  - exists [], s. unfold_M. rewrite app_nil_r. split_and!; [done | constructor | done].
  - apply Forall_cons in Hidx as [(Hi & Hh & Hs & Hk) Hidx].
    destruct (lookup_lt_is_Some_2 _ _ Hi) as [it Hit].
    destruct (lookup_lt_is_Some_2 _ _ Hh) as [score Hscore].
    destruct (lookup_lt_is_Some_2 _ _ Hs) as [sem Hsem].
    destruct (lookup_lt_is_Some_2 _ _ Hk) as [kw Hkw].
    unfold_M. unfold Py.index. rewrite Hit, Hscore, Hsem, Hkw.
    assert (Hstep : exists b s1,
      match Py.truthy_int user_id with
      | Some uid => log_interaction db uid (it_id it) (it_type it) "recommendation"
      | None => fun s0 => (Ok true, s0)
      end s = (Ok b, s1) /\ (Py.truthy_int user_id = None -> s1 = s)).
    { destruct (Py.truthy_int user_id) as [uid |] eqn:Hu.
      - destruct Hlog as [Hlog | Hlog]; [done |].
        destruct (Hlog uid (it_id it) (it_type it) s) as (b & s1 & Hrun).
        exists b, s1. split; [done | done].
      - exists true, s. done. }
    destruct Hstep as (b & s1 & -> & Hs1).
    destruct (IH (acc ++ [render it score sem kw]) s1 Hidx) as (recs & s' & Hrun & HF & Hs').
    exists (render it score sem kw :: recs), s'. split_and!.
    + rewrite Hrun. by rewrite <- app_assoc.
    + constructor; [| done]. by exists it, score, sem, kw.
    + intros Hnone. rewrite Hs', Hs1; done.
Qed.


Lemma length_slice_to {B} (limit : Z) (l : list B) :
  length (Py.slice_to limit l)
  = if (0 <=? limit)%Z then Nat.min (Z.to_nat limit) (length l)
    else (length l - Z.to_nat (- limit))%nat.
Proof.
  unfold Py.slice_to. destruct (0 <=? limit)%Z; rewrite length_take; lia.
Qed.

Lemma slice_to_lookup {B} (limit : Z) (l : list B) p a :
  Py.slice_to limit l !! p = Some a -> l !! p = Some a.
Proof.
  unfold Py.slice_to. destruct (0 <=? limit)%Z; rewrite lookup_take_Some; tauto.
Qed.

Lemma slice_to_elem {B} (limit : Z) (l : list B) x : x ∈ Py.slice_to limit l -> x ∈ l.
Proof.
  rewrite !list_elem_of_lookup. intros [i Hi]. exists i. by eapply slice_to_lookup.
Qed.



End Recommend.

(** ** recommend: a call in which no step fails *)

Section RecommendSuccess.

Context {A : Type} (ar : arith A) (argsort : list A -> list nat).
Hypothesis argsort_sorts : Np.sorts ar argsort.
Context {S : Type} (db : store_api S).
Variable encode : string -> result (list A).
Variable cosine_similarity : list (list A) -> list (list A) -> result (list (list A)).
Variable keyword_inference : string -> list string -> result (list A).

Lemma entries_descending items (hybrid semantic keyword : list A) limit recs :
  Forall2 (entry items hybrid semantic keyword)
    (Py.slice_to limit (sorted_indices argsort hybrid)) recs ->
  descending ar (r_score <$> recs).
Proof using argsort_sorts.
  intros HF p q x y Hp Hq Hpq.
  apply list_lookup_fmap_Some in Hp as (rp & -> & Hp), Hq as (rq & -> & Hq).
  destruct (Forall2_lookup_r _ _ _ _ _ HF Hp)
    as (a & Ha & (ita & xa & sa & ka & _ & Hxa & _ & _ & ->)).
  destruct (Forall2_lookup_r _ _ _ _ _ HF Hq)
    as (b & Hb & (itb & xb & sb & kb & _ & Hxb & _ & _ & ->)).
  apply slice_to_lookup in Ha, Hb. simpl.
  by eapply (sorted_indices_order ar argsort argsort_sorts hybrid p q a b).
Qed.


(** When the catalog is read, the two score vectors have one entry per
    item, the boost goes through and every call of [log_interaction]
    returns, [recommend] returns the ranking: the entries for the first
    indices of [np.argsort(hybrid_scores)[::-1]], in that order. *)
Lemma recommend_success query user_id limit hybrid_weight s items semantic hybrid :
  let keyword := keyword_relevance ar keyword_inference query (item_text <$> items) in
  (Py.truthy_int user_id = None \/
   forall uid i t s0, exists b s1,
     log_interaction db uid i t "recommendation" s0 = (Ok b, s1)) ->
  get_all_items db s = Ok items ->
  semantic_similarity ar encode cosine_similarity query (item_text <$> items) = Ok semantic ->
  length semantic = length items ->
  length keyword = length items ->
  personalize ar db user_id items
    (zip_with (blend ar hybrid_weight) semantic keyword) s = (Ok hybrid, s) ->
  length hybrid = length items ->
  exists recs s',
    recommend ar argsort db encode cosine_similarity keyword_inference
      query user_id limit hybrid_weight s = (Ok recs, s') /\
    Forall2 (entry items hybrid semantic keyword)
      (Py.slice_to limit (sorted_indices argsort hybrid)) recs /\
    (Py.truthy_int user_id = None -> s' = s) /\
    length recs = (if (0 <=? limit)%Z then Nat.min (Z.to_nat limit) (length items)
                   else (length items - Z.to_nat (- limit))%nat).
Proof using argsort_sorts.
  intros keyword. subst keyword. intros Hlog Hitems Hsem Hls Hlk Hpers Hlh.
  assert (Hlen : forall recs,
    Forall2 (entry items hybrid semantic
               (keyword_relevance ar keyword_inference query (item_text <$> items)))
      (Py.slice_to limit (sorted_indices argsort hybrid)) recs ->
    length recs = (if (0 <=? limit)%Z then Nat.min (Z.to_nat limit) (length items)
                   else (length items - Z.to_nat (- limit))%nat)).
  { intros recs HF.
    rewrite <- (Forall2_length _ _ _ HF), length_slice_to.
    by rewrite (length_sorted_indices ar argsort argsort_sorts), Hlh. }
  unfold recommend, try_except, recommend_body. unfold_M. rewrite Hitems.
  destruct items as [| it0 items0] eqn:Hcat.
  { destruct hybrid; [| done].
    assert (Hnil : Py.slice_to limit (sorted_indices argsort (@nil A)) = []).
    { apply length_zero_iff_nil. rewrite length_slice_to.
      rewrite (length_sorted_indices ar argsort argsort_sorts). simpl.
      destruct (0 <=? limit)%Z; lia. }
    exists [], s. rewrite Hnil. split_and!; [done | constructor | done |].
    simpl. destruct (0 <=? limit)%Z; lia. }
  rewrite <- Hcat in *. clear Hcat it0 items0.
  rewrite Hsem.
  rewrite (hybrid_scores_same_length ar _ _ _ (eq_trans Hls (eq_sym Hlk))).
  rewrite Hpers.
  destruct (emit_entries db user_id items hybrid semantic
              (keyword_relevance ar keyword_inference query (item_text <$> items)) Hlog
              (Py.slice_to limit (sorted_indices argsort hybrid)) [] s)
    as (recs & s' & Hrun & HF & Hs').
  { rewrite Forall_forall. intros idx Hidx.
    apply slice_to_elem, (sorted_indices_bound ar argsort argsort_sorts) in Hidx. lia. }
  exists recs, s'. rewrite Hrun. split_and!; [done | done | done | by apply Hlen].
Qed.


End RecommendSuccess.

(** On the SQLite store the INSERT of a [recommendation] breaks the CHECK
    constraint of [interactions]; [log_interaction] answers false and
    nothing is written. *)
Lemma check_interaction_type_recommendation :
  DatabaseManager.check_interaction_type "recommendation" = false.
Proof. reflexivity. Qed.

Lemma log_interaction_recommendation user_id item_id item_type db :
  DatabaseManager.log_interaction user_id item_id item_type "recommendation" db
  = (Ok false, db).
Proof.
  unfold DatabaseManager.log_interaction, DatabaseManager.transaction,
    DatabaseManager.log_interaction_statements, DatabaseManager.insert_interaction.
  rewrite check_interaction_type_recommendation.
  by destruct (DatabaseManager.check_item_type item_type).
Qed.




(** ** The tag boost *)

(** C6 (the code at the failing input, and at every input like it): when
    one item of the catalog has no tags text (the column is nullable) and
    the user has preferred tags, the loop of the boost raises at that
    item and [recommend] returns the empty list: no item keeps its score
    and none gets the factor [1 + 0.2 * c], whatever the scores, the sort
    and the other items.  [train_user_preferences] guards the same access
    with [if item and item['tags']]. *)
Theorem recommend_fails_on_null_tags {A : Type} (ar : arith A)
    (argsort : list A -> list nat) {S : Type} (db : store_api S)
    (encode : string -> result (list A))
    (cosine_similarity : list (list A) -> list (list A) -> result (list (list A)))
    (keyword_inference : string -> list string -> result (list A))
    (query : string) (uid : Z) (limit : Z) (hybrid_weight : A) (s : S)
    (items : list item) (semantic pre : list A) (p : prefs) (t : string) (ts : list string) :
  uid <> 0 ->
  get_all_items db s = Ok items ->
  semantic_similarity ar encode cosine_similarity query (item_text <$> items) = Ok semantic ->
  hybrid_scores ar hybrid_weight semantic
    (keyword_relevance ar keyword_inference query (item_text <$> items)) = Ok pre ->
  get_user_preferences db uid s = Ok p ->
  p !! "preferred_tags"%string = Some (t :: ts) ->
  (exists it, it ∈ items /\ it_tags it = None) ->
  recommend ar argsort db encode cosine_similarity keyword_inference
    query (Some uid) limit hybrid_weight s = (Ok [], s).
Proof.
  intros Huid Hitems Hsem Hpre Hp Htags Hnull.
  destruct (personalize_null_tags ar db uid p t ts items pre s Huid Hp Htags Hnull)
    as [e He].
  destruct items as [| it items]; [by destruct Hnull as (? & ?%elem_of_nil & _) |].
  eapply try_except_raise. by eapply recommend_body_boost_fails.
Qed.

(** At the failing input: event 1 shares the tag [ml] with user 7, event 2
    has no tags text; for user 7 nothing is returned, while the same
    request without a user returns both events. *)
Lemma recommend_fails_on_null_tags_witness :
  recommend exact Np.insertion_argsort DatabaseManager.api Examples.encode1
    (Examples.similarity (1 # 2)) Examples.no_logits "ml" (Some 7) 5 (7 # 10) Examples.db6
  = (Ok [], Examples.db6)
  /\ size (common_tags (list_to_set ["ml"%string]) "ml,ai") = 1%nat
  /\ exists recs,
       recommend exact Np.insertion_argsort DatabaseManager.api Examples.encode1
         (Examples.similarity (1 # 2)) Examples.no_logits "ml" None 5 (7 # 10) Examples.db6
       = (Ok recs, Examples.db6)
       /\ length recs = 2%nat.
Proof.
  split; [| split].
  - eapply (recommend_fails_on_null_tags exact Np.insertion_argsort DatabaseManager.api
              Examples.encode1 (Examples.similarity (1 # 2)) Examples.no_logits
              "ml" 7 5 (7 # 10) Examples.db6 _ _ _
              {[ "preferred_tags"%string := ["ml"%string] ]} "ml"%string []).
    + lia.
    + reflexivity.
    + reflexivity.
    + reflexivity.
    + reflexivity.
    + reflexivity.
    + eexists. split; [apply elem_of_cons; right; apply elem_of_cons; left; reflexivity |].
      reflexivity.
  - vm_compute. reflexivity.
  - eexists. split; [vm_compute; reflexivity |]. reflexivity.
Defined.

(** ** The order of the result *)




(** ** The boost and the order *)

Section BoostOrder.

#[local] Open Scope Q_scope.


Lemma boost_factor_ge_1 c : 1 <= boost_factor exact c.
Proof.
  unfold boost_factor. simpl.
  assert (0 <= inject_Z (Z.of_nat c)).
  { change 0 with (inject_Z 0). rewrite <- Zle_Qle. lia. }
  lra.
Qed.


End BoostOrder.




(** ** Texts *)

Section Texts.

#[local] Open Scope string_scope.

Lemma split_not_nil sep s : Py.split sep s <> [].
Proof.
  destruct s as [| a s]; simpl; [done |].
  destruct (Ascii.eqb a sep); [done |]. by destruct (Py.split sep s).
Qed.

Lemma split_cons sep a s :
  Py.split sep (String a s)
  = if Ascii.eqb a sep then "" :: Py.split sep s
    else String a (hd "" (Py.split sep s)) :: tl (Py.split sep s).
Proof.
  simpl. destruct (Ascii.eqb a sep); [done |].
  pose proof (split_not_nil sep s). by destruct (Py.split sep s).
Qed.

Lemma concat_cons sep x l :
  l <> [] -> String.concat sep (x :: l) = x ++ sep ++ String.concat sep l.
Proof. by destruct l. Qed.

Lemma split_pieces sep s : pieces_of sep s (Py.split sep s).
Proof.
  unfold pieces_of. split; [apply split_not_nil |].
  induction s as [| a s [IHc IHf]].
  - split; [done |]. constructor; [| done]. simpl. apply not_elem_of_nil.
  - rewrite split_cons. pose proof (split_not_nil sep s) as Hne.
    destruct (Ascii.eqb a sep) eqn:Ha.
    + apply Ascii.eqb_eq in Ha as ->. split.
      * rewrite concat_cons by done. simpl. by rewrite IHc.
      * constructor; [simpl; apply not_elem_of_nil | done].
    + apply Ascii.eqb_neq in Ha.
      destruct (Py.split sep s) as [| h t]; [done |]. cbn [hd tl].
      apply Forall_cons in IHf as [Hh Ht]. split.
      * rewrite <- IHc. by destruct t.
      * constructor; [| done]. simpl. intros [-> | H]%elem_of_cons; done.
Qed.

Lemma append_nil_l r : "" ++ r = r.
Proof. reflexivity. Qed.

Lemma append_cons a x r : String a x ++ r = String a (x ++ r).
Proof. reflexivity. Qed.

Lemma split_app sep x r :
  sep ∉ list_ascii_of_string x ->
  Py.split sep (x ++ r) = (x ++ hd "" (Py.split sep r)) :: tl (Py.split sep r).
Proof.
  induction x as [| a x IH]; simpl; intros Hx.
  - rewrite !append_nil_l. pose proof (split_not_nil sep r).
    by destruct (Py.split sep r).
  - apply not_elem_of_cons in Hx as [Ha Hx]. rewrite append_cons.
    destruct (Ascii.eqb a sep) eqn:E; [apply Ascii.eqb_eq in E; subst a; by destruct Ha |].
    by rewrite (IH Hx).
Qed.

Lemma string_app_nil_r s : s ++ "" = s.
Proof. induction s as [| a s IH]; [done |]. by rewrite append_cons, IH. Qed.

Lemma pieces_unique sep s l : pieces_of sep s l -> l = Py.split sep s.
Proof.
  intros (Hne & <- & HF).
  induction l as [| x l IH]; [done |].
  apply Forall_cons in HF as [Hx HF].
  destruct l as [| y l].
  - simpl. rewrite <- (string_app_nil_r x) at 2. rewrite split_app by done.
    simpl. by rewrite string_app_nil_r.
  - rewrite concat_cons by done. rewrite split_app by done. simpl.
    rewrite Ascii.eqb_refl. simpl. rewrite string_app_nil_r. f_equal.
    by apply IH.
Qed.

End Texts.

Section Trimming.

Lemma drop_spaces_spec cs :
  exists l, cs = l ++ Py.drop_spaces cs
    /\ Forall (fun c => Py.is_space c = true) l
    /\ forall c, head (Py.drop_spaces cs) = Some c -> Py.is_space c = false.
Proof.
  induction cs as [| c cs (l & Hl & HF & Hh)]; simpl.
  - exists []. split_and!; done.
  - destruct (Py.is_space c) eqn:E.
    + exists (c :: l). split_and!; [simpl; congruence | by constructor | done].
    + exists []. split_and!; [done | done |]. simpl. by intros ? [= <-].
Qed.

Lemma drop_spaces_all cs :
  Forall (fun c => Py.is_space c = true) cs -> Py.drop_spaces cs = [].
Proof. induction 1 as [| c cs Hc _ IH]; simpl; [done |]. by rewrite Hc. Qed.

Lemma drop_spaces_app l k :
  Forall (fun c => Py.is_space c = true) l -> Py.drop_spaces (l ++ k) = Py.drop_spaces k.
Proof. induction 1 as [| c cs Hc _ IH]; simpl; [done |]. by rewrite Hc. Qed.

Lemma drop_spaces_head m :
  (forall c, head m = Some c -> Py.is_space c = false) -> Py.drop_spaces m = m.
Proof. destruct m as [| c m]; simpl; [done |]. intros H. by rewrite (H c). Qed.

Lemma head_reverse {X} (l : list X) : head (reverse l) = last l.
Proof.
  induction l as [| x l IH] using rev_ind; [done |].
  by rewrite reverse_app, last_snoc.
Qed.

Lemma strip_trims piece : trims piece (Py.strip piece).
Proof.
  unfold trims, Py.strip.
  destruct (drop_spaces_spec (Utf8.chars piece)) as (l & Hl & HFl & Hhead).
  set (k := Py.drop_spaces (Utf8.chars piece)) in *.
  destruct (drop_spaces_spec (reverse k)) as (r & Hr & HFr & Hlast).
  set (m := Py.drop_spaces (reverse k)) in *.
  exists l, (reverse m), (reverse r).
  assert (Hk : k = reverse m ++ reverse r).
  { rewrite <- reverse_app, <- Hr. by rewrite reverse_involutive. }
  split_and!.
  - by rewrite <- Hk.
  - done.
  - by apply Forall_reverse.
  - intros c Hc. apply Hhead. rewrite Hk.
    destruct (reverse m); [done |]. done.
  - intros c Hc. apply Hlast. by rewrite <- head_reverse, reverse_involutive in Hc.
  - done.
Qed.

Lemma trims_unique piece t : trims piece t -> t = Py.strip piece.
Proof.
  intros (l & m & r & Hc & HFl & HFr & Hh & Hl & ->). unfold Py.strip. rewrite Hc.
  rewrite (drop_spaces_app l _ HFl).
  destruct m as [| c m].
  - simpl. rewrite (drop_spaces_all r HFr). done.
  - rewrite (drop_spaces_head ((c :: m) ++ r)); [| simpl; by intros ? [= <-]; apply Hh].
    rewrite reverse_app, (drop_spaces_app (reverse r)) by by apply Forall_reverse.
    rewrite drop_spaces_head; [by rewrite reverse_involutive |].
    intros c' Hc'. apply Hl. by rewrite <- head_reverse.
Qed.

(** The tags of a tags text: the pieces between its commas, each without
    the white space at its ends. *)
Lemma elem_of_tag_set tags t :
  t ∈ tag_set tags <->
  exists l piece, pieces_of "," tags l /\ piece ∈ l /\ trims piece t.
Proof.
  unfold tag_set. rewrite elem_of_list_to_set, list_elem_of_fmap. split.
  - intros (piece & -> & Hin). exists (Py.split "," tags), piece.
    split_and!; [apply split_pieces | done | apply strip_trims].
  - intros (l & piece & Hl & Hin & Ht). exists piece.
    apply pieces_unique in Hl as ->. by apply trims_unique in Ht.
Qed.

End Trimming.

(** ** train_user_preferences *)

Section Train.

Context {S : Type} (db : store_api S).
Variable list_of_set : gset string -> list string.

Lemma positive_items_none interactions :
  (forall i, i ∈ interactions ->
     ia_interaction_type i <> "like"%string /\ ia_interaction_type i <> "bookmark"%string) ->
  positive_items interactions = [].
Proof.
  intros H. unfold positive_items.
  induction interactions as [| i l IH]; simpl; [done |].
  assert (Hi : is_positive i = false).
  { unfold is_positive. apply bool_decide_eq_false.
    destruct (H i) as [H1 H2]; [left |].
    intros Hin. apply list_elem_of_In in Hin. simpl in Hin. intuition. }
  rewrite Hi. apply IH. intros j Hj. apply H. by right.
Qed.

Lemma positive_items_spec interactions item_id item_type :
  (item_id, item_type) ∈ positive_items interactions <->
  exists i, i ∈ interactions
    /\ ia_interaction_type i ∈ ["like"; "bookmark"]%string
    /\ ia_item_id i = item_id /\ ia_item_type i = item_type.
Proof.
  unfold positive_items. rewrite list_elem_of_fmap. split.
  - intros (i & [= -> ->] & Hi). apply list_elem_of_In, filter_In in Hi as [Hi Hpos].
    exists i. split_and!; [by apply list_elem_of_In | | done | done].
    unfold is_positive in Hpos. by apply bool_decide_eq_true in Hpos.
  - intros (i & Hi & Hk & <- & <-). exists i. split; [done |].
    apply list_elem_of_In, filter_In. split; [by apply list_elem_of_In |].
    unfold is_positive. by apply bool_decide_eq_true.
Qed.

(** The tags one catalog item gives to the profile. *)
Lemma collect_tags_spec s : forall positive acc,
  (forall item_id item_type, (item_id, item_type) ∈ positive ->
     exists o, get_item db item_id item_type s = Ok o) ->
  exists T,
    collect_tags db positive acc s = (Ok T, s) /\
    forall t, t ∈ T <->
      t ∈ acc \/ exists item_id item_type it item_tags,
        (item_id, item_type) ∈ positive /\
        get_item db item_id item_type s = Ok (Some it) /\
        it_tags it = Some item_tags /\ item_tags <> ""%string /\
        t ∈ tag_set item_tags.
Proof.
  induction positive as [| [item_id item_type] rest IH]; intros acc Hget; simpl.
  - exists acc. split; [done |]. intros t. split; [by left |].
    intros [H | (i & ty & ? & ? & Hin & _)]; [done | by apply elem_of_nil in Hin].
  - unfold_M.
    destruct (Hget item_id item_type) as [o Ho]; [by left |]. rewrite Ho.
    assert (Hrest : forall i ty, (i, ty) ∈ rest -> exists o, get_item db i ty s = Ok o).
    { intros i ty Hin. apply Hget. by right. }
    assert (Hstep : forall acc',
      (forall t, t ∈ acc' <-> t ∈ acc \/ exists it item_tags,
          o = Some it /\ it_tags it = Some item_tags /\ item_tags <> ""%string /\
          t ∈ tag_set item_tags) ->
      exists T, collect_tags db rest acc' s = (Ok T, s) /\
        forall t, t ∈ T <-> t ∈ acc \/ exists i ty it item_tags,
          (i, ty) ∈ (item_id, item_type) :: rest /\
          get_item db i ty s = Ok (Some it) /\
          it_tags it = Some item_tags /\ item_tags <> ""%string /\
          t ∈ tag_set item_tags).
    { intros acc' Hacc. destruct (IH acc' Hrest) as (T & Hrun & HT). exists T.
      split; [done |]. intros t. rewrite HT, Hacc. split.
      - intros [[H | (it & tg & -> & H)] | (i & ty & it & tg & Hin & H)];
          [by left | right | right].
        + exists item_id, item_type, it, tg. split; [left | done].
        + exists i, ty, it, tg. split; [by right | done].
      - intros [H | (i & ty & it & tg & Hin & Hg & H)]; [by left; left |].
        apply elem_of_cons in Hin as [[= -> ->] | Hin].
        + left; right. exists it, tg. split; [congruence | done].
        + right. by exists i, ty, it, tg. }
    destruct o as [it |].
    + destruct (it_tags it) as [[| a tl] |] eqn:Htags.
      * apply Hstep. intros t. split; [by left |].
        intros [H | (it' & tg & [= <-] & Ht & Hne & _)]; [done | congruence].
      * apply Hstep. intros t. rewrite elem_of_union. split.
        -- intros [H | H]; [by left | right]. by exists it, (String a tl).
        -- intros [H | (it' & tg & [= <-] & Ht & Hne & Hin)]; [by left | right].
           congruence.
      * apply Hstep. intros t. split; [by left |].
        intros [H | (it' & tg & [= <-] & Ht & _)]; [done | congruence].
    + apply Hstep. intros t. split; [by left |].
      intros [H | (it' & tg & [=] & _)]; done.
Qed.

(** What [train_user_preferences] hands to the store, and what it answers. *)
Lemma train_body_positive user_id s interactions :
  get_user_interactions db user_id s = Ok interactions ->
  (exists i, i ∈ interactions /\ ia_interaction_type i ∈ ["like"; "bookmark"]%string) ->
  (forall i, i ∈ interactions -> ia_interaction_type i ∈ ["like"; "bookmark"]%string ->
     exists o, get_item db (ia_item_id i) (ia_item_type i) s = Ok o) ->
  exists T,
    (forall t, t ∈ T <->
       exists i it item_tags,
         i ∈ interactions /\ ia_interaction_type i ∈ ["like"; "bookmark"]%string /\
         get_item db (ia_item_id i) (ia_item_type i) s = Ok (Some it) /\
         it_tags it = Some item_tags /\ item_tags <> ""%string /\
         t ∈ tag_set item_tags) /\
    train_user_preferences db list_of_set user_id s
    = match update_user_preferences db user_id
              {[ "preferred_tags"%string := list_of_set T ]} s with
      | (Ok _, s') => (Ok true, s')
      | (Raise _, s') => (Ok false, s')
      end.
Proof.
  intros Hread (i0 & Hi0 & Hk0) Hitems.
  assert (Hpos0 : (ia_item_id i0, ia_item_type i0) ∈ positive_items interactions).
  { apply positive_items_spec. by exists i0. }
  destruct (collect_tags_spec s (positive_items interactions) ∅) as (T & Hrun & HT).
  { intros item_id item_type (i & Hi & Hk & <- & <-)%positive_items_spec.
    by apply Hitems. }
  exists T. split.
  - intros t. rewrite HT. split.
    + intros [H | (item_id & item_type & it & tg & Hp & Hg & H)];
        [by apply elem_of_empty in H |].
      apply positive_items_spec in Hp as (i & Hi & Hk & <- & <-).
      by exists i, it, tg.
    + intros (i & it & tg & Hi & Hk & Hg & H). right.
      exists (ia_item_id i), (ia_item_type i), it, tg.
      split; [apply positive_items_spec; by exists i | done].
  - destruct interactions as [| i l]; [by apply elem_of_nil in Hi0 |].
    unfold train_user_preferences, try_except, train_body. unfold_M. rewrite Hread.
    destruct (positive_items (i :: l)) as [| p0 ps];
      [by apply elem_of_nil in Hpos0 |].
    rewrite Hrun.
    by destruct (update_user_preferences db user_id _ s) as [[b | e] s'].
Qed.

End Train.

(** C4: when the interactions of the user hold no [like] and no
    [bookmark], [train_user_preferences] returns false and the store is
    exactly the one it started from. *)
Theorem train_without_positive_interactions {S : Type} (db : store_api S)
    (list_of_set : gset string -> list string) (user_id : Z) (s : S)
    (interactions : list interaction) :
  get_user_interactions db user_id s = Ok interactions ->
  (forall i, i ∈ interactions ->
     ia_interaction_type i <> "like"%string /\ ia_interaction_type i <> "bookmark"%string) ->
  train_user_preferences db list_of_set user_id s = (Ok false, s).
Proof.
  intros Hread Hnone. unfold train_user_preferences, try_except, train_body. unfold_M.
  rewrite Hread. destruct interactions as [| i l]; [done |].
  by rewrite (positive_items_none _ Hnone).
Qed.

Lemma train_without_positive_interactions_witness :
  train_user_preferences DatabaseManager.api elements 7 Examples.db4
  = (Ok false, Examples.db4).
Proof.
  eapply (train_without_positive_interactions DatabaseManager.api elements 7 Examples.db4).
  - reflexivity.
  - intros i Hi. apply list_elem_of_In in Hi. simpl in Hi.
    destruct Hi as [Hi | [Hi | []]]; subst i; split; discriminate.
Defined.

(** ** DatabaseManager *)

(** The methods of [DatabaseManager.api] are those of the module. *)
Lemma api_get_item item_id item_type db :
  get_item DatabaseManager.api item_id item_type db
  = DatabaseManager.get_item item_id item_type db.
Proof. reflexivity. Qed.

Lemma api_get_user_interactions user_id db :
  get_user_interactions DatabaseManager.api user_id db
  = DatabaseManager.get_user_interactions user_id db.
Proof. reflexivity. Qed.

Lemma api_update_user_preferences user_id p db :
  update_user_preferences DatabaseManager.api user_id p db
  = DatabaseManager.update_user_preferences user_id p db.
Proof. reflexivity. Qed.

Section TrainStore.

Import DatabaseManager.

Lemma update_user_preferences_spec user_id p db :
  exists db',
    update_user_preferences user_id p db = (Ok true, db') /\
    get_user_preferences user_id db' = Ok p /\
    events db' = events db /\ courses db' = courses db /\
    interactions db' = interactions db /\
    forall u, u <> user_id -> users db' !! u = users db !! u.
Proof.
  unfold update_user_preferences, transaction, insert_or_ignore_user,
    update_preferences_row, get_user_preferences.
  destruct (users db !! user_id) as [row |] eqn:Hrow; simpl.
  - eexists. split; [done |]. simpl.
    rewrite lookup_alter_eq, Hrow. simpl. split_and!; try done.
    intros u Hu. by rewrite lookup_alter_ne.
  - eexists. split; [done |]. simpl.
    rewrite lookup_alter_eq, lookup_insert_eq. simpl. split_and!; try done.
    intros u Hu. by rewrite lookup_alter_ne, lookup_insert_ne.
Qed.

Lemma get_item_answers item_id item_type db :
  exists o, get_item item_id item_type db = Ok o.
Proof. unfold get_item. destruct (check_item_type item_type); by eexists. Qed.

End TrainStore.

(** C5 (as stated, refuted): user 7 has liked event 1 and bookmarked
    course 1, and another connection holds the write lock of the database.
    [update_user_preferences] answers false and writes nothing;
    [train_user_preferences] does not look at the answer and returns true,
    and the stored [preferred_tags] are what they were, not the tags of
    the two items. *)
Lemma train_returns_true_without_write :
  (exists i, i ∈ Examples.history3
     /\ ia_interaction_type i = "like"%string)
  /\ get_user_interactions write_locked 7 Examples.db3
     = Ok Examples.history3
  /\ (forall list_of_set,
        train_user_preferences write_locked list_of_set 7 Examples.db3
        = (Ok true, Examples.db3))
  /\ get_user_preferences write_locked 7 Examples.db3
     = Ok {[ "preferred_tags"%string := ["old"%string] ]}.
Proof.
  split; [| split; [| split]].
  - eexists. split; [apply elem_of_cons; right; apply elem_of_cons; left; reflexivity |].
    reflexivity.
  - reflexivity.
  - intros list_of_set.
    destruct (train_body_positive write_locked list_of_set 7 Examples.db3
                Examples.history3) as (T & _ & ->).
    + reflexivity.
    + eexists. split; [apply elem_of_cons; right; apply elem_of_cons; left; reflexivity |].
      apply elem_of_cons. by left.
    + intros i _ _. apply get_item_answers.
    + reflexivity.
  - reflexivity.
Qed.

(** C5 (amended): for a user with at least one [like] or [bookmark], whose
    interactions and items the store can read, [train_user_preferences]
    hands the store, as the new preferences of the user, the dictionary
    with the single key [preferred_tags]; its value lists, without
    repetition and in the order [list] gives, exactly the tags of the
    catalog items that the [like] and [bookmark] interactions resolve to:
    the pieces of their [tags] texts between the commas, each without the
    white space at its ends (items that are missing, or whose [tags] text
    is NULL or empty, give nothing; interactions of other kinds give
    nothing).  When the store answers that the write is done,
    [train_user_preferences] returns true in the store so written; and in
    the SQLite store a write that is done leaves exactly this dictionary as
    the preferences of the user, whatever was stored before, and leaves
    the catalog, the interactions and the other users as they were. *)
Theorem train_overwrites_preferred_tags {S : Type} (db : store_api S)
    (list_of_set : gset string -> list string) (user_id : Z) (s : S)
    (interactions : list interaction) :
  Py.lists_set list_of_set ->
  get_user_interactions db user_id s = Ok interactions ->
  (exists i, i ∈ interactions /\ ia_interaction_type i ∈ ["like"; "bookmark"]%string) ->
  (forall i, i ∈ interactions -> ia_interaction_type i ∈ ["like"; "bookmark"]%string ->
     exists o, get_item db (ia_item_id i) (ia_item_type i) s = Ok o) ->
  exists tags,
    NoDup tags /\
    (forall t, t ∈ tags <->
       exists i it item_tags l piece,
         i ∈ interactions /\ ia_interaction_type i ∈ ["like"; "bookmark"]%string /\
         get_item db (ia_item_id i) (ia_item_type i) s = Ok (Some it) /\
         it_tags it = Some item_tags /\ item_tags <> ""%string /\
         pieces_of "," item_tags l /\ piece ∈ l /\ trims piece t) /\
    (forall s',
       update_user_preferences db user_id {[ "preferred_tags"%string := tags ]} s
         = (Ok true, s') ->
       train_user_preferences db list_of_set user_id s = (Ok true, s')) /\
    (forall d d',
       DatabaseManager.update_user_preferences user_id
         {[ "preferred_tags"%string := tags ]} d = (Ok true, d') ->
       DatabaseManager.get_user_preferences user_id d'
         = Ok {[ "preferred_tags"%string := tags ]} /\
       DatabaseManager.events d' = DatabaseManager.events d /\
       DatabaseManager.courses d' = DatabaseManager.courses d /\
       DatabaseManager.interactions d' = DatabaseManager.interactions d /\
       (forall u, u <> user_id ->
          DatabaseManager.users d' !! u = DatabaseManager.users d !! u)).
Proof.
  intros Hlist Hread Hpos Hitems.
  destruct (train_body_positive db list_of_set user_id s interactions Hread Hpos Hitems)
    as (T & HT & Hrun).
  exists (list_of_set T). split_and!.
  - rewrite (Hlist T). apply NoDup_elements.
  - intros t. rewrite (Hlist T), elem_of_elements, HT. split.
    + intros (i & it & tg & Hi & Hk & Hg & Ht & Hne & Hin).
      apply elem_of_tag_set in Hin as (l & piece & Hl & Hp & Htr).
      by exists i, it, tg, l, piece.
    + intros (i & it & tg & l & piece & Hi & Hk & Hg & Ht & Hne & Hl & Hp & Htr).
      exists i, it, tg. split_and!; try done.
      apply elem_of_tag_set. by exists l, piece.
  - intros s' Hupd. by rewrite Hrun, Hupd.
  - intros d d' Hupd.
    destruct (update_user_preferences_spec user_id
                {[ "preferred_tags"%string := list_of_set T ]} d)
      as (d1 & Hupd1 & Hget & Hev & Hco & Hin & Hus).
    rewrite Hupd in Hupd1. by injection Hupd1 as <-.
Qed.

Lemma train_overwrites_preferred_tags_witness :
  exists db' tags,
    train_user_preferences DatabaseManager.api elements 7 Examples.db3 = (Ok true, db') /\
    DatabaseManager.get_user_preferences 7 db'
      = Ok {[ "preferred_tags"%string := tags ]} /\
    NoDup tags /\ "python"%string ∈ tags /\ "old"%string ∉ tags.
Proof.
  destruct (train_overwrites_preferred_tags DatabaseManager.api elements 7 Examples.db3
              Examples.history3)
    as (tags & Hnd & Htags & Hrun & Hstore).
  - intros T. reflexivity.
  - reflexivity.
  - eexists. split; [apply elem_of_cons; right; apply elem_of_cons; left; reflexivity |].
    apply elem_of_cons. left. reflexivity.
  - intros i _ _. apply get_item_answers.
  - destruct (update_user_preferences_spec 7 {[ "preferred_tags"%string := tags ]}
                Examples.db3) as (db' & Hupd & _).
    exists db', tags. split; [exact (Hrun db' Hupd) |].
    split; [exact (proj1 (Hstore Examples.db3 db' Hupd)) |].
    split; [exact Hnd |]. split.
    + apply Htags.
      exists (Examples.seen 7 1 "course" "bookmark"),
        (DatabaseManager.course_item (Examples.course 1 "ML from scratch" "ml, python")),
        "ml, python"%string, (Py.split "," "ml, python"), " python"%string.
      split; [apply elem_of_cons; right; apply elem_of_cons; right;
              apply elem_of_cons; left; reflexivity |].
      split; [apply elem_of_cons; right; apply elem_of_cons; left; reflexivity |].
      split; [reflexivity |]. split; [reflexivity |]. split; [discriminate |].
      split; [apply split_pieces |].
      split; [apply elem_of_cons; right; apply elem_of_cons; left; reflexivity |].
      exact (strip_trims " python").
    + intros Hin. apply Htags in Hin
        as (i & it & tg & l & piece & Hi & Hk & Hg & Ht & Hne & Hl & Hp & Htr).
      apply pieces_unique in Hl. apply trims_unique in Htr. subst l.
      apply list_elem_of_In in Hi. simpl in Hi.
      destruct Hi as [<- | [<- | [<- | []]]].
      * apply list_elem_of_In in Hk. simpl in Hk.
        destruct Hk as [Hk | [Hk | []]]; discriminate Hk.
      * vm_compute in Hg. injection Hg as <-. vm_compute in Ht. injection Ht as <-.
        apply list_elem_of_In in Hp. simpl in Hp.
        destruct Hp as [<- | [<- | []]]; vm_compute in Htr; discriminate Htr.
      * vm_compute in Hg. injection Hg as <-. vm_compute in Ht. injection Ht as <-.
        apply list_elem_of_In in Hp. simpl in Hp.
        destruct Hp as [<- | [<- | []]]; vm_compute in Htr; discriminate Htr.
Defined.

Section Store.

Import DatabaseManager.

Context {A : Type} (ar : arith A) (argsort : list A -> list nat).

Lemma emit_store_unchanged user_id items (hybrid semantic keyword : list A) :
  forall indices acc db r db',
    emit api user_id items hybrid semantic keyword indices acc db = (r, db') -> db' = db.
Proof.
  induction indices as [| idx indices IH]; intros acc db r db' H; simpl in H.
  - unfold_M. by injection H as _ <-.
  - unfold_M. unfold Py.index in H.
    destruct (items !! idx) as [it |]; [| by injection H as _ <-].
    destruct (hybrid !! idx) as [score |]; [| by injection H as _ <-].
    destruct (semantic !! idx) as [sem |]; [| by injection H as _ <-].
    destruct (keyword !! idx) as [kw |]; [| by injection H as _ <-].
    destruct (Py.truthy_int user_id) as [uid |].
    + simpl in H. rewrite log_interaction_recommendation in H. by eapply IH.
    + by eapply IH.
Qed.

(** On this store [recommend] never changes anything: no interaction is
    appended, with or without a user. *)
Lemma recommend_store_unchanged encode cosine_similarity keyword_inference
    query user_id limit hybrid_weight db :
  (recommend ar argsort api encode cosine_similarity keyword_inference
     query user_id limit hybrid_weight db).2 = db.
Proof.
  unfold recommend, try_except.
  destruct (recommend_body _ _ _ _ _ _ _ _ _ _ _) as [r db'] eqn:H.
  assert (db' = db) as ->; [| by destruct r].
  revert H. unfold recommend_body. unfold_M. simpl.
  destruct ((event_item <$> events db) ++ (course_item <$> courses db))
    as [| it items] eqn:Hitems.
  { by intros [= _ <-]. }
  destruct (semantic_similarity _ _ _ _ _) as [sem | e]; [| by intros [= _ <-]].
  destruct (hybrid_scores _ _ _ _) as [pre | e]; [| by intros [= _ <-]].
  destruct (personalize ar api user_id _ pre db) as [[hybrid | e] db1] eqn:Hp.
  - apply personalize_reads in Hp as ->. apply emit_store_unchanged.
  - apply personalize_reads in Hp as ->. by intros [= _ <-].
Qed.

End Store.

Lemma entries_fmap {A B : Type} items (hybrid semantic keyword : list A)
    (h : recommendation A -> B) (g : item -> B) (d : B) :
  (forall it score sem kw, h (render it score sem kw) = g it) ->
  forall indices recs,
    Forall2 (entry items hybrid semantic keyword) indices recs ->
    h <$> recs = (fun idx => from_option g d (items !! idx)) <$> indices.
Proof.
  intros Hh indices recs HF.
  induction HF as [| idx r indices recs (it & sc & sm & kw & Hit & _ & _ & _ & ->) _ IH];
    [done |].
  rewrite !fmap_cons, IH, Hit. simpl. by rewrite Hh.
Qed.

(** C2 (the code at the failing input): whatever sort [np.argsort] runs,
    [recommend] for user 7 returns the three items of the catalog, yet the
    interactions table is as empty as before, because the INSERT of a
    [recommendation] breaks the CHECK constraint of the table and
    [log_interaction] answers false. *)
Theorem recommend_appends_no_interaction (argsort : list Q -> list nat) :
  Np.sorts exact argsort ->
  exists recs db',
    recommend exact argsort DatabaseManager.api Examples.encode1
      (Examples.similarity (1 # 2)) Examples.no_logits "machine learning" (Some 7) 5
      (7 # 10) Examples.db1
    = (Ok recs, db') /\
    ((fun r => (r_type r, r_id r)) <$> recs
       ≡ₚ [("event"%string, 1); ("event"%string, 2); ("course"%string, 1)]) /\
    DatabaseManager.interactions db' = [] /\
    DatabaseManager.log_interaction 7 1 "event" "recommendation" Examples.db1
      = (Ok false, Examples.db1).
Proof.
  intros Hsorts.
  edestruct (recommend_success exact argsort Hsorts DatabaseManager.api Examples.encode1
               (Examples.similarity (1 # 2)) Examples.no_logits "machine learning"
               (Some 7) 5 (7 # 10) Examples.db1
               [DatabaseManager.event_item (Examples.event 1 "ML conference" "ml,ai");
                DatabaseManager.event_item (Examples.event 2 "Frontend meetup" "frontend");
                DatabaseManager.course_item (Examples.course 1 "ML from scratch" "ml, python")]
               [1 # 2; 1 # 2; 1 # 2]%Q)
    as (recs & db' & Hrun & HF & _ & Hlen).
  - right. intros uid i t s0. exists false, s0. apply log_interaction_recommendation.
  - reflexivity.
  - reflexivity.
  - reflexivity.
  - reflexivity.
  - vm_compute. reflexivity.
  - reflexivity.
  - exists recs, db'. split; [exact Hrun |].
    pose proof (recommend_store_unchanged exact argsort Examples.encode1
                  (Examples.similarity (1 # 2)) Examples.no_logits "machine learning"
                  (Some 7) 5 (7 # 10) Examples.db1) as Hst.
    rewrite Hrun in Hst. simpl in Hst. subst db'.
    split; [| split; reflexivity].
    rewrite (entries_fmap _ _ _ _ (fun r => (r_type r, r_id r))
               (fun it => (it_type it, it_id it)) (""%string, 0) (fun _ _ _ _ => eq_refl)
               _ _ HF).
    unfold Py.slice_to. simpl. rewrite take_ge.
    + rewrite (sorted_indices_perm exact argsort Hsorts). reflexivity.
    + rewrite (length_sorted_indices exact argsort Hsorts). simpl. lia.
Qed.

Lemma recommend_appends_no_interaction_witness :
  exists recs db',
    recommend exact Np.insertion_argsort DatabaseManager.api Examples.encode1
      (Examples.similarity (1 # 2)) Examples.no_logits "machine learning" (Some 7) 5
      (7 # 10) Examples.db1
    = (Ok recs, db') /\
    ((fun r => (r_type r, r_id r)) <$> recs
       ≡ₚ [("event"%string, 1); ("event"%string, 2); ("course"%string, 1)]) /\
    DatabaseManager.interactions db' = [] /\
    DatabaseManager.log_interaction 7 1 "event" "recommendation" Examples.db1
      = (Ok false, Examples.db1).
Proof. apply (recommend_appends_no_interaction Np.insertion_argsort), insertion_argsort_sorts. Defined.

(** ** log_interaction *)

Section LogInteraction.

Import DatabaseManager.

Lemma bump_popularity_frame item_id row :
  let row' := bump_popularity item_id row in
  ev_id row' = ev_id row /\ ev_title row' = ev_title row /\ ev_date row' = ev_date row /\
  ev_location row' = ev_location row /\ ev_tags row' = ev_tags row /\
  ev_description row' = ev_description row /\ ev_url row' = ev_url row /\
  ev_source row' = ev_source row /\ ev_created_at row' = ev_created_at row /\
  ev_updated_at row' = ev_updated_at row /\
  ev_popularity row' = if ev_id row =? item_id then ev_popularity row + 1
                       else ev_popularity row.
Proof. unfold bump_popularity. by destruct (ev_id row =? item_id). Qed.

(** A [like] or [bookmark] of an event: the interaction is appended and the
    popularity of the event with that id grows by one; courses are left
    alone. *)
Lemma log_interaction_event user_id item_id kind db :
  kind ∈ ["like"; "bookmark"]%string ->
  exists db',
    log_interaction user_id item_id "event" kind db = (Ok true, db') /\
    events db' = bump_popularity item_id <$> events db /\
    courses db' = courses db /\
    length (interactions db') = Datatypes.S (length (interactions db)).
Proof.
  intros Hk. unfold log_interaction, transaction, log_interaction_statements,
    insert_interaction.
  assert (Hc : check_interaction_type kind = true).
  { apply bool_decide_eq_true. apply list_elem_of_In in Hk. apply list_elem_of_In.
    simpl in *. tauto. }
  rewrite Hc. simpl. rewrite bool_decide_eq_true_2 by done. simpl.
  eexists. split; [done |]. simpl. split_and!; try done.
  rewrite length_app. simpl. lia.
Qed.

(** A [view] or [dislike]: the interaction is appended, no popularity
    changes. *)
Lemma log_interaction_neutral user_id item_id item_type kind db :
  item_type ∈ ["event"; "course"]%string ->
  kind ∈ ["view"; "dislike"]%string ->
  exists db',
    log_interaction user_id item_id item_type kind db = (Ok true, db') /\
    events db' = events db /\ courses db' = courses db.
Proof.
  intros Ht Hk. unfold log_interaction, transaction, log_interaction_statements,
    insert_interaction.
  assert (Hc : check_interaction_type kind = true).
  { apply bool_decide_eq_true. apply list_elem_of_In in Hk. apply list_elem_of_In.
    simpl in *. tauto. }
  assert (Hn : bool_decide (kind ∈ ["like"; "bookmark"]%string) = false).
  { apply bool_decide_eq_false. intros Hin.
    apply list_elem_of_In in Hk, Hin. simpl in *.
    destruct Hk as [<- | [<- | []]]; intuition discriminate. }
  rewrite Hc. unfold check_item_type. rewrite (bool_decide_eq_true_2 _ Ht). simpl.
  rewrite Hn. simpl. eexists. split; [done |]. done.
Qed.

(** A [like] or [bookmark] of a course: the UPDATE names a column the
    table does not have; [log_interaction] answers false and the store is
    the one it started from. *)
Lemma log_interaction_course user_id item_id kind db :
  kind ∈ ["like"; "bookmark"]%string ->
  log_interaction user_id item_id "course" kind db = (Ok false, db).
Proof.
  intros Hk. unfold log_interaction, transaction, log_interaction_statements,
    insert_interaction.
  assert (Hc : check_interaction_type kind = true).
  { apply bool_decide_eq_true. apply list_elem_of_In in Hk. apply list_elem_of_In.
    simpl in *. tauto. }
  rewrite Hc. simpl. by rewrite bool_decide_eq_true_2 by done.
Qed.

End LogInteraction.

(** C10 (the code at the failing input): a [like] of course 1 answers
    false and leaves the store as it was, so nothing about the course is
    incremented and the interaction itself is not recorded; the same call
    for event 1 answers true and raises the popularity of the event from 0
    to 1. *)
Lemma log_interaction_like_course_fails :
  DatabaseManager.log_interaction 7 1 "course" "like" Examples.db1
    = (Ok false, Examples.db1)
  /\ exists db',
       DatabaseManager.log_interaction 7 1 "event" "like" Examples.db1 = (Ok true, db')
       /\ DatabaseManager.ev_popularity <$> DatabaseManager.events Examples.db1 = [0; 0]
       /\ DatabaseManager.ev_popularity <$> DatabaseManager.events db' = [1; 0].
Proof.
  split; [reflexivity |].
  eexists. split; [vm_compute; reflexivity |]. split; reflexivity.
Qed.

(** * Further properties *)

(** ** log_interaction and update_user_preferences *)

Section StoreWrites.

Import DatabaseManager.

Lemma log_interaction_cases user_id item_id item_type kind db :
  exists db',
    log_interaction user_id item_id item_type kind db
      = (Ok (log_accepted item_type kind), db') /\
    (log_accepted item_type kind = false -> db' = db) /\
    (log_accepted item_type kind = true ->
       interactions db' = interactions db ++ [logged_row user_id item_id item_type kind db] /\
       interactions_seq db' = interactions_seq db + 1 /\
       events db' = (if bool_decide (kind ∈ ["like"; "bookmark"]%string)
                     then bump_popularity item_id <$> events db else events db) /\
       courses db' = courses db /\
       users db' = alter (touch (clock db)) user_id (users db) /\
       clock db' = clock db).
Proof.
  unfold log_interaction, transaction, log_interaction_statements, insert_interaction,
    log_accepted.
  destruct (check_item_type item_type) eqn:Ht; simpl; [| by eexists].
  destruct (check_interaction_type kind) eqn:Hk; simpl; [| by eexists].
  destruct (bool_decide (kind ∈ ["like"; "bookmark"]%string)) eqn:Hpos; simpl.
  - destruct (String.eqb item_type "event") eqn:He; simpl.
    + eexists. split; [done |]. split; [done |]. intros _. done.
    + assert (Hc : String.eqb item_type "course" = true).
      { unfold check_item_type in Ht. apply bool_decide_eq_true in Ht.
        apply list_elem_of_In in Ht. simpl in Ht.
        destruct Ht as [<- | [<- | []]]; [done | done]. }
      unfold update_popularity. simpl. eexists. done.
  - rewrite orb_true_r. eexists. split; [done |]. split; [done |]. intros _. done.
Qed.

Lemma log_accepted_true item_type kind :
  log_accepted item_type kind = true ->
  item_type ∈ ["event"; "course"]%string /\
  kind ∈ ["view"; "like"; "dislike"; "bookmark"]%string /\
  ~ (item_type = "course"%string /\ kind ∈ ["like"; "bookmark"]%string).
Proof.
  unfold log_accepted. rewrite !andb_true_iff.
  intros [[Ht Hk] Hn]. split_and!.
  - unfold check_item_type in Ht. by apply bool_decide_eq_true in Ht.
  - unfold check_interaction_type in Hk. by apply bool_decide_eq_true in Hk.
  - intros [-> Hpos]. by rewrite (bool_decide_eq_true_2 _ Hpos) in Hn.
Qed.

(** X1: for ids that SQLite can bind, [log_interaction] never raises and
    is all or nothing.  When it answers false the store is the one it
    started from.  It answers true only when the item type is [event] or
    [course], the kind is [view], [like], [dislike] or [bookmark], and the
    call is not a like or bookmark of a course; then exactly one row is
    appended to [interactions], with the next id and the arguments of the
    call; a like or bookmark also raises the popularity of the events with
    that id by one; courses, the clock and every user row but the last
    activity of the caller stay as they were. *)
Theorem log_interaction_all_or_nothing (user_id item_id : Z)
    (item_type kind : string) (db : store) :
  Sqlite.bindable user_id -> Sqlite.bindable item_id ->
  exists b db',
    log_interaction user_id item_id item_type kind db = (Ok b, db') /\
    (b = false -> db' = db) /\
    (b = true ->
       item_type ∈ ["event"; "course"]%string /\
       kind ∈ ["view"; "like"; "dislike"; "bookmark"]%string /\
       ~ (item_type = "course"%string /\ kind ∈ ["like"; "bookmark"]%string) /\
       interactions db' = interactions db ++ [logged_row user_id item_id item_type kind db] /\
       interactions_seq db' = interactions_seq db + 1 /\
       events db' = (if bool_decide (kind ∈ ["like"; "bookmark"]%string)
                     then bump_popularity item_id <$> events db else events db) /\
       courses db' = courses db /\
       users db' = alter (touch (clock db)) user_id (users db) /\
       clock db' = clock db).
Proof.
  intros _ _.
  destruct (log_interaction_cases user_id item_id item_type kind db)
    as (db' & Hrun & Hno & Hyes).
  exists (log_accepted item_type kind), db'. split; [done |]. split; [done |].
  intros Hacc. destruct (Hyes Hacc) as (H1 & H2 & H3 & H4 & H5 & H6).
  split_and!; try done.
  - apply log_accepted_true in Hacc. tauto.
  - apply log_accepted_true in Hacc. tauto.
  - apply log_accepted_true in Hacc. tauto.
Qed.

(** X2: [log_interaction] never adds a user and never changes what
    [get_user_preferences] answers, for any user and whatever the
    arguments. *)
Theorem log_interaction_keeps_preferences (user_id item_id : Z)
    (item_type kind : string) (db : store) (u : Z) :
  let db' := (log_interaction user_id item_id item_type kind db).2 in
  dom (users db') = dom (users db) /\
  get_user_preferences u db' = get_user_preferences u db.
Proof.
  destruct (log_interaction_cases user_id item_id item_type kind db)
    as (db' & Hrun & Hno & Hyes).
  rewrite Hrun. simpl.
  destruct (log_accepted item_type kind).
  - destruct Hyes as (_ & _ & _ & _ & Hu & _); [done |].
    unfold get_user_preferences. rewrite Hu. split; [apply dom_alter_L |].
    rewrite lookup_alter. destruct (decide (user_id = u)) as [-> | Hne]; [| done].
    by destruct (users db !! u) as [row |].
  - by rewrite Hno.
Qed.

Lemma bump_popularity_iter item_id n row :
  ev_popularity (Nat.iter n (bump_popularity item_id) row)
  = (if ev_id row =? item_id then ev_popularity row + Z.of_nat n else ev_popularity row)
  /\ ev_id (Nat.iter n (bump_popularity item_id) row) = ev_id row.
Proof.
  induction n as [| n [IHp IHi]]; simpl.
  - destruct (ev_id row =? item_id); split; (done || lia).
  - unfold bump_popularity at 1 3. rewrite IHi.
    destruct (ev_id row =? item_id) eqn:He; simpl; split; (done || lia).
Qed.

Lemma iter_fmap {A} (f : A -> A) n (l : list A) :
  Nat.iter n (fmap f) l = Nat.iter n f <$> l.
Proof.
  induction n as [| n IH]; simpl; [by rewrite list_fmap_id |].
  rewrite IH, <- list_fmap_compose. done.
Qed.

(** X3: [n] likes (or bookmarks) of an event in a row all go through; they
    append [n] interactions and raise the popularity of the events with
    that id by exactly [n], leaving the popularity of every other event and
    the courses as they were. *)
Theorem log_interaction_likes_add_up (user_id item_id : Z) (kind : string)
    (db : store) (n : nat) :
  kind ∈ ["like"; "bookmark"]%string ->
  let step := fun d => (log_interaction user_id item_id "event" kind d).2 in
  let db' := Nat.iter n step db in
  ev_popularity <$> events db'
    = (fun row => if ev_id row =? item_id then ev_popularity row + Z.of_nat n
                  else ev_popularity row) <$> events db /\
  ev_id <$> events db' = ev_id <$> events db /\
  length (interactions db') = (length (interactions db) + n)%nat /\
  courses db' = courses db.
Proof.
  intros Hk step db'.
  assert (Hacc : log_accepted "event" kind = true).
  { unfold log_accepted. rewrite andb_true_iff. split; [| done].
    rewrite andb_true_iff. split; [done |].
    apply bool_decide_eq_true. apply list_elem_of_In in Hk. apply list_elem_of_In.
    simpl in *. tauto. }
  assert (Hiter : events db' = Nat.iter n (fmap (bump_popularity item_id)) (events db) /\
                  length (interactions db') = (length (interactions db) + n)%nat /\
                  courses db' = courses db).
  { subst db'. induction n as [| n (IHe & IHl & IHc)]; simpl; [split_and!; (done || lia) |].
    unfold step at 1 3 5.
    destruct (log_interaction_cases user_id item_id "event" kind (Nat.iter n step db))
      as (d & Hrun & _ & Hyes).
    rewrite Hrun. simpl. destruct (Hyes Hacc) as (Hi & _ & He & Hc & _).
    rewrite (bool_decide_eq_true_2 _ Hk) in He.
    rewrite He, Hi, Hc, IHe, IHc, length_app, IHl. simpl. split_and!; (done || lia). }
  destruct Hiter as (He & Hl & Hc). rewrite He, iter_fmap, <- !list_fmap_compose.
  split_and!; [| | done | done].
  - apply list_fmap_ext. intros i row _. simpl.
    by destruct (bump_popularity_iter item_id n row) as [-> _].
  - apply list_fmap_ext. intros i row _. simpl.
    by destruct (bump_popularity_iter item_id n row) as [_ ->].
Qed.

(** X4: the ids of the interactions stay distinct and below the
    AUTOINCREMENT counter through every call of [log_interaction], whether
    it goes through or not. *)
Theorem log_interaction_keeps_ids_fresh (user_id item_id : Z)
    (item_type kind : string) (db : store) :
  interaction_ids_fresh db ->
  interaction_ids_fresh (log_interaction user_id item_id item_type kind db).2.
Proof.
  intros [Hnd Hle].
  destruct (log_interaction_cases user_id item_id item_type kind db)
    as (db' & Hrun & Hno & Hyes).
  rewrite Hrun. simpl. destruct (log_accepted item_type kind).
  - destruct Hyes as (Hi & Hs & _); [done |]. unfold interaction_ids_fresh.
    rewrite Hi, Hs, fmap_app. simpl. split.
    + apply NoDup_app. split; [done |]. split; [| apply NoDup_singleton].
      intros x Hx Hx'. apply list_elem_of_singleton in Hx'. subst x.
      apply list_elem_of_fmap in Hx as (row & Hid & Hrow).
      rewrite Forall_forall in Hle. apply Hle in Hrow. lia.
    + apply Forall_app. split.
      * eapply Forall_impl; [exact Hle |]. simpl. intros row Hrow. lia.
      * constructor; [simpl; lia | constructor].
  - rewrite Hno by done. done.
Qed.

(** X5: for a user id that SQLite can bind, when
    [update_user_preferences] answers true, what [get_user_preferences]
    returns for that user afterwards is exactly the dictionary just
    written, whatever was stored before.  A user that was unknown is
    created; a known user keeps name and registration date.  The catalog,
    the interactions and every other user are untouched. *)
Theorem update_then_get_user_preferences (user_id : Z) (p : prefs) (db db' : store) :
  Sqlite.bindable user_id ->
  update_user_preferences user_id p db = (Ok true, db') ->
  get_user_preferences user_id db' = Ok p /\
  (forall row, users db !! user_id = Some row ->
     exists row', users db' !! user_id = Some row' /\
       us_username row' = us_username row /\ us_first_name row' = us_first_name row /\
       us_last_name row' = us_last_name row /\
       us_registration_date row' = us_registration_date row) /\
  (users db !! user_id = None -> is_Some (users db' !! user_id)) /\
  events db' = events db /\ courses db' = courses db /\
  interactions db' = interactions db /\
  (forall u, u <> user_id ->
     users db' !! u = users db !! u /\
     get_user_preferences u db' = get_user_preferences u db).
Proof.
  intros _ Hrun.
  destruct (update_user_preferences_spec user_id p db)
    as (db1 & Hrun1 & Hget & Hev & Hco & Hin & Hus).
  assert (db1 = db') as -> by congruence. clear Hrun1.
  split_and!; try done.
  - intros row Hrow. revert Hrun.
    unfold update_user_preferences, transaction, insert_or_ignore_user,
      update_preferences_row. rewrite Hrow. simpl. intros [= <-]. simpl.
    rewrite lookup_alter_eq, Hrow. simpl. eexists. split; [done |]. done.
  - intros Hnone. revert Hrun.
    unfold update_user_preferences, transaction, insert_or_ignore_user,
      update_preferences_row. rewrite Hnone. simpl. intros [= <-]. simpl.
    rewrite lookup_alter_eq, lookup_insert_eq. simpl. by eexists.
  - intros u Hu. split; [by apply Hus |].
    unfold get_user_preferences. by rewrite Hus.
Qed.

End StoreWrites.

Lemma log_interaction_likes_add_up_witness :
  let db' := Nat.iter 3 (fun d => (DatabaseManager.log_interaction 7 1 "event" "like" d).2)
               Examples.db1 in
  DatabaseManager.ev_popularity <$> DatabaseManager.events db'
    = (fun row => if DatabaseManager.ev_id row =? 1
                  then DatabaseManager.ev_popularity row + Z.of_nat 3
                  else DatabaseManager.ev_popularity row)
        <$> DatabaseManager.events Examples.db1.
Proof.
  apply (log_interaction_likes_add_up 7 1 "like" Examples.db1 3).
  apply elem_of_cons. left. reflexivity.
Defined.

Lemma log_interaction_keeps_ids_fresh_witness :
  interaction_ids_fresh (DatabaseManager.log_interaction 7 1 "event" "like" Examples.db3).2.
Proof.
  apply (log_interaction_keeps_ids_fresh 7 1 "event" "like" Examples.db3).
  split.
  - apply NoDup_ListNoDup. repeat constructor; simpl; intuition lia.
  - repeat constructor; simpl; lia.
Defined.

(** ** recommend: what a call returns *)
Lemma log_interaction_all_or_nothing_witness :
  exists b db',
    DatabaseManager.log_interaction 7 1 "event" "like" Examples.db1 = (Ok b, db') /\
    (b = false -> db' = Examples.db1).
Proof.
  destruct (log_interaction_all_or_nothing 7 1 "event" "like" Examples.db1)
    as (b & db' & Hrun & Hno & _).
  - unfold Sqlite.bindable. lia.
  - unfold Sqlite.bindable. lia.
  - exists b, db'. split; [exact Hrun | exact Hno].
Defined.

Lemma update_then_get_user_preferences_witness :
  DatabaseManager.get_user_preferences 9
    (DatabaseManager.update_user_preferences 9
       {[ "preferred_tags"%string := ["ml"%string] ]} Examples.db3).2
  = Ok {[ "preferred_tags"%string := ["ml"%string] ]}.
Proof.
  apply (update_then_get_user_preferences 9 {[ "preferred_tags"%string := ["ml"%string] ]}
           Examples.db3).
  - unfold Sqlite.bindable. lia.
  - reflexivity.
Defined.

(** ** recommend: what a call returns *)

(** X6: for every arithmetic and every sort of [np.argsort], a request
    without a user ([None] or [0]) whose two score vectors have one entry
    per catalog item never fails and never touches the store.  It returns
    [min(limit, n)] entries for a limit that is not negative and, as the
    Python slice has it, all but the last [-limit] for a negative one.
    The entries are made, in order, from the catalog items at the indices
    of [np.argsort(hybrid_scores)[::-1]]; each carries the blended score of
    its item and both sub-scores, and no entry has a smaller score than an
    entry after it. *)
Theorem recommend_anonymous_result {A : Type} (ar : arith A)
    (argsort : list A -> list nat) {S : Type} (db : store_api S)
    (encode : string -> result (list A))
    (cosine_similarity : list (list A) -> list (list A) -> result (list (list A)))
    (keyword_inference : string -> list string -> result (list A))
    (query : string) (user_id : option Z) (limit : Z) (hybrid_weight : A) (s : S)
    (items : list item) (semantic : list A) :
  let keyword := keyword_relevance ar keyword_inference query (item_text <$> items) in
  let hybrid := zip_with (blend ar hybrid_weight) semantic keyword in
  Np.sorts ar argsort ->
  Py.truthy_int user_id = None ->
  get_all_items db s = Ok items ->
  semantic_similarity ar encode cosine_similarity query (item_text <$> items) = Ok semantic ->
  length semantic = length items ->
  length keyword = length items ->
  exists recs,
    recommend ar argsort db encode cosine_similarity keyword_inference
      query user_id limit hybrid_weight s = (Ok recs, s) /\
    Forall2 (entry items hybrid semantic keyword)
      (Py.slice_to limit (sorted_indices argsort hybrid)) recs /\
    length recs = (if 0 <=? limit then Nat.min (Z.to_nat limit) (length items)
                   else (length items - Z.to_nat (- limit))%nat) /\
    descending ar (r_score <$> recs).
Proof.
  intros keyword hybrid Hsorts Hanon Hitems Hsem Hls Hlk.
  assert (Hlh : length hybrid = length items).
  { unfold hybrid. rewrite length_zip_with. lia. }
  destruct (recommend_success ar argsort Hsorts db encode cosine_similarity
              keyword_inference query user_id limit hybrid_weight s items semantic hybrid)
    as (recs & s' & Hrun & HF & Hs' & Hlen); try done.
  { by left. }
  { unfold personalize. by rewrite Hanon. }
  exists recs. rewrite (Hs' Hanon) in Hrun. split_and!; [done | done | done |].
  by eapply (entries_descending ar argsort Hsorts).
Qed.

Lemma recommend_anonymous_result_witness :
  exists recs,
    recommend exact Np.insertion_argsort DatabaseManager.api Examples.encode1
      (Examples.similarity (1 # 2)) Examples.no_logits "ml" None (-1) (7 # 10)
      Examples.db1 = (Ok recs, Examples.db1) /\
    length recs = 2%nat.
Proof.
  destruct (recommend_anonymous_result exact Np.insertion_argsort DatabaseManager.api
              Examples.encode1 (Examples.similarity (1 # 2)) Examples.no_logits "ml" None
              (-1) (7 # 10) Examples.db1
              [DatabaseManager.event_item (Examples.event 1 "ML conference" "ml,ai");
               DatabaseManager.event_item (Examples.event 2 "Frontend meetup" "frontend");
               DatabaseManager.course_item (Examples.course 1 "ML from scratch" "ml, python")]
              [1 # 2; 1 # 2; 1 # 2]%Q)
    as (recs & Hrun & _ & Hlen & _).
  - apply insertion_argsort_sorts.
  - reflexivity.
  - reflexivity.
  - reflexivity.
  - reflexivity.
  - reflexivity.
  - exists recs. split; [exact Hrun | exact Hlen].
Defined.

Section UserZero.

Context {A : Type} {S : Type} (db : store_api S).

Lemma emit_user_zero items (hybrid semantic keyword : list A) : forall indices acc s,
  emit db (Some 0) items hybrid semantic keyword indices acc s
  = emit db None items hybrid semantic keyword indices acc s.
Proof.
  induction indices as [| idx indices IH]; intros acc s; simpl; [done |].
  unfold_M. destruct (Py.index items idx) as [it |]; [| done].
  destruct (Py.index hybrid idx) as [score |]; [| done].
  destruct (Py.index semantic idx) as [sem |]; [| done].
  destruct (Py.index keyword idx) as [kw |]; [| done].
  apply IH.
Qed.

End UserZero.

(** X7: the user id 0 is not a user: [recommend] with [user_id = 0]
    returns what it returns with [user_id = None] and leaves the same
    store, with no preferences read, no boost and no interaction logged,
    on every store and for every query. *)
Theorem recommend_user_zero_is_anonymous {A : Type} (ar : arith A)
    (argsort : list A -> list nat) {S : Type} (db : store_api S)
    (encode : string -> result (list A))
    (cosine_similarity : list (list A) -> list (list A) -> result (list (list A)))
    (keyword_inference : string -> list string -> result (list A))
    (query : string) (limit : Z) (hybrid_weight : A) (s : S) :
  recommend ar argsort db encode cosine_similarity keyword_inference
    query (Some 0) limit hybrid_weight s
  = recommend ar argsort db encode cosine_similarity keyword_inference
      query None limit hybrid_weight s.
Proof.
  unfold recommend, try_except, recommend_body. unfold_M.
  destruct (get_all_items db s) as [[| it items] | e]; [done | | done].
  destruct (semantic_similarity _ _ _ _ _) as [sem | e]; [| done].
  destruct (hybrid_scores _ _ _ _) as [pre | e]; [| done].
  change (personalize ar db (Some 0) (it :: items) pre s) with (Ok pre, s).
  change (personalize ar db None (it :: items) pre s) with (Ok pre, s).
  cbv beta iota. by rewrite emit_user_zero.
Qed.

(** ** Ranking when the keyword model fails *)

Section SemanticOnly.

Context {A : Type} (ar : arith A).

Lemma zip_with_zeros (g : A -> A -> A) xs n :
  length xs = n -> zip_with g xs (Np.zeros ar n) = (fun x => g x (a_zero ar)) <$> xs.
Proof.
  intros <-. unfold Np.zeros. induction xs as [| x xs IH]; simpl; [done |]. by rewrite IH.
Qed.

End SemanticOnly.

(** X8: when the keyword model fails, a request without a user is ranked
    on the semantic scores alone, for every arithmetic and every sort of
    [np.argsort]: each entry has the keyword score 0 and the score
    [hybrid_weight * semantic + (1 - hybrid_weight) * 0] of its item, as
    the arithmetic computes it, and no entry has a smaller score than an
    entry after it. *)
Theorem recommend_semantic_only {A : Type} (ar : arith A)
    (argsort : list A -> list nat) {S : Type} (db : store_api S)
    (encode : string -> result (list A))
    (cosine_similarity : list (list A) -> list (list A) -> result (list (list A)))
    (keyword_inference : string -> list string -> result (list A))
    (query : string) (user_id : option Z) (limit : Z) (hybrid_weight : A) (s : S)
    (items : list item) (semantic : list A) (e : exn) :
  Np.sorts ar argsort ->
  Py.truthy_int user_id = None ->
  get_all_items db s = Ok items ->
  semantic_similarity ar encode cosine_similarity query (item_text <$> items) = Ok semantic ->
  length semantic = length items ->
  keyword_inference query (item_text <$> items) = Raise e ->
  exists recs,
    recommend ar argsort db encode cosine_similarity keyword_inference
      query user_id limit hybrid_weight s = (Ok recs, s) /\
    Forall2 (fun idx r => exists it sem,
               items !! idx = Some it /\ semantic !! idx = Some sem /\
               r_id r = it_id it /\ r_type r = it_type it /\
               r_semantic_score r = sem /\ r_keyword_score r = a_zero ar /\
               r_score r = blend ar hybrid_weight sem (a_zero ar))
      (Py.slice_to limit
         (sorted_indices argsort
            ((fun x => blend ar hybrid_weight x (a_zero ar)) <$> semantic))) recs /\
    length recs = (if 0 <=? limit then Nat.min (Z.to_nat limit) (length items)
                   else (length items - Z.to_nat (- limit))%nat) /\
    descending ar (r_score <$> recs).
Proof.
  intros Hsorts Hanon Hitems Hsem Hls Hfail.
  assert (Hkw : keyword_relevance ar keyword_inference query (item_text <$> items)
                = Np.zeros ar (length items)).
  { unfold keyword_relevance. by rewrite Hfail, length_fmap. }
  destruct (recommend_success ar argsort Hsorts db encode cosine_similarity
              keyword_inference query user_id limit hybrid_weight s items semantic
              ((fun x => blend ar hybrid_weight x (a_zero ar)) <$> semantic))
    as (recs & s' & Hrun & HF & Hs' & Hlen); try done.
  { by left. }
  { rewrite Hkw. apply length_zeros. }
  { unfold personalize. rewrite Hanon, Hkw. by rewrite (zip_with_zeros ar _ _ _ Hls). }
  { by rewrite length_fmap. }
  exists recs. rewrite (Hs' Hanon) in Hrun. split_and!; [done | | done |].
  - rewrite Hkw in HF. eapply Forall2_impl; [exact HF |].
    intros idx r (it & score & sem & kw & Hit & Hsc & Hs & Hk & ->).
    exists it, sem. apply zeros_lookup in Hk as ->.
    apply list_lookup_fmap_Some in Hsc as (sem' & -> & Hs1).
    assert (sem' = sem) as -> by congruence.
    split_and!; done.
  - by eapply (entries_descending ar argsort Hsorts).
Qed.

Lemma recommend_semantic_only_witness :
  exists recs,
    recommend exact Np.insertion_argsort DatabaseManager.api Examples.encode1
      (Examples.similarity (1 # 2)) Examples.no_logits "ml" None 5 (7 # 10) Examples.db1
    = (Ok recs, Examples.db1) /\
    length recs = 3%nat /\ descending exact (r_score <$> recs).
Proof.
  destruct (recommend_semantic_only exact Np.insertion_argsort DatabaseManager.api
              Examples.encode1 (Examples.similarity (1 # 2)) Examples.no_logits "ml" None 5
              (7 # 10) Examples.db1
              [DatabaseManager.event_item (Examples.event 1 "ML conference" "ml,ai");
               DatabaseManager.event_item (Examples.event 2 "Frontend meetup" "frontend");
               DatabaseManager.course_item (Examples.course 1 "ML from scratch" "ml, python")]
              [1 # 2; 1 # 2; 1 # 2]%Q AttributeError)
    as (recs & Hrun & _ & Hlen & Hdesc).
  - apply insertion_argsort_sorts.
  - reflexivity.
  - reflexivity.
  - reflexivity.
  - reflexivity.
  - reflexivity.
  - exists recs. split; [exact Hrun |]. split; [exact Hlen | exact Hdesc].
Defined.

(** ** Bounds of the tag boost *)

Section BoostBounds.

#[local] Open Scope Q_scope.

Lemma boost_factor_le c1 c2 :
  (c1 <= c2)%nat -> boost_factor exact c1 <= boost_factor exact c2.
Proof.
  intros H. unfold boost_factor. simpl.
  assert (inject_Z (Z.of_nat c1) <= inject_Z (Z.of_nat c2)).
  { rewrite <- Zle_Qle. lia. }
  lra.
Qed.

(** X9: the number of shared tags is at most the number of preferred tags
    and at most the number of tags of the item, so the multiplier lies
    between 1 and [1 + 0.2 * len(preferred_tags)].  The boost never lowers
    a score that is not negative and never raises one that is not
    positive. *)
Theorem boost_bounded_by_profile (preferred_tags : gset string) (tags : string) (v : Q) :
  let c := size (common_tags preferred_tags tags) in
  (c <= size preferred_tags)%nat /\ (c <= size (tag_set tags))%nat /\
  (0 <= v -> v <= boosted exact preferred_tags tags v
             <= v * boost_factor exact (size preferred_tags)) /\
  (v <= 0 -> v * boost_factor exact (size preferred_tags)
             <= boosted exact preferred_tags tags v <= v).
Proof.
  intros c.
  assert (Hc1 : (c <= size preferred_tags)%nat).
  { apply subseteq_size. unfold common_tags. intros x Hx.
    apply elem_of_intersection in Hx. tauto. }
  assert (Hc2 : (c <= size (tag_set tags))%nat).
  { apply subseteq_size. unfold common_tags. intros x Hx.
    apply elem_of_intersection in Hx. tauto. }
  pose proof (boost_factor_le _ _ Hc1) as Hle.
  pose proof (boost_factor_ge_1 c) as Hge.
  pose proof (boost_factor_ge_1 (size preferred_tags)) as Hge'.
  split_and!; [done | done | |]; intros Hv; unfold boosted; fold c;
    change (a_mul exact) with Qmult;
    destruct (decide (common_tags preferred_tags tags = ∅)); nra.
Qed.

End BoostBounds.

(** X29: what the boost does when it goes through.  Without a user, or for
    a user whose preferences hold no preferred tags, every hybrid score is
    left as it is.  For a user with preferred tags and a catalog whose
    items all have a tags text, the score of every item that shares
    [c > 0] distinct tags with them is multiplied by [1 + 0.2 * c], as the
    arithmetic computes it and whatever the size of [c], and the score of
    an item with [c = 0] is left as it is. *)
Theorem tag_boost_exact {A : Type} (ar : arith A) {S : Type} (db : store_api S)
    (items : list item) (hybrid : list A) (s : S) :
  personalize ar db None items hybrid s = (Ok hybrid, s) /\
  (forall uid p,
     get_user_preferences db uid s = Ok p ->
     p !! "preferred_tags"%string = None \/ p !! "preferred_tags"%string = Some [] ->
     personalize ar db (Some uid) items hybrid s = (Ok hybrid, s)) /\
  (forall uid p t ts,
     uid <> 0 ->
     get_user_preferences db uid s = Ok p ->
     p !! "preferred_tags"%string = Some (t :: ts) ->
     length hybrid = length items ->
     Forall (fun it => is_Some (it_tags it)) items ->
     exists hybrid',
       personalize ar db (Some uid) items hybrid s = (Ok hybrid', s) /\
       length hybrid' = length hybrid /\
       forall i it tags v, items !! i = Some it -> it_tags it = Some tags ->
         hybrid !! i = Some v ->
         let c := size (list_to_set (t :: ts) ∩ tag_set tags : gset string) in
         (c = 0%nat -> hybrid' !! i = Some v) /\
         ((0 < c)%nat ->
            hybrid' !! i
            = Some (a_mul ar v
                      (a_add ar (a_one ar) (a_mul ar (a_fifth ar) (a_of_nat ar c)))))).
Proof.
  split_and!.
  - apply personalize_no_user.
  - intros uid p. apply personalize_no_tags.
  - intros uid p t ts Huid Hp Htags Hlen Hnn.
    destruct (personalize_profile ar db uid p t ts items hybrid s Huid Hp Htags Hlen Hnn)
      as (h' & Hrun & Hl & Hspec).
    exists h'. split_and!; [done | done |].
    intros i it tags v Hit Ht Hv c.
    rewrite (Hspec i it tags v Hit Ht Hv). unfold boosted, boost_factor, common_tags.
    fold c. split; intros Hc.
    + apply size_empty_inv, leibniz_equiv in Hc. by rewrite decide_True.
    + rewrite decide_False; [done |]. intros He. subst c. rewrite He, size_empty in Hc. lia.
Qed.

Lemma tag_boost_exact_witness :
  exists hybrid',
    personalize exact DatabaseManager.api (Some 7)
      [DatabaseManager.event_item (Examples.event 1 "ML conference" "ml,ai");
       DatabaseManager.event_item (Examples.event 2 "ML meetup" "ml")]
      [1 # 2; 1 # 2]%Q Examples.db2 = (Ok hybrid', Examples.db2) /\
    hybrid' !! 0%nat = Some ((1 # 2) * (1 + (2 # 10) * inject_Z (Z.of_nat 2)))%Q.
Proof.
  destruct (tag_boost_exact exact DatabaseManager.api
              [DatabaseManager.event_item (Examples.event 1 "ML conference" "ml,ai");
               DatabaseManager.event_item (Examples.event 2 "ML meetup" "ml")]
              [1 # 2; 1 # 2]%Q Examples.db2) as (_ & _ & H).
  destruct (H 7 {[ "preferred_tags"%string := ["ml"; "ai"]%string ]} "ml"%string ["ai"%string])
    as (h' & Hrun & _ & Hspec).
  - lia.
  - reflexivity.
  - reflexivity.
  - reflexivity.
  - repeat constructor; eexists; reflexivity.
  - exists h'. split; [exact Hrun |].
    destruct (Hspec 0%nat
                (DatabaseManager.event_item (Examples.event 1 "ML conference" "ml,ai"))
                "ml,ai"%string (1 # 2)%Q eq_refl eq_refl eq_refl) as [_ Hpos].
    apply Hpos. vm_compute. lia.
Defined.

(** ** recommend on the DatabaseManager store *)

Section RecommendOnStore.

Context {A : Type} (ar : arith A) (argsort : list A -> list nat).
Variable encode : string -> result (list A).
Variable cosine_similarity : list (list A) -> list (list A) -> result (list (list A)).
Variable keyword_inference : string -> list string -> result (list A).

Lemma emit_user_irrelevant user_id user_id' items (hybrid semantic keyword : list A) :
  forall indices acc db,
    emit DatabaseManager.api user_id items hybrid semantic keyword indices acc db
    = emit DatabaseManager.api user_id' items hybrid semantic keyword indices acc db.
Proof.
  induction indices as [| idx indices IH]; intros acc db; simpl; [done |].
  unfold_M. destruct (Py.index items idx) as [it |]; [| done].
  destruct (Py.index hybrid idx) as [score |]; [| done].
  destruct (Py.index semantic idx) as [sem |]; [| done].
  destruct (Py.index keyword idx) as [kw |]; [| done].
  destruct (Py.truthy_int user_id) as [uid |], (Py.truthy_int user_id') as [uid' |];
    simpl; rewrite ?log_interaction_recommendation; apply IH.
Qed.

Lemma get_user_preferences_unusable uid db :
  DatabaseManager.users db !! uid = None \/
  (exists row, DatabaseManager.users db !! uid = Some row /\
     (DatabaseManager.us_preferences row = None \/
      exists raw, DatabaseManager.us_preferences row = Some (DatabaseManager.NotJson raw))) ->
  DatabaseManager.get_user_preferences uid db = Ok ∅.
Proof.
  unfold DatabaseManager.get_user_preferences.
  intros [-> | (row & -> & [-> | [raw ->]])]; done.
Qed.

Lemma recommend_without_tags query uid limit hybrid_weight db p :
  DatabaseManager.get_user_preferences uid db = Ok p ->
  (p !! "preferred_tags"%string = None \/ p !! "preferred_tags"%string = Some []) ->
  recommend ar argsort DatabaseManager.api encode cosine_similarity keyword_inference
    query (Some uid) limit hybrid_weight db
  = recommend ar argsort DatabaseManager.api encode cosine_similarity keyword_inference
      query None limit hybrid_weight db.
Proof.
  intros Hget Htags.
  unfold recommend, try_except, recommend_body. unfold_M.
  destruct (get_all_items DatabaseManager.api db) as [[| it items] | e]; [done | | done].
  destruct (semantic_similarity _ _ _ _ _) as [sem | e]; [| done].
  destruct (hybrid_scores _ _ _ _) as [pre | e]; [| done].
  rewrite (personalize_no_tags ar DatabaseManager.api uid p (it :: items) pre db Hget Htags).
  change (personalize ar DatabaseManager.api None (it :: items) pre db) with (Ok pre, db).
  cbv beta iota. by rewrite (emit_user_irrelevant (Some uid) None).
Qed.

Lemma personalize_on_store user_id items pre db :
  Forall (fun it => is_Some (it_tags it)) items ->
  length pre = length items ->
  exists hybrid,
    personalize ar DatabaseManager.api user_id items pre db = (Ok hybrid, db) /\
    length hybrid = length items.
Proof.
  intros Htags Hlen. unfold personalize. unfold_M.
  destruct (Py.truthy_int user_id) as [uid |]; [| by exists pre].
  change (get_user_preferences DatabaseManager.api uid db)
    with (DatabaseManager.get_user_preferences uid db).
  assert (Hget : exists p, DatabaseManager.get_user_preferences uid db = Ok p).
  { unfold DatabaseManager.get_user_preferences.
    destruct (DatabaseManager.users db !! uid) as [row |]; [| by eexists].
    destruct (DatabaseManager.us_preferences row) as [[d | raw] |]; by eexists. }
  destruct Hget as [p ->].
  destruct (p !! "preferred_tags"%string) as [[| t ts] |]; [by exists pre | | by exists pre].
  destruct (boost_spec ar (list_to_set (t :: ts)) items 0 pre Htags) as (h & Hb & Hl & _);
    [simpl; lia |].
  exists h. rewrite Hb. split; [done | lia].
Qed.

End RecommendOnStore.

(** X10: a profile that cannot be used is no profile.  For a user id that
    SQLite can bind and that is unknown, or whose stored preferences are
    NULL, are not valid JSON, or hold no or an empty [preferred_tags]
    list, [recommend] returns exactly what it returns for a request
    without a user. *)
Theorem recommend_unusable_profile_is_anonymous {A : Type} (ar : arith A)
    (argsort : list A -> list nat)
    (encode : string -> result (list A))
    (cosine_similarity : list (list A) -> list (list A) -> result (list (list A)))
    (keyword_inference : string -> list string -> result (list A))
    (query : string) (uid : Z) (limit : Z)
    (hybrid_weight : A) (db : DatabaseManager.store) :
  Sqlite.bindable uid ->
  DatabaseManager.users db !! uid = None \/
  (exists row, DatabaseManager.users db !! uid = Some row /\
     (DatabaseManager.us_preferences row = None \/
      (exists raw, DatabaseManager.us_preferences row = Some (DatabaseManager.NotJson raw)) \/
      (exists d, DatabaseManager.us_preferences row = Some (DatabaseManager.Json d) /\
         (d !! "preferred_tags"%string = None \/ d !! "preferred_tags"%string = Some [])))) ->
  recommend ar argsort DatabaseManager.api encode cosine_similarity keyword_inference
    query (Some uid) limit hybrid_weight db
  = recommend ar argsort DatabaseManager.api encode cosine_similarity keyword_inference
      query None limit hybrid_weight db.
Proof.
  intros _ Hprofile.
  assert (Hp : exists p, DatabaseManager.get_user_preferences uid db = Ok p /\
                 (p !! "preferred_tags"%string = None \/
                  p !! "preferred_tags"%string = Some [])).
  { destruct Hprofile as [Hnone | (row & Hrow & [Hnull | [[raw Hraw] | (d & Hd & Htags)]])].
    - exists ∅. split; [apply get_user_preferences_unusable; by left | by left].
    - exists ∅. split; [apply get_user_preferences_unusable; right; exists row; by eauto |].
      by left.
    - exists ∅. split; [apply get_user_preferences_unusable; right; exists row; by eauto |].
      by left.
    - exists d. split; [| done]. unfold DatabaseManager.get_user_preferences.
      by rewrite Hrow, Hd. }
  destruct Hp as (p & Hget & Htags).
  by apply (recommend_without_tags ar argsort encode cosine_similarity keyword_inference
              query uid limit hybrid_weight db p).
Qed.

Lemma recommend_unusable_profile_is_anonymous_witness :
  recommend exact Np.insertion_argsort DatabaseManager.api Examples.encode1
    (Examples.similarity (1 # 2)) Examples.no_logits "ml" (Some 8) 5 (7 # 10) Examples.db1
  = recommend exact Np.insertion_argsort DatabaseManager.api Examples.encode1
      (Examples.similarity (1 # 2)) Examples.no_logits "ml" None 5 (7 # 10) Examples.db1.
Proof.
  apply (recommend_unusable_profile_is_anonymous exact Np.insertion_argsort
           Examples.encode1 (Examples.similarity (1 # 2)) Examples.no_logits "ml" 8 5
           (7 # 10) Examples.db1).
  - unfold Sqlite.bindable. lia.
  - left. reflexivity.
Defined.

(** ** A failing embedding model *)

Section EncodeFails.

Context {A : Type} (ar : arith A).
Variable encode : string -> result (list A).
Variable cosine_similarity : list (list A) -> list (list A) -> result (list (list A)).

Lemma result_map_raise {X Y} (f : X -> result Y) l x e :
  x ∈ l -> f x = Raise e -> exists e', result_map f l = Raise e'.
Proof.
  induction l as [| a l IH]; intros Hin Hx; [by apply elem_of_nil in Hin |].
  simpl. apply elem_of_cons in Hin as [<- | Hin].
  - rewrite Hx. by eexists.
  - destruct (f a) as [b | e0]; [| by eexists]. simpl.
    destruct (IH Hin Hx) as [e' ->]. by eexists.
Qed.

Lemma item_text_not_empty it : item_text it <> ""%string.
Proof. unfold item_text. by destruct (it_title it). Qed.

Lemma semantic_similarity_item_fails query items it e :
  it ∈ items -> encode (item_text it) = Raise e ->
  exists e', semantic_similarity ar encode cosine_similarity query (item_text <$> items)
             = Raise e'.
Proof.
  intros Hin Hfail. unfold semantic_similarity.
  destruct (get_text_embedding ar encode query) as [qe | e0]; [| by eexists]. simpl.
  destruct (result_map_raise (get_text_embedding ar encode) (item_text <$> items)
              (item_text it) e) as [e' He'].
  - apply list_elem_of_fmap. by exists it.
  - unfold get_text_embedding. pose proof (item_text_not_empty it).
    by destruct (item_text it).
  - unfold mbind, result_mbind. rewrite He'. by eexists.
Qed.

End EncodeFails.

(** X11: the text of a catalog item is never empty, so every item is sent
    to the embedding model; if the model raises on the text of any one
    item of the catalog, [recommend] returns the empty list and leaves the
    store as it is, whatever the query, the user and the keyword model
    (whose own failures, by contrast, never empty the result). *)
Theorem recommend_embedding_failure_empties {A : Type} (ar : arith A)
    (argsort : list A -> list nat) {S : Type} (db : store_api S)
    (encode : string -> result (list A))
    (cosine_similarity : list (list A) -> list (list A) -> result (list (list A)))
    (keyword_inference : string -> list string -> result (list A))
    (query : string) (user_id : option Z) (limit : Z) (hybrid_weight : A) (s : S)
    (items : list item) (it : item) (e : exn) :
  get_all_items db s = Ok items ->
  it ∈ items ->
  encode (item_text it) = Raise e ->
  item_text it <> ""%string /\
  recommend ar argsort db encode cosine_similarity keyword_inference
    query user_id limit hybrid_weight s = (Ok [], s).
Proof.
  intros Hitems Hin Hfail. split; [apply item_text_not_empty |].
  destruct (semantic_similarity_item_fails ar encode cosine_similarity query items it e
              Hin Hfail) as [e' He'].
  destruct items as [| it0 items]; [by apply elem_of_nil in Hin |].
  eapply try_except_raise. by eapply recommend_body_scoring_fails.
Qed.

Lemma recommend_embedding_failure_empties_witness :
  recommend exact Np.insertion_argsort DatabaseManager.api
    (fun _ => Raise (ModelError "encode"))
    (Examples.similarity (1 # 2)) Examples.no_logits "ml" (Some 7) 5 (7 # 10) Examples.db1
  = (Ok [], Examples.db1).
Proof.
  eapply (recommend_embedding_failure_empties exact Np.insertion_argsort
            DatabaseManager.api
            (fun _ => Raise (ModelError "encode")) (Examples.similarity (1 # 2))
            Examples.no_logits "ml" (Some 7) 5 (7 # 10) Examples.db1 _
            (DatabaseManager.event_item (Examples.event 1 "ML conference" "ml,ai"))).
  - reflexivity.
  - apply elem_of_cons. left. reflexivity.
  - reflexivity.
Defined.

(** X12: on the DatabaseManager store, for every arithmetic and every sort
    of [np.argsort], a request for a user whose id SQLite can bind
    succeeds as soon as the semantic model answers with one score per
    catalog item, the keyword scores have that length too and no item has
    a NULL tags text: it returns [min(limit, n)] entries (all but the last
    [-limit] for a negative limit), made in order from the indices of
    [np.argsort(hybrid_scores)[::-1]] of the personalised scores, no entry
    with a smaller score than an entry after it, and the store is left as
    it was. *)
Theorem recommend_for_user_result {A : Type} (ar : arith A)
    (argsort : list A -> list nat)
    (encode : string -> result (list A))
    (cosine_similarity : list (list A) -> list (list A) -> result (list (list A)))
    (keyword_inference : string -> list string -> result (list A))
    (query : string) (user_id : option Z) (limit : Z) (hybrid_weight : A)
    (db : DatabaseManager.store) (items : list item) (semantic : list A) :
  let keyword := keyword_relevance ar keyword_inference query (item_text <$> items) in
  Np.sorts ar argsort ->
  (forall uid, user_id = Some uid -> Sqlite.bindable uid) ->
  DatabaseManager.get_all_items db = Ok items ->
  semantic_similarity ar encode cosine_similarity query (item_text <$> items) = Ok semantic ->
  length semantic = length items ->
  length keyword = length items ->
  Forall (fun it => is_Some (it_tags it)) items ->
  exists recs hybrid,
    recommend ar argsort DatabaseManager.api encode cosine_similarity keyword_inference
      query user_id limit hybrid_weight db = (Ok recs, db) /\
    personalize ar DatabaseManager.api user_id items
      (zip_with (blend ar hybrid_weight) semantic keyword) db = (Ok hybrid, db) /\
    Forall2 (entry items hybrid semantic keyword)
      (Py.slice_to limit (sorted_indices argsort hybrid)) recs /\
    length recs = (if 0 <=? limit then Nat.min (Z.to_nat limit) (length items)
                   else (length items - Z.to_nat (- limit))%nat) /\
    descending ar (r_score <$> recs).
Proof.
  intros keyword Hsorts _ Hitems Hsem Hls Hlk Htags.
  destruct (personalize_on_store ar user_id items
              (zip_with (blend ar hybrid_weight) semantic keyword) db Htags)
    as (hybrid & Hpers & Hlh).
  { rewrite length_zip_with. lia. }
  destruct (recommend_success ar argsort Hsorts DatabaseManager.api encode
              cosine_similarity keyword_inference query user_id limit hybrid_weight db
              items semantic hybrid)
    as (recs & db' & Hrun & HF & _ & Hlen); try done.
  { right. intros uid i t s. exists false, s. apply log_interaction_recommendation. }
  pose proof (recommend_store_unchanged ar argsort encode cosine_similarity
                keyword_inference query user_id limit hybrid_weight db) as Hsame.
  rewrite Hrun in Hsame. simpl in Hsame. subst db'.
  exists recs, hybrid. split_and!; [done | done | done | done |].
  by eapply (entries_descending ar argsort Hsorts).
Qed.

Lemma recommend_for_user_result_witness :
  exists recs,
    recommend exact Np.insertion_argsort DatabaseManager.api Examples.encode1
      (Examples.similarity (1 # 2)) Examples.no_logits "ml" (Some 7) 5 (7 # 10) Examples.db2
    = (Ok recs, Examples.db2) /\
    length recs = 2%nat.
Proof.
  destruct (recommend_for_user_result exact Np.insertion_argsort Examples.encode1
              (Examples.similarity (1 # 2)) Examples.no_logits "ml" (Some 7) 5 (7 # 10)
              Examples.db2
              [DatabaseManager.event_item (Examples.event 1 "ML conference" "ml,ai");
               DatabaseManager.event_item (Examples.event 2 "ML meetup" "ml")]
              [1 # 2; 1 # 2]%Q)
    as (recs & hybrid & Hrun & _ & _ & Hlen & _).
  - apply insertion_argsort_sorts.
  - intros uid [= <-]. unfold Sqlite.bindable. lia.
  - reflexivity.
  - reflexivity.
  - reflexivity.
  - reflexivity.
  - repeat constructor; eexists; reflexivity.
  - exists recs. split; [exact Hrun | exact Hlen].
Defined.

(** ** train_user_preferences: further properties *)

Lemma lists_set_empty (list_of_set : gset string -> list string) :
  Py.lists_set list_of_set -> list_of_set ∅ = [].
Proof.
  intros H. apply Permutation_nil_r. rewrite (H ∅). by rewrite elements_empty.
Qed.

Section TrainMore.

Context {S : Type} (db : store_api S).
Variable list_of_set : gset string -> list string.

Lemma collect_tags_nothing s : forall positive acc,
  (forall item_id item_type, (item_id, item_type) ∈ positive ->
     get_item db item_id item_type s = Ok None \/
     exists it, get_item db item_id item_type s = Ok (Some it) /\
                (it_tags it = None \/ it_tags it = Some ""%string)) ->
  collect_tags db positive acc s = (Ok acc, s).
Proof.
  induction positive as [| [item_id item_type] rest IH]; intros acc Hnone; simpl; [done |].
  unfold_M.
  assert (Hrest : collect_tags db rest acc s = (Ok acc, s)).
  { apply IH. intros i t Hin. apply Hnone. by right. }
  destruct (Hnone item_id item_type) as [-> | (it & -> & [-> | ->])]; [by left | done..].
Qed.

End TrainMore.

(** X13: likes and bookmarks that resolve to no item, or only to items
    without tags, erase the profile: [train_user_preferences] writes the
    empty [preferred_tags] list over whatever was stored, and it answers
    true, also when the store answers false to the write. *)
Theorem train_unresolvable_erases_profile {S : Type} (db : store_api S)
    (list_of_set : gset string -> list string) (user_id : Z) (s : S)
    (history : list interaction) :
  Py.lists_set list_of_set ->
  get_user_interactions db user_id s = Ok history ->
  positive_items history <> [] ->
  (forall item_id item_type, (item_id, item_type) ∈ positive_items history ->
     get_item db item_id item_type s = Ok None \/
     exists it, get_item db item_id item_type s = Ok (Some it) /\
                (it_tags it = None \/ it_tags it = Some ""%string)) ->
  forall written s',
    update_user_preferences db user_id {[ "preferred_tags"%string := [] ]} s
      = (Ok written, s') ->
    train_user_preferences db list_of_set user_id s = (Ok true, s').
Proof.
  intros Hlist Hread Hpos Hnone written s' Hwrite.
  unfold train_user_preferences, try_except, train_body. unfold_M. rewrite Hread.
  destruct history as [| i l]; [done |].
  destruct (positive_items (i :: l)) as [| p0 ps] eqn:Hp; [done |].
  rewrite <- Hp in *. rewrite (collect_tags_nothing db s _ ∅ Hnone).
  rewrite (lists_set_empty _ Hlist), Hwrite. done.
Qed.

Lemma train_unresolvable_erases_profile_witness :
  let db := {| DatabaseManager.events := [];
               DatabaseManager.courses := [];
               DatabaseManager.users := DatabaseManager.users Examples.db3;
               DatabaseManager.interactions := DatabaseManager.interactions Examples.db3;
               DatabaseManager.interactions_seq := 3;
               DatabaseManager.clock := "2025-06-02 08:00:00" |} in
  exists db',
    train_user_preferences DatabaseManager.api elements 7 db = (Ok true, db') /\
    DatabaseManager.get_user_preferences 7 db' = Ok {[ "preferred_tags"%string := [] ]}.
Proof.
  intros db.
  destruct (update_user_preferences_spec 7 {[ "preferred_tags"%string := [] ]} db)
    as (db' & Hwrite & Hget & _).
  exists db'. split; [| exact Hget].
  apply (train_unresolvable_erases_profile DatabaseManager.api elements 7 db
           (DatabaseManager.interaction_of_row <$> DatabaseManager.interactions Examples.db3))
    with (written := true).
  - intros T. reflexivity.
  - reflexivity.
  - discriminate.
  - intros item_id item_type _. left. reflexivity.
  - exact Hwrite.
Defined.

Section TrainOnStore.

Import DatabaseManager.

Variable list_of_set : gset string -> list string.

Lemma event_item_bump item_id (rows : list event_row) :
  event_item <$> (bump_popularity item_id <$> rows) = event_item <$> rows.
Proof.
  rewrite <- list_fmap_compose. apply list_fmap_ext. intros i row _. simpl.
  unfold bump_popularity, event_item. by destruct (ev_id row =? item_id).
Qed.

Lemma contributes_frame db db1 item_id item_type t :
  event_item <$> events db1 = event_item <$> events db ->
  courses db1 = courses db ->
  contributes db1 item_id item_type t <-> contributes db item_id item_type t.
Proof.
  intros He Hc. unfold contributes, get_item. by rewrite He, Hc.
Qed.

Lemma positive_items_elem user_id db item_id item_type :
  (item_id, item_type) ∈ positive_items
      (interaction_of_row <$>
         List.filter (fun row => in_user_id row =? user_id) (interactions db)) <->
  exists row, row ∈ interactions db /\ in_user_id row = user_id /\
    in_interaction_type row ∈ ["like"; "bookmark"]%string /\
    in_item_id row = item_id /\ in_item_type row = item_type.
Proof.
  unfold positive_items. rewrite list_elem_of_fmap. split.
  - intros (i & [= -> ->] & Hi). apply list_elem_of_In, filter_In in Hi as [Hi Hpos].
    apply list_elem_of_In, list_elem_of_fmap in Hi as (row & -> & Hrow).
    apply list_elem_of_In, filter_In in Hrow as [Hrow Hu].
    exists row. split_and!; try done.
    + by apply list_elem_of_In.
    + by apply Z.eqb_eq.
    + unfold is_positive in Hpos. by apply bool_decide_eq_true in Hpos.
  - intros (row & Hrow & Hu & Hk & <- & <-). exists (interaction_of_row row).
    split; [done |]. apply list_elem_of_In, filter_In. split.
    + apply list_elem_of_In, list_elem_of_fmap. exists row. split; [done |].
      apply list_elem_of_In, filter_In. split; [by apply list_elem_of_In |].
      by apply Z.eqb_eq.
    + unfold is_positive. by apply bool_decide_eq_true.
Qed.

(** What [train_user_preferences] does on the store, by cases. *)
Lemma train_on_store user_id db :
  let positive := positive_items (interaction_of_row <$>
      List.filter (fun row => in_user_id row =? user_id) (interactions db)) in
  (positive = [] /\ train_user_preferences api list_of_set user_id db = (Ok false, db)) \/
  (positive <> [] /\ exists (T : gset string) db',
     (forall t, t ∈ T <-> exists item_id item_type,
        (item_id, item_type) ∈ positive /\ contributes db item_id item_type t) /\
     update_user_preferences user_id {[ "preferred_tags"%string := list_of_set T ]} db
       = (Ok true, db') /\
     train_user_preferences api list_of_set user_id db = (Ok true, db')).
Proof.
  intros positive. subst positive.
  unfold train_user_preferences, try_except, train_body. unfold_M.
  rewrite api_get_user_interactions. unfold get_user_interactions.
  set (history := interaction_of_row <$> _).
  destruct (positive_items history) as [| p0 ps] eqn:Hp.
  { left. split; [done |]. by destruct history. }
  right. split; [done |]. rewrite <- Hp in *.
  destruct history as [| i l] eqn:Hh; [done |]. rewrite <- Hh in *.
  destruct (collect_tags_spec api db (positive_items history) ∅) as (T & Hrun & HT).
  { intros item_id item_type _. apply get_item_answers. }
  destruct (update_user_preferences_spec user_id
              {[ "preferred_tags"%string := list_of_set T ]} db) as (db' & Hupd & _).
  exists T, db'. split_and!; [| done |].
  - intros t. rewrite HT. unfold contributes, tag_set. split.
    + intros [H | (item_id & item_type & it & tg & Hin & Hg & Ht & Hne & Hel)];
        [by apply elem_of_empty in H |].
      exists item_id, item_type. split; [done |]. exists it, tg.
      by rewrite elem_of_list_to_set in Hel.
    + intros (item_id & item_type & Hin & it & tg & Hg & Ht & Hne & Hel). right.
      exists item_id, item_type, it, tg. by rewrite elem_of_list_to_set.
  - rewrite Hrun. rewrite api_update_user_preferences, Hupd. done.
Qed.

End TrainOnStore.

Section TrainCompose.

Import DatabaseManager.

Lemma get_item_after_like user_id item_id kind db :
  let db1 := (log_interaction user_id item_id "event" kind db).2 in
  event_item <$> events db1 = event_item <$> events db /\ courses db1 = courses db.
Proof.
  destruct (log_interaction_cases user_id item_id "event" kind db)
    as (db1 & Hrun & Hno & Hyes).
  rewrite Hrun. simpl. destruct (log_accepted "event" kind).
  - destruct Hyes as (_ & _ & He & Hc & _); [done |]. rewrite He, Hc.
    split; [| done]. destruct (bool_decide _); [apply event_item_bump | done].
  - by rewrite Hno.
Qed.

(** X14: training again changes nothing but the order of the list.  A
    second [train_user_preferences] for the same user gives the same
    answer as the first; it changes no catalog row, no interaction and no
    other user, and the [preferred_tags] it stores are those the first
    stored, in the order [list] gives this time. *)
Theorem train_twice_is_train_once (list1 list2 : gset string -> list string)
    (user_id : Z) (db : store) :
  Py.lists_set list1 -> Py.lists_set list2 ->
  exists r db1 db2,
    train_user_preferences api list1 user_id db = (Ok r, db1) /\
    train_user_preferences api list2 user_id db1 = (Ok r, db2) /\
    (r = false -> db1 = db /\ db2 = db) /\
    (r = true -> exists tags1 tags2,
       get_user_preferences user_id db1 = Ok {[ "preferred_tags"%string := tags1 ]} /\
       get_user_preferences user_id db2 = Ok {[ "preferred_tags"%string := tags2 ]} /\
       tags1 ≡ₚ tags2) /\
    (forall u, u <> user_id -> get_user_preferences u db2 = get_user_preferences u db1) /\
    events db2 = events db1 /\ courses db2 = courses db1 /\
    interactions db2 = interactions db1.
Proof.
  intros Hl1 Hl2.
  destruct (train_on_store list1 user_id db)
    as [[Hp Hrun] | (Hp & T & db1 & HT & Hupd & Hrun)].
  { destruct (train_on_store list2 user_id db) as [[_ Hrun2] | (Hp2 & _)]; [| done].
    exists false, db, db. split_and!; done. }
  destruct (update_user_preferences_spec user_id
              {[ "preferred_tags"%string := list1 T ]} db)
    as (db1' & Hupd' & Hget1 & Hev1 & Hco1 & Hin1 & _).
  assert (db1' = db1) as -> by congruence.
  destruct (train_on_store list2 user_id db1)
    as [[Hp1 _] | (_ & T1 & db2 & HT1 & Hupd1 & Hrun1)].
  { rewrite Hin1 in Hp1. done. }
  assert (T1 = T) as ->.
  { apply set_eq. intros t. rewrite HT1, HT, Hin1.
    split; intros (i & ty & Hin & Hc); exists i, ty; (split; [done |]).
    - eapply contributes_frame; [| | exact Hc]; by rewrite ?Hev1.
    - eapply contributes_frame; [| | exact Hc]; by rewrite ?Hev1. }
  destruct (update_user_preferences_spec user_id
              {[ "preferred_tags"%string := list2 T ]} db1)
    as (db2' & Hupd2 & Hget2 & Hev2 & Hco2 & Hin2 & Hus2).
  assert (db2' = db2) as -> by congruence.
  exists true, db1, db2. split_and!; try done.
  - intros _. exists (list1 T), (list2 T). split_and!; [done | done |].
    by rewrite (Hl1 T), (Hl2 T).
  - intros u Hne. unfold get_user_preferences. by rewrite Hus2.
Qed.

(** X15: liking or bookmarking an event and then training, as the bot does
    on a button press, makes the tags of that event preferred: when the
    event exists and has a tags text that is not empty, the calls answer
    true and every tag of the event (a piece of the text between commas,
    without the white space at its ends) is in the stored [preferred_tags]
    of the user. *)
Theorem like_then_train_learns_tags (list_of_set : gset string -> list string)
    (user_id item_id : Z) (kind : string) (db : store)
    (it : item) (tags : string) :
  Py.lists_set list_of_set ->
  Sqlite.bindable user_id -> Sqlite.bindable item_id ->
  kind ∈ ["like"; "bookmark"]%string ->
  get_item item_id "event" db = Ok (Some it) ->
  it_tags it = Some tags -> tags <> ""%string ->
  exists db1 db2 learned,
    log_interaction user_id item_id "event" kind db = (Ok true, db1) /\
    train_user_preferences api list_of_set user_id db1 = (Ok true, db2) /\
    get_user_preferences user_id db2 = Ok {[ "preferred_tags"%string := learned ]} /\
    forall l piece t, pieces_of "," tags l -> piece ∈ l -> trims piece t -> t ∈ learned.
Proof.
  intros Hlist _ _ Hk Hget Htags Hne.
  assert (Hacc : log_accepted "event" kind = true).
  { unfold log_accepted. rewrite andb_true_iff. split; [| done].
    rewrite andb_true_iff. split; [done |].
    apply bool_decide_eq_true. apply list_elem_of_In in Hk. apply list_elem_of_In.
    simpl in *. tauto. }
  pose proof (get_item_after_like user_id item_id kind db) as Hframe.
  destruct (log_interaction_cases user_id item_id "event" kind db)
    as (db1 & Hrun & _ & Hyes).
  rewrite Hrun in Hframe. simpl in Hframe. destruct Hframe as [Hev Hco].
  rewrite Hacc in Hrun. destruct (Hyes Hacc) as (Hin & _).
  assert (Hpos : (item_id, "event"%string) ∈ positive_items (interaction_of_row <$>
            List.filter (fun row => in_user_id row =? user_id) (interactions db1))).
  { apply positive_items_elem. exists (logged_row user_id item_id "event" kind db).
    rewrite Hin. split_and!; try done.
    apply elem_of_app. right. apply list_elem_of_singleton. done. }
  destruct (train_on_store list_of_set user_id db1)
    as [[Hp _] | (_ & T & db2 & HT & Hupd & Htrain)].
  { rewrite Hp in Hpos. by apply elem_of_nil in Hpos. }
  destruct (update_user_preferences_spec user_id
              {[ "preferred_tags"%string := list_of_set T ]} db1)
    as (db2' & Hupd' & Hget2 & _).
  assert (db2' = db2) as -> by congruence.
  exists db1, db2, (list_of_set T). split_and!; try done.
  intros l piece t Hl Hp Ht. rewrite (Hlist T). apply elem_of_elements, HT.
  exists item_id, "event"%string.
  split; [done |]. apply (contributes_frame db db1); [done | done |].
  exists it, tags. split_and!; try done.
  apply pieces_unique in Hl as ->. apply trims_unique in Ht as ->.
  apply list_elem_of_fmap. by exists piece.
Qed.

End TrainCompose.

Lemma train_twice_is_train_once_witness :
  exists r db1 db2,
    train_user_preferences DatabaseManager.api elements 7 Examples.db3 = (Ok r, db1) /\
    train_user_preferences DatabaseManager.api Examples.reverse_elements 7 db1 = (Ok r, db2) /\
    DatabaseManager.interactions db2 = DatabaseManager.interactions db1.
Proof.
  destruct (train_twice_is_train_once elements Examples.reverse_elements 7 Examples.db3)
    as (r & db1 & db2 & H1 & H2 & _ & _ & _ & _ & _ & Hi).
  - intros T. reflexivity.
  - intros T. unfold Examples.reverse_elements. apply reverse_Permutation.
  - exists r, db1, db2. split; [exact H1 |]. split; [exact H2 | exact Hi].
Defined.

Lemma like_then_train_learns_tags_witness :
  exists db1 db2 learned,
    DatabaseManager.log_interaction 9 1 "event" "like" Examples.db7 = (Ok true, db1) /\
    train_user_preferences DatabaseManager.api elements 9 db1 = (Ok true, db2) /\
    DatabaseManager.get_user_preferences 9 db2
      = Ok {[ "preferred_tags"%string := learned ]} /\
    "ai"%string ∈ learned.
Proof.
  destruct (like_then_train_learns_tags elements 9 1 "like" Examples.db7
              (DatabaseManager.event_item
                 (Examples.event 1 "ML conference" ("ml," +:+ Examples.nbsp +:+ "ai")))
              ("ml," +:+ Examples.nbsp +:+ "ai"))
    as (db1 & db2 & learned & Hlog & Htrain & Hget & Hin).
  - intros T. reflexivity.
  - unfold Sqlite.bindable. lia.
  - unfold Sqlite.bindable. lia.
  - apply elem_of_cons. left. reflexivity.
  - reflexivity.
  - reflexivity.
  - discriminate.
  - exists db1, db2, learned. split; [exact Hlog |]. split; [exact Htrain |].
    split; [exact Hget |].
    apply (Hin (Py.split "," ("ml," +:+ Examples.nbsp +:+ "ai"))
             (Examples.nbsp +:+ "ai")%string).
    + apply split_pieces.
    + apply elem_of_cons. right. apply elem_of_cons. left. reflexivity.
    + exact (strip_trims (Examples.nbsp +:+ "ai")).
Defined.
(** ** add_event *)

Section AddEvent.

Import DatabaseManager DatabaseCatalog.
#[local] Open Scope string_scope.
#[local] Open Scope list_scope.
#[local] Open Scope Z_scope.

Lemma add_event_statement_bound event_data f title date location tags description url source :
  event_keys event_data (Some title) date location tags description url source ->
  add_event_statement event_data f =
    let db := tables f in
    let rowid := next_rowid (events_seq f) (ev_id <$> events db) in
    match List.find (same_url url) (events db) with
    | Some old =>
        Ok (ev_id old,
            {| tables := set_events
                 (fmap (fun row => if ev_id row =? ev_id old
                                   then excluded_update title date location tags description
                                          (clock db) row
                                   else row)) db;
               events_seq := rowid; courses_seq := courses_seq f |})
    | None =>
        Ok (rowid,
            {| tables := set_events
                 (fun rows => rows ++ [inserted_event rowid title date location tags
                                         description url source (clock db)]) db;
               events_seq := rowid; courses_seq := courses_seq f |})
    end.
Proof.
  intros (Ht & Hd & Hl & Hg & Hs & Hu & Hr).
  unfold add_event_statement, bind_parameter.
  rewrite Ht, Hd, Hl, Hg, Hs, Hu, Hr. reflexivity.
Qed.

Lemma find_same_url_None url rows :
  List.find (same_url url) rows = None <->
  (url = None \/ forall row, row ∈ rows -> ev_url row <> url).
Proof.
  split.
  - intros Hfind. destruct url as [u |]; [right | by left].
    intros row Hin Heq. apply list_elem_of_In in Hin.
    pose proof (find_none _ _ Hfind row Hin) as Hno.
    unfold same_url in Hno. rewrite Heq in Hno. by rewrite String.eqb_refl in Hno.
  - intros H. destruct (List.find (same_url url) rows) as [row |] eqn:Hfind; [| done].
    apply find_some in Hfind as [Hin Hsame]. apply list_elem_of_In in Hin.
    unfold same_url in Hsame. destruct url as [u |]; [| done].
    destruct H as [H | H]; [done |]. specialize (H row Hin).
    destruct (ev_url row) as [v |]; [| done]. apply String.eqb_eq in Hsame. congruence.
Qed.

Lemma next_rowid_above seq ids : seq < next_rowid seq ids /\ Forall (fun i => i < next_rowid seq ids) ids.
Proof.
  unfold next_rowid. induction ids as [| i ids [IH1 IH2]]; simpl; [split; [lia | constructor] |].
  split; [lia |]. constructor; [lia |].
  eapply Forall_impl; [exact IH2 |]. simpl. lia.
Qed.

Lemma add_event_raise_unchanged event_data f e f' :
  add_event event_data f = (Raise e, f') -> f' = f.
Proof.
  unfold add_event. destruct (add_event_statement event_data f) as [[id f1] | e1]; [done |].
  by intros [= _ <-].
Qed.

Lemma add_event_succeeds_iff_aux (event_data : row_data) (f : db_file) :
  ((exists id f', add_event event_data f = (Ok id, f')) <->
   (exists title date location tags description url source,
      event_keys event_data (Some title) date location tags description url source)) /\
  (forall e f', add_event event_data f = (Raise e, f') -> f' = f).
Proof.
  split; [| intros e f'; apply add_event_raise_unchanged]. split.
  - intros (id & f' & Hrun). revert Hrun.
    unfold add_event, add_event_statement, bind_parameter, event_keys.
    destruct (event_data !! "title") as [[title |] |]; simpl;
    destruct (event_data !! "date") as [date |]; simpl; try done;
    destruct (event_data !! "location") as [location |]; simpl; try done;
    destruct (event_data !! "tags") as [tags |]; simpl; try done;
    destruct (event_data !! "description") as [description |]; simpl; try done;
    destruct (event_data !! "url") as [url |]; simpl; try done;
    destruct (event_data !! "source") as [source |]; simpl; try done.
    intros _. by exists title, date, location, tags, description, url, source.
  - intros (title & date & location & tags & description & url & source & Hkeys).
    unfold add_event. rewrite (add_event_statement_bound _ _ _ _ _ _ _ _ _ Hkeys).
    simpl. destruct (List.find _ _); by eexists _, _.
Qed.

(** X16: [add_event] returns an id exactly when the dictionary holds the
    seven keys title, date, location, tags, description, url and source
    and the title is not [None]; otherwise it raises, and whenever it
    raises the database is left as it was. *)
Theorem add_event_succeeds_iff (event_data : row_data) (f : db_file) :
  ((exists id f', add_event event_data f = (Ok id, f')) <->
   (exists title date location tags description url source,
      event_keys event_data (Some title) date location tags description url source)) /\
  (forall e f', add_event event_data f = (Raise e, f') -> f' = f).
Proof. apply add_event_succeeds_iff_aux. Qed.

(** X17: adding an event whose url is NULL or not yet in [events] appends
    one row and returns its id, which is larger than every id in the table
    and than the counter.  The new row holds the seven values of the
    dictionary and popularity 0; the rows that were there, the courses, the
    users and the interactions are unchanged. *)
Theorem add_event_new_url (event_data : row_data) (f : db_file) (title : string)
    (date location tags description url source : option string) :
  event_keys event_data (Some title) date location tags description url source ->
  (url = None \/ forall row, row ∈ events (tables f) -> ev_url row <> url) ->
  exists id f',
    add_event event_data f = (Ok id, f') /\
    events (tables f') = events (tables f) ++
      [inserted_event id title date location tags description url source
         (clock (tables f))] /\
    events_seq f < id /\ Forall (fun row => ev_id row < id) (events (tables f)) /\
    events_seq f' = id /\
    courses (tables f') = courses (tables f) /\ users (tables f') = users (tables f) /\
    interactions (tables f') = interactions (tables f).
Proof.
  intros Hkeys Hfresh. apply find_same_url_None in Hfresh.
  unfold add_event. rewrite (add_event_statement_bound _ _ _ _ _ _ _ _ _ Hkeys).
  simpl. rewrite Hfresh. eexists _, _. split; [done |]. simpl.
  destruct (next_rowid_above (events_seq f) (ev_id <$> events (tables f))) as [Hseq Hids].
  split_and!; try done. by rewrite Forall_fmap in Hids.
Qed.

Lemma fmap_update_by_id (g : event_row -> event_row) rows i old :
  NoDup (ev_id <$> rows) -> rows !! i = Some old ->
  (fun row => if ev_id row =? ev_id old then g row else row) <$> rows = <[i := g old]> rows.
Proof.
  intros Hnd Hi. apply list_eq. intros j. rewrite list_lookup_fmap.
  destruct (decide (i = j)) as [<- | Hne].
  - rewrite list_lookup_insert_eq by (by eapply lookup_lt_Some).
    rewrite Hi. simpl. by rewrite Z.eqb_refl.
  - rewrite list_lookup_insert_ne by done.
    destruct (rows !! j) as [row |] eqn:Hj; [| done]. simpl.
    destruct (ev_id row =? ev_id old) eqn:Heq; [| done].
    apply Z.eqb_eq in Heq. exfalso. apply Hne.
    eapply NoDup_lookup; [exact Hnd | |].
    + rewrite list_lookup_fmap, Hi. done.
    + rewrite list_lookup_fmap, Hj. simpl. by rewrite Heq.
Qed.

(** X18: adding an event whose url is already in [events] inserts nothing:
    the row with that url takes the new title, date, location, tags and
    description and keeps its id, url, source, popularity and creation
    date; the id of that row is returned, no other row changes, and the
    counter still moves on. *)
Theorem add_event_existing_url (event_data : row_data) (f : db_file) (title u : string)
    (date location tags description source : option string) (i : nat) (old : event_row) :
  events_wellformed f ->
  event_keys event_data (Some title) date location tags description (Some u) source ->
  events (tables f) !! i = Some old ->
  ev_url old = Some u ->
  exists f',
    add_event event_data f = (Ok (ev_id old), f') /\
    events (tables f') =
      <[i := excluded_update title date location tags description (clock (tables f)) old]>
        (events (tables f)) /\
    length (events (tables f')) = length (events (tables f)) /\
    events_seq f < events_seq f' /\
    courses (tables f') = courses (tables f) /\ users (tables f') = users (tables f) /\
    interactions (tables f') = interactions (tables f).
Proof.
  intros (Hnd & Hurl & Hseq) Hkeys Hi Hu.
  unfold add_event. rewrite (add_event_statement_bound _ _ _ _ _ _ _ _ _ Hkeys). simpl.
  destruct (List.find (same_url (Some u)) (events (tables f))) as [found |] eqn:Hfind.
  - apply find_some in Hfind as [Hin Hsame].
    apply list_elem_of_In, list_elem_of_lookup in Hin as [j Hj].
    assert (Hfu : ev_url found = Some u).
    { unfold same_url in Hsame. destruct (ev_url found) as [v |]; [| done].
      apply String.eqb_eq in Hsame. by subst. }
    assert (j = i) as -> by (eapply Hurl; eauto).
    assert (found = old) as -> by congruence.
    eexists. split; [done |]. simpl.
    rewrite (fmap_update_by_id _ _ i old Hnd Hi).
    split_and!; try done; [by rewrite length_insert |].
    apply next_rowid_above.
  - apply find_same_url_None in Hfind as [Hfind | Hfind]; [done |].
    exfalso. apply (Hfind old); [| done]. apply list_elem_of_lookup. eauto.
Qed.

Lemma conditional_update_ids (g : event_row -> event_row) (c : event_row -> bool)
    (rows : list event_row) :
  (forall row, ev_id (g row) = ev_id row /\ ev_url (g row) = ev_url row) ->
  ev_id <$> ((fun row => if c row then g row else row) <$> rows) = ev_id <$> rows /\
  ev_url <$> ((fun row => if c row then g row else row) <$> rows) = ev_url <$> rows.
Proof.
  intros Hg. rewrite <- !list_fmap_compose.
  split; apply list_fmap_ext; intros i row _; simpl; destruct (c row); try done;
    by destruct (Hg row).
Qed.

Lemma add_event_keeps_wellformed_aux (event_data : row_data) (f : db_file) :
  events_wellformed f -> events_wellformed (add_event event_data f).2.
Proof.
  intros Hwf. pose proof Hwf as (Hnd & Hurl & Hseq).
  destruct (add_event event_data f) as [[id | e] f'] eqn:Hrun; simpl;
    [| by rewrite (add_event_raise_unchanged _ _ _ _ Hrun)].
  destruct (proj1 (proj1 (add_event_succeeds_iff_aux event_data f)) (ex_intro _ id (ex_intro _ f' Hrun)))
    as (title & date & location & tags & description & url & source & Hkeys).
  revert Hrun. unfold add_event.
  rewrite (add_event_statement_bound _ _ _ _ _ _ _ _ _ Hkeys). simpl.
  destruct (next_rowid_above (events_seq f) (ev_id <$> events (tables f))) as [Hlt Hids].
  rewrite Forall_fmap in Hids.
  destruct (List.find (same_url url) (events (tables f))) as [found |] eqn:Hfind.
  - intros [= <- <-]. unfold events_wellformed. simpl.
    destruct (conditional_update_ids
                (excluded_update title date location tags description (clock (tables f)))
                (fun row => ev_id row =? ev_id found) (events (tables f))) as [Hids' Hurls'];
      [done |].
    split_and!.
    + by rewrite Hids'.
    + intros i j r1 r2 u H1 H2 Hu1 Hu2.
      assert (Hl : forall k r, ((fun row => if ev_id row =? ev_id found
                    then excluded_update title date location tags description
                           (clock (tables f)) row else row) <$> events (tables f)) !! k = Some r ->
                  exists r0, events (tables f) !! k = Some r0 /\ ev_url r0 = ev_url r).
      { intros k r Hk. apply list_lookup_fmap_Some in Hk as (r0 & -> & Hk).
        exists r0. split; [done |]. by destruct (ev_id r0 =? ev_id found). }
      destruct (Hl i r1 H1) as (a & Ha & Hau), (Hl j r2 H2) as (b & Hb & Hbu).
      apply (Hurl i j a b u Ha Hb); congruence.
    + apply Forall_fmap. eapply Forall_impl; [exact Hseq |]. simpl. intros row Hrow.
      destruct (ev_id row =? ev_id found); simpl; lia.
  - intros [= <- <-]. unfold events_wellformed. simpl.
    apply find_same_url_None in Hfind.
    split_and!.
    + rewrite fmap_app. apply NoDup_app. split; [done |]. simpl.
      split; [| apply NoDup_singleton].
      intros x Hx Hx'. apply list_elem_of_singleton in Hx'. subst x.
      apply list_elem_of_fmap in Hx as (row & Hid & Hrow).
      rewrite Forall_forall in Hids. apply Hids in Hrow. simpl in *. lia.
    + intros i j r1 r2 u H1 H2 Hu1 Hu2.
      apply lookup_app_Some in H1, H2.
      destruct H1 as [H1 | [Hi1 H1]], H2 as [H2 | [Hj2 H2]].
      * eapply Hurl; eauto.
      * exfalso. apply list_lookup_singleton_Some in H2 as [_ <-]. simpl in Hu2.
        destruct Hfind as [-> | Hfind]; [done |].
        apply (Hfind r1); [apply list_elem_of_lookup; eauto | congruence].
      * exfalso. apply list_lookup_singleton_Some in H1 as [_ <-]. simpl in Hu1.
        destruct Hfind as [-> | Hfind]; [done |].
        apply (Hfind r2); [apply list_elem_of_lookup; eauto | congruence].
      * apply list_lookup_singleton_Some in H1 as [H1 _], H2 as [H2 _]. lia.
    + apply Forall_app. split.
      * eapply Forall_impl; [exact Hids |]. simpl. lia.
      * constructor; [simpl; lia | constructor].
Qed.

(** X19: [add_event] keeps the [events] table well formed, whatever the
    dictionary and whether it raises or not: ids stay distinct, no two
    rows share a url that is not NULL, and no id is above the counter. *)
Theorem add_event_keeps_wellformed (event_data : row_data) (f : db_file) :
  events_wellformed f -> events_wellformed (add_event event_data f).2.
Proof. apply add_event_keeps_wellformed_aux. Qed.

End AddEvent.

Lemma add_event_new_url_witness :
  exists id f',
    DatabaseCatalog.add_event (CatalogExamples.crawled "PyData" "https://pydata.org")
      CatalogExamples.file1 = (Ok id, f') /\
    id = 3 /\
    length (DatabaseManager.events (DatabaseCatalog.tables f')) = 3%nat.
Proof.
  destruct (add_event_new_url
              (CatalogExamples.crawled "PyData" "https://pydata.org") CatalogExamples.file1
              "PyData" (Some "2025-09-01"%string) None (Some "ml"%string)
              (Some "crawled"%string) (Some "https://pydata.org"%string)
              (Some "crawler"%string))
    as (id & f' & Hrun & Hev & _ & _ & Hid & _).
  - repeat split; reflexivity.
  - right. intros row Hin. apply list_elem_of_In in Hin. simpl in Hin.
    destruct Hin as [<- | [<- | []]]; discriminate.
  - exists id, f'. split; [exact Hrun |]. split.
    + revert Hrun. vm_compute. intros [= <- _]. reflexivity.
    + rewrite Hev. reflexivity.
Defined.

Lemma add_event_existing_url_witness :
  exists f',
    DatabaseCatalog.add_event (CatalogExamples.crawled "ML conf 2025" "https://mlconf.ru")
      CatalogExamples.file2 = (Ok 1, f') /\
    DatabaseManager.ev_popularity <$> DatabaseManager.events (DatabaseCatalog.tables f') = [3] /\
    DatabaseManager.ev_title <$> DatabaseManager.events (DatabaseCatalog.tables f')
      = ["ML conf 2025"%string].
Proof.
  destruct (add_event_existing_url
              (CatalogExamples.crawled "ML conf 2025" "https://mlconf.ru")
              CatalogExamples.file2 "ML conf 2025" "https://mlconf.ru"
              (Some "2025-09-01"%string) None (Some "ml"%string)
              (Some "crawled"%string) (Some "crawler"%string) 0%nat
              {| DatabaseManager.ev_id := 1; DatabaseManager.ev_title := "ML conference";
                 DatabaseManager.ev_date := Some "2025-06-20"%string;
                 DatabaseManager.ev_location := None;
                 DatabaseManager.ev_tags := Some "ml,ai"%string;
                 DatabaseManager.ev_description := Some ""%string;
                 DatabaseManager.ev_url := Some "https://mlconf.ru"%string;
                 DatabaseManager.ev_source := Some "manual"%string;
                 DatabaseManager.ev_popularity := 3;
                 DatabaseManager.ev_created_at := Some "2025-05-01 09:00:00"%string;
                 DatabaseManager.ev_updated_at := Some "2025-05-01 09:00:00"%string |})
    as (f' & Hrun & Hev & _).
  - split; [| split].
    + apply NoDup_ListNoDup. repeat constructor; simpl; intuition.
    + intros [| i] [| j] r1 r2 u H1 H2 _ _; try reflexivity; discriminate.
    + repeat constructor; simpl; lia.
  - repeat split; reflexivity.
  - reflexivity.
  - reflexivity.
  - exists f'. split; [exact Hrun |]. rewrite Hev. split; reflexivity.
Defined.

Lemma add_event_keeps_wellformed_witness :
  DatabaseCatalog.events_wellformed
    (DatabaseCatalog.add_event (CatalogExamples.crawled "ML conf 2025" "https://mlconf.ru")
       CatalogExamples.file2).2.
Proof.
  apply (add_event_keeps_wellformed
           (CatalogExamples.crawled "ML conf 2025" "https://mlconf.ru") CatalogExamples.file2).
  split; [| split].
  - apply NoDup_ListNoDup. repeat constructor; simpl; intuition.
  - intros [| i] [| j] r1 r2 u H1 H2 _ _; try reflexivity; discriminate.
  - repeat constructor; simpl; lia.
Defined.

(** ** Statements that do not fit the schema *)

Section Schema.

Import DatabaseManager DatabaseCatalog.
#[local] Open Scope string_scope.

Lemma add_course_raises insert_course course_data f :
  add_course insert_course course_data f
  = (Raise (StoreError "no such column: source"), f).
Proof. reflexivity. Qed.

(** X20: [add_course] and [get_recommendations] never return.  The INSERT
    of [add_course] names a column [source] and the query of
    [get_recommendations] selects a column [popularity] that the [courses]
    table is not created with, so both raise for every argument and every
    database, whatever the statements would do once compiled; [add_course]
    leaves the database as it was. *)
Theorem course_statements_never_return :
  (forall insert_course course_data f,
     exists e, add_course insert_course course_data f = (Raise e, f)) /\
  (forall (R : Type) (union_query : option Z -> option (list string) -> Z -> store -> result R)
          user_id tags limit db,
     exists e, get_recommendations union_query user_id tags limit db = Raise e) /\
  ("source" ∉ courses_columns) /\ ("popularity" ∉ courses_columns) /\
  ("popularity" ∈ events_columns).
Proof.
  split_and!.
  - intros. eexists. apply add_course_raises.
  - intros. eexists. reflexivity.
  - intros H. apply list_elem_of_In in H. simpl in H. intuition discriminate.
  - intros H. apply list_elem_of_In in H. simpl in H. intuition discriminate.
  - apply list_elem_of_In. simpl. tauto.
Qed.

(** X21: [_fill_initial_data] always raises, at the first course, and it
    does so after the initial event is committed: afterwards [events] holds
    a row with the url of the conference and its title, the table is still
    well formed and [courses] is as before.  When a row with that url was
    there already, no row is added, so that calling it again does not
    duplicate the event. *)
Theorem fill_initial_data_stops_at_courses insert_course (f : db_file) :
  events_wellformed f ->
  exists e f1,
    _fill_initial_data insert_course f = (Raise e, f1) /\
    courses (tables f1) = courses (tables f) /\
    events_wellformed f1 /\
    (exists row, row ∈ events (tables f1) /\
       ev_url row = Some "https://mlconf.ru" /\
       ev_title row = "Конференция по машинному обучению") /\
    ((exists row, row ∈ events (tables f) /\ ev_url row = Some "https://mlconf.ru") ->
       length (events (tables f1)) = length (events (tables f))) /\
    ((forall row, row ∈ events (tables f) -> ev_url row <> Some "https://mlconf.ru") ->
       length (events (tables f1)) = Datatypes.S (length (events (tables f)))).
Proof.
  intros Hwf.
  set (data := {[ "title" := Some "Конференция по машинному обучению";
       "date" := Some "2025-06-20";
       "location" := Some "Москва";
       "tags" := Some "машинное обучение, ML, искусственный интеллект";
       "description" := Some "Обсуждение новых алгоритмов и практик в машинном обучении.";
       "url" := Some "https://mlconf.ru";
       "source" := Some "manual" ]} : row_data).
  assert (Hkeys : event_keys data (Some "Конференция по машинному обучению")
            (Some "2025-06-20") (Some "Москва")
            (Some "машинное обучение, ML, искусственный интеллект")
            (Some "Обсуждение новых алгоритмов и практик в машинном обучении.")
            (Some "https://mlconf.ru") (Some "manual")).
  { repeat split; reflexivity. }
  pose proof (add_event_keeps_wellformed_aux data f Hwf) as Hwf1.
  unfold _fill_initial_data, initial_events, initial_courses. fold data.
  simpl. unfold_M.
  destruct (add_event data f) as [[id | e] f1] eqn:Hrun.
  2:{ exfalso. revert Hrun. unfold add_event.
      rewrite (add_event_statement_bound _ _ _ _ _ _ _ _ _ Hkeys). simpl.
      by destruct (List.find _ _). }
  simpl in Hwf1. rewrite add_course_raises.
  eexists _, f1. split; [done |].
  revert Hrun. unfold add_event.
  rewrite (add_event_statement_bound _ _ _ _ _ _ _ _ _ Hkeys). simpl.
  destruct (List.find (same_url (Some "https://mlconf.ru")) (events (tables f)))
    as [found |] eqn:Hfind; intros [= <- <-]; simpl in *.
  - apply find_some in Hfind as [Hin Hsame].
    assert (Hfu : ev_url found = Some "https://mlconf.ru").
    { unfold same_url in Hsame. destruct (ev_url found) as [v |]; [| done].
      apply String.eqb_eq in Hsame. by subst. }
    split_and!; [done | done | | |].
    + eexists. split.
      * apply list_elem_of_fmap. exists found. split; [done |]. by apply list_elem_of_In.
      * rewrite Z.eqb_refl. simpl. done.
    + intros _. by rewrite length_fmap.
    + intros Hno. exfalso. apply (Hno found); [by apply list_elem_of_In | done].
  - apply find_same_url_None in Hfind as [Hfind | Hfind]; [done |].
    split_and!; [done | done | | |].
    + eexists. split; [apply elem_of_app; right; apply list_elem_of_singleton; done |].
      done.
    + intros (row & Hin & Hu). exfalso. by apply (Hfind row).
    + intros _. rewrite length_app. simpl. lia.
Qed.

End Schema.

Lemma fill_initial_data_stops_at_courses_witness :
  exists e f1,
    DatabaseCatalog._fill_initial_data (fun _ f => Ok (1, f)) CatalogExamples.file2
      = (Raise e, f1) /\
    length (DatabaseManager.events (DatabaseCatalog.tables f1)) = 1%nat /\
    DatabaseManager.ev_popularity <$> DatabaseManager.events (DatabaseCatalog.tables f1) = [3].
Proof.
  destruct (fill_initial_data_stops_at_courses (fun _ f => Ok (1, f)) CatalogExamples.file2)
    as (e & f1 & Hrun & _ & _ & _ & Hsame & _).
  - split; [| split].
    + apply NoDup_ListNoDup. repeat constructor; simpl; intuition.
    + intros [| i] [| j] r1 r2 u H1 H2 _ _; try reflexivity; discriminate.
    + repeat constructor; simpl; lia.
  - exists e, f1. split; [exact Hrun |]. split.
    + apply Hsame. eexists. split; [apply elem_of_cons; left; reflexivity | reflexivity].
    + revert Hrun. vm_compute. intros [= _ <-]. reflexivity.
Defined.

(** ** Python integers *)

Section PyIntFacts.

#[local] Open Scope string_scope.

Lemma all_chars_impl (P Q : ascii -> bool) s :
  (forall a, P a = true -> Q a = true) -> all_chars P s = true -> all_chars Q s = true.
Proof.
  intros HPQ. induction s as [| a s IH]; simpl; [done |].
  rewrite !andb_true_iff. intros [Ha Hs]. auto.
Qed.

Lemma all_chars_app P s1 s2 :
  all_chars P (s1 +:+ s2) = all_chars P s1 && all_chars P s2.
Proof.
  induction s1 as [| a s1 IH]; [done |].
  rewrite append_cons. simpl. by rewrite IH, andb_assoc.
Qed.

(** A digit or a minus sign is one character, stays as it is when [int]
    brings the text to ASCII, and is no white space. *)
Lemma plain_char a :
  PyInt.is_digit a || Ascii.eqb a "-" = true ->
  Utf8.is_continuation a = false /\ PyInt.to_ascii (String a "") = a /\
  PyInt.c_space a = false.
Proof.
  destruct a as [[] [] [] [] [] [] [] []]; try discriminate; intros _; by vm_compute.
Qed.

Lemma chars_plain s :
  all_chars (fun a => PyInt.is_digit a || Ascii.eqb a "-") s = true ->
  Utf8.chars s = (fun a => String a "") <$> list_ascii_of_string s.
Proof.
  induction s as [| a s IH]; simpl; [done |]. rewrite andb_true_iff.
  intros [Ha Hs]. rewrite (IH Hs).
  destruct s as [| b s']; [done |]. simpl in Hs. apply andb_true_iff in Hs as [Hb _].
  simpl. by destruct (plain_char b Hb) as (-> & _).
Qed.

Lemma transform_plain s :
  all_chars (fun a => PyInt.is_digit a || Ascii.eqb a "-") s = true ->
  PyInt.transform s = s.
Proof.
  intros H. unfold PyInt.transform. rewrite (chars_plain s H). clear -H.
  induction s as [| a s IH]; [done |]. simpl in H.
  apply andb_true_iff in H as [Ha Hs]. simpl.
  destruct (plain_char a Ha) as (_ & -> & _). f_equal. by apply IH.
Qed.

Lemma lstrip_plain s :
  all_chars (fun a => PyInt.is_digit a || Ascii.eqb a "-") s = true -> PyInt.lstrip s = s.
Proof.
  destruct s as [| a s]; simpl; [done |]. rewrite andb_true_iff.
  intros [Ha _]. by destruct (plain_char a Ha) as (_ & _ & ->).
Qed.

Lemma rstrip_plain s :
  all_chars (fun a => PyInt.is_digit a || Ascii.eqb a "-") s = true -> PyInt.rstrip s = s.
Proof.
  induction s as [| a s IH]; simpl; [done |]. rewrite andb_true_iff.
  intros [Ha Hs]. rewrite (IH Hs). destruct (plain_char a Ha) as (_ & _ & ->).
  by destruct s.
Qed.

Lemma digit_not_underscore a : PyInt.is_digit a = true -> not_underscore a = true.
Proof.
  unfold not_underscore. destruct (Ascii.eqb a "_") eqn:He; [| done].
  apply Ascii.eqb_eq in He. by subst.
Qed.

Lemma digits_of_uint d : all_chars PyInt.is_digit (DecimalString.NilEmpty.string_of_uint d) = true.
Proof. induction d; simpl; done. Qed.

Lemma grammar_digits s :
  all_chars PyInt.is_digit s = true ->
  PyInt.grammar s true = true /\ (s <> "" -> PyInt.grammar s false = true).
Proof.
  induction s as [| a s IH]; simpl; [done |]. rewrite andb_true_iff.
  intros [-> Hs]. split; [by apply IH | intros _; by apply IH].
Qed.

Lemma without_underscores_digits s :
  all_chars not_underscore s = true -> PyInt.without_underscores s = s.
Proof.
  induction s as [| a s IH]; simpl; [done |]. unfold not_underscore at 1.
  rewrite andb_true_iff, negb_true_iff. intros [-> Hs]. by rewrite IH.
Qed.

Lemma of_digits_of_uint d :
  d <> Decimal.Nil ->
  PyInt.of_digits (DecimalString.NilEmpty.string_of_uint d) = Some (Z.of_uint d).
Proof.
  intros Hd. pose proof (digits_of_uint d) as Hdig. unfold PyInt.of_digits.
  destruct (grammar_digits _ Hdig) as [_ Hg]. rewrite Hg by (by destruct d).
  rewrite without_underscores_digits
    by (eapply all_chars_impl; [apply digit_not_underscore | done]).
  by rewrite DecimalString.NilEmpty.usu.
Qed.

Lemma int_plain s :
  all_chars (fun a => PyInt.is_digit a || Ascii.eqb a "-") s = true ->
  PyInt.int s = match PyInt.literal s with Some z => Ok z | None => Raise ValueError end.
Proof.
  intros H. unfold PyInt.int.
  by rewrite (transform_plain s H), (lstrip_plain s H), (rstrip_plain s H).
Qed.

Lemma literal_unsigned s :
  all_chars PyInt.is_digit s = true -> PyInt.literal s = PyInt.of_digits s.
Proof.
  intros Hdig. destruct s as [| a s]; [done |]. simpl in Hdig.
  apply andb_true_iff in Hdig as [Ha _].
  destruct a as [[] [] [] [] [] [] [] []]; try discriminate Ha; reflexivity.
Qed.

Lemma int_unsigned s :
  all_chars PyInt.is_digit s = true -> PyInt.int s =
    match PyInt.of_digits s with Some z => Ok z | None => Raise ValueError end.
Proof.
  intros Hdig. rewrite int_plain by (eapply all_chars_impl; [| done]; by intros a ->).
  by rewrite literal_unsigned.
Qed.

Lemma str_chars z :
  all_chars (fun a => PyInt.is_digit a || Ascii.eqb a "-") (PyInt.str z) = true.
Proof.
  assert (Hu : forall d, all_chars (fun a => PyInt.is_digit a || Ascii.eqb a "-")
                           (DecimalString.NilZero.string_of_uint d) = true).
  { intros d. destruct d; try done; simpl;
      (eapply all_chars_impl; [| apply digits_of_uint]; intros a ->; done). }
  unfold PyInt.str. destruct (Z.to_int z) as [d | d]; simpl; [apply Hu |].
  apply Hu.
Qed.

Lemma str_no_underscore z : all_chars not_underscore (PyInt.str z) = true.
Proof.
  eapply all_chars_impl; [| apply str_chars]. intros a. unfold not_underscore.
  rewrite orb_true_iff. intros [H | H].
  - by apply digit_not_underscore in H.
  - apply Ascii.eqb_eq in H. by subst.
Qed.

Lemma int_str_aux z : PyInt.int (PyInt.str z) = Ok z.
Proof.
  rewrite int_plain by apply str_chars.
  unfold PyInt.str. destruct z as [| p | p]; [reflexivity | |].
  - unfold Z.to_int, DecimalString.NilZero.string_of_int,
      DecimalString.NilZero.string_of_uint.
    pose proof (DecimalPos.Unsigned.to_uint_nonnil p) as Hnil.
    assert (Hs : DecimalString.NilEmpty.string_of_uint (Pos.to_uint p)
                 = match Pos.to_uint p with
                   | Decimal.Nil => "0"
                   | _ => DecimalString.NilEmpty.string_of_uint (Pos.to_uint p)
                   end) by (by destruct (Pos.to_uint p)).
    rewrite <- Hs. rewrite literal_unsigned by apply digits_of_uint.
    rewrite of_digits_of_uint by done.
    unfold Z.of_uint. by rewrite DecimalPos.Unsigned.of_to.
  - unfold Z.to_int, DecimalString.NilZero.string_of_int,
      DecimalString.NilZero.string_of_uint.
    pose proof (DecimalPos.Unsigned.to_uint_nonnil p) as Hnil.
    assert (Hs : DecimalString.NilEmpty.string_of_uint (Pos.to_uint p)
                 = match Pos.to_uint p with
                   | Decimal.Nil => "0"
                   | _ => DecimalString.NilEmpty.string_of_uint (Pos.to_uint p)
                   end) by (by destruct (Pos.to_uint p)).
    rewrite <- Hs. simpl. rewrite of_digits_of_uint by done. simpl.
    unfold Z.of_uint. by rewrite DecimalPos.Unsigned.of_to.
Qed.

End PyIntFacts.

(** ** The callback handler of the bot *)

Section Callbacks.

Import DatabaseManager RecommendationBot.

#[local] Open Scope string_scope.

Variable get_all_tags : store -> result (list string).
Variable list_of_set : gset string -> list string.

Lemma prefix_nil s : String.prefix "" s = true.
Proof. by destruct s. Qed.

Lemma split_no_underscore s :
  all_chars not_underscore s = true -> Py.split "_" s = [s].
Proof.
  induction s as [| a s IH]; simpl; [done |]. unfold not_underscore at 1.
  rewrite andb_true_iff, negb_true_iff. intros [-> Hs]. by rewrite (IH Hs).
Qed.

Lemma split_piece s rest :
  all_chars not_underscore s = true ->
  Py.split "_" (s +:+ String "_" rest) = s :: Py.split "_" rest.
Proof.
  induction s as [| a s IH]; simpl; [done |]. unfold not_underscore at 1.
  rewrite andb_true_iff, negb_true_iff. intros [-> Hs]. by rewrite (IH Hs).
Qed.

Lemma split_three a t i :
  all_chars not_underscore a = true -> all_chars not_underscore t = true ->
  all_chars not_underscore i = true ->
  Py.split "_" (a +:+ "_" +:+ t +:+ "_" +:+ i) = [a; t; i].
Proof.
  intros Ha Ht Hi.
  change (a +:+ "_" +:+ t +:+ "_" +:+ i) with (a +:+ String "_" (t +:+ String "_" i)).
  by rewrite (split_piece a _ Ha), (split_piece t _ Ht), (split_no_underscore i Hi).
Qed.

Lemma train_returns user_id db :
  exists b, train_user_preferences api list_of_set user_id db
            = (Ok b, (train_user_preferences api list_of_set user_id db).2).
Proof.
  destruct (train_on_store list_of_set user_id db) as [[_ ->] | (_ & T & db' & _ & _ & ->)];
    by eexists.
Qed.

Lemma train_frame user_id db :
  let db' := (train_user_preferences api list_of_set user_id db).2 in
  interactions db' = interactions db /\ events db' = events db /\
  courses db' = courses db /\ interactions_seq db' = interactions_seq db.
Proof.
  destruct (train_on_store list_of_set user_id db) as [[_ ->] | (_ & T & db' & _ & Hupd & ->)];
    [done |]. simpl.
  unfold update_user_preferences, transaction, insert_or_ignore_user,
    update_preferences_row in Hupd. simpl in Hupd.
  destruct (users db !! user_id); simpl in Hupd; injection Hupd as <-; done.
Qed.

Lemma feedback_button_body user_id kind item_type item_id db :
  kind ∈ ["like"; "dislike"; "bookmark"] ->
  all_chars not_underscore item_type = true ->
  handle_callback_body get_all_tags list_of_set user_id
    (kind +:+ "_" +:+ item_type +:+ "_" +:+ PyInt.str item_id) db
  = (Ok thanks,
     (train_user_preferences api list_of_set user_id
        (log_interaction user_id item_id item_type kind db).2).2).
Proof.
  intros Hkind Htype. unfold handle_callback_body.
  assert (Hk : all_chars not_underscore kind = true).
  { repeat (apply elem_of_cons in Hkind as [-> | Hkind]; [reflexivity |]).
    by apply elem_of_nil in Hkind. }
  assert (Hpre : String.prefix "like_" (kind +:+ "_" +:+ item_type +:+ "_" +:+ PyInt.str item_id)
                 || String.prefix "dislike_" (kind +:+ "_" +:+ item_type +:+ "_" +:+ PyInt.str item_id)
                 || String.prefix "bookmark_" (kind +:+ "_" +:+ item_type +:+ "_" +:+ PyInt.str item_id)
                 = true).
  { repeat (apply elem_of_cons in Hkind as [-> | Hkind];
            [simpl; by rewrite prefix_nil |]).
    by apply elem_of_nil in Hkind. }
  rewrite Hpre, (split_three kind item_type _ Hk Htype (str_no_underscore item_id)).
  unfold interaction_type_of. rewrite (bool_decide_eq_true_2 _ Hkind).
  unfold_M. rewrite int_str_aux.
  destruct (log_interaction_cases user_id item_id item_type kind db) as (db1 & -> & _).
  simpl. destruct (train_returns user_id db1) as [b ->]. done.
Qed.

(** X22: the buttons under a recommendation say what they mean.  For an
    item type without an underscore (the catalog has "event" and "course"),
    pressing any of the three buttons [_send_recommendations] attaches to a
    recommendation makes [_handle_callback] log an interaction for exactly
    that recommendation's id and type, of the kind the button stands for,
    retrain the user's preferences on the resulting store, and answer with
    the thanks: type and id survive the trip through the callback text
    ([str], [split('_')], [int]), also when the id is negative. *)
Theorem recommendation_buttons_understood {A : Type} (user_id : Z)
    (rec : recommendation A) (b : button) (db : store) :
  all_chars not_underscore (r_type rec) = true ->
  b ∈ recommendation_buttons rec ->
  exists kind,
    (button_text b, kind) ∈ [("👍", "like"); ("👎", "dislike"); ("⭐ Сохранить", "bookmark")] /\
    _handle_callback get_all_tags list_of_set user_id (callback_data b) db
    = (thanks,
       (train_user_preferences api list_of_set user_id
          (log_interaction user_id (r_id rec) (r_type rec) kind db).2).2).
Proof.
  intros Htype Hb. unfold recommendation_buttons in Hb.
  assert (Hcase : exists kind,
            (button_text b, kind)
              ∈ [("👍", "like"); ("👎", "dislike"); ("⭐ Сохранить", "bookmark")] /\
            kind ∈ ["like"; "dislike"; "bookmark"] /\
            callback_data b = kind +:+ "_" +:+ r_type rec +:+ "_" +:+ PyInt.str (r_id rec)).
  { apply elem_of_cons in Hb as [-> | Hb];
      [exists "like"; split_and!; [apply elem_of_cons; by left | | done];
       apply elem_of_cons; by left |].
    apply elem_of_cons in Hb as [-> | Hb];
      [exists "dislike"; split_and!;
         [apply elem_of_cons; right; apply elem_of_cons; by left | | done];
       apply elem_of_cons; right; apply elem_of_cons; by left |].
    apply elem_of_cons in Hb as [-> | Hb]; [| by apply elem_of_nil in Hb].
    exists "bookmark"; split_and!; [| | done];
      do 2 (apply elem_of_cons; right); apply elem_of_cons; by left. }
  destruct Hcase as (kind & Htext & Hkind & ->). exists kind. split; [done |].
  unfold _handle_callback. by rewrite (feedback_button_body user_id kind _ _ db Hkind Htype).
Qed.

Lemma update_frame user_id p db :
  let db' := (update_user_preferences user_id p db).2 in
  update_user_preferences user_id p db = (Ok true, db') /\
  get_user_preferences user_id db' = Ok p /\
  interactions db' = interactions db /\ events db' = events db /\
  courses db' = courses db /\ interactions_seq db' = interactions_seq db /\
  clock db' = clock db.
Proof.
  destruct (update_user_preferences_spec user_id p db)
    as (db' & Hrun & Hget & Hev & Hco & Hin & _).
  rewrite Hrun. simpl. split_and!; try done.
  - revert Hrun. unfold update_user_preferences, transaction, insert_or_ignore_user,
      update_preferences_row.
    destruct (users db !! user_id); simpl; by intros [= <-].
  - revert Hrun. unfold update_user_preferences, transaction, insert_or_ignore_user,
      update_preferences_row.
    destruct (users db !! user_id); simpl; by intros [= <-].
Qed.

Lemma log_interaction_snd user_id item_id item_type kind db :
  let db' := (log_interaction user_id item_id item_type kind db).2 in
  (log_accepted item_type kind = false /\ db' = db) \/
  (log_accepted item_type kind = true /\
   interactions db' = (interactions db ++ [logged_row user_id item_id item_type kind db])%list /\
   events db' = (if bool_decide (kind ∈ ["like"; "bookmark"])
                 then bump_popularity item_id <$> events db else events db) /\
   courses db' = courses db).
Proof.
  destruct (log_interaction_cases user_id item_id item_type kind db)
    as (db1 & -> & Hno & Hyes). simpl.
  destruct (log_accepted item_type kind); [right | left; by auto].
  destruct (Hyes eq_refl) as (? & _ & ? & ? & _). done.
Qed.

(** X23: a like of a course is thanked and lost.  Pressing "👍" or
    "⭐ Сохранить" under a recommended course makes [_handle_callback]
    answer with the same thanks as for an event, but the store it leaves is
    the one a bare retraining of the user leaves: no interaction row is
    added and no course is touched, so the like can never reach the user's
    preferences. *)
Theorem course_like_is_thanked_and_lost (user_id : Z) (kind : string) (item_id : Z)
    (db : store) :
  kind ∈ ["like"; "bookmark"] ->
  let db' := (train_user_preferences api list_of_set user_id db).2 in
  _handle_callback get_all_tags list_of_set user_id (kind +:+ "_course_" +:+ PyInt.str item_id) db
    = (thanks, db') /\
  interactions db' = interactions db /\ courses db' = courses db.
Proof.
  intros Hkind db'. subst db'.
  destruct (train_frame user_id db) as (Hin & _ & Hco & _).
  split; [| done].
  change (kind +:+ "_course_" +:+ PyInt.str item_id)
    with (kind +:+ "_" +:+ "course" +:+ "_" +:+ PyInt.str item_id).
  unfold _handle_callback. rewrite feedback_button_body; [| | reflexivity].
  - destruct (log_interaction_snd user_id item_id "course" kind db)
      as [[_ ->] | [Hacc _]]; [done |].
    exfalso. revert Hacc. unfold log_accepted.
    rewrite (bool_decide_eq_true_2 _ Hkind). simpl. by rewrite andb_false_r.
  - apply elem_of_cons in Hkind as [-> | Hkind]; [apply elem_of_cons; by left |].
    apply elem_of_cons in Hkind as [-> | Hkind]; [| by apply elem_of_nil in Hkind].
    do 2 (apply elem_of_cons; right). apply elem_of_cons. by left.
Qed.

(** X24: what a callback can add to the history.  Whatever text arrives as
    callback data, when [_handle_callback] leaves an interactions table
    other than the one it found, the text splits at "_" into exactly an
    action among like, dislike and bookmark, an item type and a readable
    integer, the pair of type and action is one the table accepts
    (log_accepted), and the table has grown by exactly the one row for that
    user, item and action.  Every other text (malformed feedback, the
    preference buttons, unknown data) leaves the history alone. *)
Theorem callback_history_change (user_id : Z) (data : string) (db : store) :
  let db' := (_handle_callback get_all_tags list_of_set user_id data db).2 in
  interactions db' <> interactions db ->
  exists kind item_type digits item_id,
    Py.split "_" data = [kind; item_type; digits] /\
    kind ∈ ["like"; "dislike"; "bookmark"] /\
    PyInt.int digits = Ok item_id /\
    log_accepted item_type kind = true /\
    interactions db'
    = (interactions db ++ [logged_row user_id item_id item_type kind db])%list.
Proof.
  intros db'. subst db'. unfold _handle_callback, handle_callback_body.
  destruct (String.prefix "like_" data || String.prefix "dislike_" data
            || String.prefix "bookmark_" data).
  - destruct (Py.split "_" data) as [| kind [| item_type [| digits [| ? ?]]]];
      try (unfold_M; simpl; intros H; by destruct H).
    unfold interaction_type_of.
    destruct (bool_decide (kind ∈ ["like"; "dislike"; "bookmark"])) eqn:Hkind;
      [| unfold_M; simpl; intros H; by destruct H].
    apply bool_decide_eq_true_1 in Hkind.
    destruct (PyInt.int digits) as [item_id | e] eqn:Hint;
      [| unfold_M; simpl; intros H; by destruct H].
    unfold_M.
    destruct (log_interaction_cases user_id item_id item_type kind db)
      as (db1 & Hlog & Hno & Hyes).
    rewrite Hlog. simpl.
    destruct (train_returns user_id db1) as [b Htrain]. rewrite Htrain. simpl.
    destruct (train_frame user_id db1) as (Hin & _).
    rewrite Hin.
    destruct (log_accepted item_type kind) eqn:Hacc.
    + destruct (Hyes eq_refl) as (Hrows & _). intros _.
      exists kind, item_type, digits, item_id. by rewrite Hrows.
    + rewrite (Hno eq_refl). intros H. by destruct H.
  - destruct (String.eqb data "feedback_good"); [simpl; intros H; by destruct H |].
    destruct (String.eqb data "feedback_bad"); [simpl; intros H; by destruct H |].
    destruct (String.prefix "pref_" data); [| simpl; intros H; by destruct H].
    destruct (String.eqb data "pref_tags").
    { unfold_M. destruct (_edit_tags _ _ _); simpl; intros H; by destruct H. }
    destruct (String.eqb data "pref_reset"); [| simpl; intros H; by destruct H].
    unfold_M. destruct (update_frame user_id ∅ db) as (Hrun & _ & Hin & _).
    rewrite Hrun. simpl. rewrite Hin. intros H. by destruct H.
Qed.

Lemma tag_button_spec user_id db tag :
  exists mark, tag_button user_id db tag
               = Ok [InlineKeyboardButton mark ("tag_toggle_" +:+ tag)].
Proof.
  unfold tag_button.
  assert (Hget : exists p, get_user_preferences user_id db = Ok p).
  { unfold get_user_preferences.
    destruct (users db !! user_id) as [row |]; [| by eexists].
    destruct (us_preferences row) as [[d | raw] |]; by eexists. }
  destruct Hget as [p ->]. simpl. by eexists.
Qed.

Lemma result_map_all {A B} (f : A -> result B) (P : A -> B -> Prop) l :
  (forall a, exists b, f a = Ok b /\ P a b) ->
  exists bs, result_map f l = Ok bs /\ Forall2 P l bs.
Proof.
  intros Hf. induction l as [| a l (bs & Hbs & HF)]; simpl; [by exists [] |].
  destruct (Hf a) as (b & -> & Hb). simpl. rewrite Hbs. simpl.
  exists (b :: bs). split; [done |]. by constructor.
Qed.

Lemma ignored_callback user_id data db :
  data = "tags_done" \/ data = "tags_cancel" \/ (exists tag, data = "tag_toggle_" +:+ tag) ->
  _handle_callback get_all_tags list_of_set user_id data db = ([], db).
Proof. intros [-> | [-> | [tag ->]]]; reflexivity. Qed.

(** X25: the tag editor is a dead end.  Whenever the store can list its
    tags, [_edit_tags] shows one row per tag for the first 15 tags and a
    closing row, and not one button of that keyboard does anything: for
    every button on it ("tag_toggle_<tag>", "Готово", "Отмена"),
    [_handle_callback] makes no call on the bot at all, not even the
    answer to the callback query, and leaves the store as it is, so no
    preference can be set through the editor. *)
Theorem tag_editor_buttons_do_nothing (user_id : Z) (db : store) (tags : list string) :
  get_all_tags db = Ok tags ->
  exists rows,
    _edit_tags get_all_tags user_id db
      = Ok [edit_message_text "Выберите интересующие вас теги:" (Some rows)] /\
    length rows = (Nat.min 15 (length tags) + 1)%nat /\
    forall row b, row ∈ rows -> b ∈ row ->
      forall user_id' db', _handle_callback get_all_tags list_of_set user_id' (callback_data b) db'
                           = ([], db').
Proof.
  intros Htags. unfold _edit_tags. rewrite Htags. simpl.
  destruct (result_map_all (tag_button user_id db)
              (fun tag row => exists mark,
                 row = [InlineKeyboardButton mark ("tag_toggle_" +:+ tag)])
              (take 15 tags)) as (rows & -> & HF).
  { intros tag. destruct (tag_button_spec user_id db tag) as [mark ->]. by eauto. }
  simpl. eexists. split; [done |]. split.
  - rewrite length_app, <- (Forall2_length _ _ _ HF), length_take. simpl. lia.
  - intros row b Hrow Hb user_id' db'. apply ignored_callback.
    apply elem_of_app in Hrow as [Hrow | Hrow].
    + apply list_elem_of_lookup in Hrow as [i Hi].
      destruct (Forall2_lookup_r _ _ _ _ _ HF Hi) as (tag & _ & mark & ->).
      apply list_elem_of_singleton in Hb as ->. right. right. by exists tag.
    + apply list_elem_of_singleton in Hrow as ->.
      apply elem_of_cons in Hb as [-> | Hb]; [by left |].
      apply list_elem_of_singleton in Hb as ->. right. by left.
Qed.

Lemma positive_items_app l1 l2 :
  positive_items (l1 ++ l2)%list = (positive_items l1 ++ positive_items l2)%list.
Proof. unfold positive_items. by rewrite List.filter_app, fmap_app. Qed.

Lemma user_positive_grows user_id (rows more : list interaction_row) :
  positive_items (interaction_of_row <$>
    List.filter (fun row => in_user_id row =? user_id)%Z rows) <> [] ->
  positive_items (interaction_of_row <$>
    List.filter (fun row => in_user_id row =? user_id)%Z (rows ++ more)%list) <> [].
Proof.
  rewrite List.filter_app, fmap_app, positive_items_app.
  intros Hne Happ. by apply app_eq_nil in Happ as [? _].
Qed.

Lemma train_prefs_agree user_id db1 db0 :
  interactions db1 = interactions db0 -> events db1 = events db0 ->
  courses db1 = courses db0 ->
  positive_items (interaction_of_row <$>
    List.filter (fun row => in_user_id row =? user_id)%Z (interactions db0)) <> [] ->
  get_user_preferences user_id (train_user_preferences api list_of_set user_id db1).2
  = get_user_preferences user_id (train_user_preferences api list_of_set user_id db0).2.
Proof.
  intros Hin Hev Hco Hpos.
  destruct (train_on_store list_of_set user_id db1) as [[Hnil _] | (_ & T1 & db1' & HT1 & Hup1 & ->)];
    [by rewrite Hin in Hnil |].
  destruct (train_on_store list_of_set user_id db0) as [[Hnil _] | (_ & T0 & db0' & HT0 & Hup0 & ->)];
    [done |].
  simpl.
  assert (HT : T1 = T0).
  { apply set_eq. intros t. rewrite HT1, HT0, Hin.
    split; intros (item_id & item_type & Hp & Hc); exists item_id, item_type;
      (split; [done |]).
    - apply (contributes_frame db0 db1); [by rewrite Hev | done | done].
    - apply (contributes_frame db0 db1); [by rewrite Hev | done | done]. }
  subst T1.
  destruct (update_user_preferences_spec user_id {[ "preferred_tags" := list_of_set T0 ]} db1)
    as (d1 & Hrun1 & Hget1 & _).
  destruct (update_user_preferences_spec user_id {[ "preferred_tags" := list_of_set T0 ]} db0)
    as (d0 & Hrun0 & Hget0 & _).
  rewrite Hup1 in Hrun1. rewrite Hup0 in Hrun0.
  injection Hrun1 as <-. injection Hrun0 as <-. by rewrite Hget1, Hget0.
Qed.

(** X26: a reset lasts until the next feedback.  "Сбросить" empties the
    stored preferences but keeps the user's history, and every feedback
    button retrains from the whole history: for a user with a like or a
    bookmark on record, the preferences after pressing any feedback button
    are the same with and without a reset before it. *)
Theorem reset_is_undone_by_next_feedback (user_id : Z) (kind item_type : string)
    (item_id : Z) (db : store) :
  kind ∈ ["like"; "dislike"; "bookmark"] ->
  all_chars not_underscore item_type = true ->
  positive_items (interaction_of_row <$>
    List.filter (fun row => in_user_id row =? user_id)%Z (interactions db)) <> [] ->
  let press := _handle_callback get_all_tags list_of_set user_id
                 (kind +:+ "_" +:+ item_type +:+ "_" +:+ PyInt.str item_id) in
  get_user_preferences user_id (press (after_reset user_id db)).2
  = get_user_preferences user_id (press db).2.
Proof.
  intros Hkind Htype Hpos press. subst press. unfold _handle_callback.
  rewrite !feedback_button_body by done. simpl.
  destruct (update_frame user_id ∅ db) as (_ & _ & Hin & Hev & Hco & Hseq & Hclock).
  fold (after_reset user_id db) in Hin, Hev, Hco, Hseq, Hclock.
  assert (Hrow : logged_row user_id item_id item_type kind (after_reset user_id db)
                 = logged_row user_id item_id item_type kind db).
  { unfold logged_row. by rewrite Hseq, Hclock. }
  destruct (log_interaction_snd user_id item_id item_type kind (after_reset user_id db))
    as [[Hacc1 Hl1] | (Hacc1 & Hi1 & He1 & Hc1)];
    destruct (log_interaction_snd user_id item_id item_type kind db)
      as [[Hacc0 Hl0] | (Hacc0 & Hi0 & He0 & Hc0)];
    try congruence.
  - simpl in Hl1, Hl0. rewrite Hl1, Hl0. by apply train_prefs_agree.
  - simpl in Hi1, He1, Hc1, Hi0, He0, Hc0. apply train_prefs_agree.
    + by rewrite Hi1, Hi0, Hin, Hrow.
    + by rewrite He1, He0, Hev.
    + by rewrite Hc1, Hc0, Hco.
    + rewrite Hi0. by apply user_positive_grows.
Qed.

(** X27: when the preferences read as "not set".  [_format_preferences]
    answers "Не заданы" exactly when the dictionary has no tag under
    [preferred_tags]: the key is missing or its list is empty (the test for
    an empty dictionary changes nothing); any other profile is shown as a
    list, which is never that text. *)
Theorem format_preferences_not_set (p : prefs) :
  _format_preferences p = "Не заданы" <-> default [] (p !! "preferred_tags") = [].
Proof.
  unfold _format_preferences. destruct (decide (p = ∅)) as [-> | _].
  - by rewrite lookup_empty.
  - destruct (default [] (p !! "preferred_tags")) as [| t ts]; [done |].
    split; [| done]. simpl. discriminate.
Qed.

End Callbacks.

Section ResetAndRecommend.

Import DatabaseManager RecommendationBot.

#[local] Open Scope string_scope.

Context {A : Type} (ar : arith A) (argsort : list A -> list nat).
Variable get_all_tags : store -> result (list string).
Variable list_of_set : gset string -> list string.
Variable encode : string -> result (list A).
Variable cosine_similarity : list (list A) -> list (list A) -> result (list (list A)).
Variable keyword_inference : string -> list string -> result (list A).

(** X28: what "Сбросить" does.  On the callback "pref_reset" the handler
    answers that the preferences are reset and leaves the store
    [after_reset]: there the user's preferences read as the empty
    dictionary, the history and the catalog are as before, and [recommend]
    for that user returns exactly what it returns without a user. *)
Theorem reset_button_result (user_id : Z) (db : store) (query : string) (limit : Z)
    (hybrid_weight : A) :
  let db' := after_reset user_id db in
  _handle_callback get_all_tags list_of_set user_id "pref_reset" db
    = ([answer_callback_query "Ваши предпочтения сброшены" false], db') /\
  get_user_preferences user_id db' = Ok ∅ /\
  interactions db' = interactions db /\ events db' = events db /\
  courses db' = courses db /\
  recommend ar argsort api encode cosine_similarity keyword_inference
    query (Some user_id) limit hybrid_weight db'
  = recommend ar argsort api encode cosine_similarity keyword_inference
      query None limit hybrid_weight db'.
Proof.
  intros db'. subst db'.
  destruct (update_frame user_id ∅ db) as (Hrun & Hget & Hin & Hev & Hco & _).
  fold (after_reset user_id db) in Hrun, Hget, Hin, Hev, Hco.
  split_and!; try done.
  - unfold _handle_callback, handle_callback_body. simpl. unfold_M. by rewrite Hrun.
  - apply (recommend_without_tags ar argsort encode cosine_similarity keyword_inference
             query user_id limit hybrid_weight _ ∅ Hget). by left.
Qed.

End ResetAndRecommend.

Lemma recommendation_buttons_understood_witness :
  exists kind,
    ("👎"%string, kind)
      ∈ [("👍", "like"); ("👎", "dislike"); ("⭐ Сохранить", "bookmark")]%string /\
    RecommendationBot._handle_callback BotExamples.get_all_tags elements 7 "dislike_event_1"
      Examples.db1
    = (RecommendationBot.thanks,
       (train_user_preferences DatabaseManager.api elements 7
          (DatabaseManager.log_interaction 7 1 "event" kind Examples.db1).2).2).
Proof.
  apply (recommendation_buttons_understood BotExamples.get_all_tags elements 7 BotExamples.rec1
           (RecommendationBot.InlineKeyboardButton "👎" "dislike_event_1") Examples.db1).
  - reflexivity.
  - apply elem_of_cons. right. apply elem_of_cons. by left.
Defined.

Lemma course_like_is_thanked_and_lost_witness :
  RecommendationBot._handle_callback BotExamples.get_all_tags elements 7 "like_course_1" Examples.db1
    = (RecommendationBot.thanks,
       (train_user_preferences DatabaseManager.api elements 7 Examples.db1).2) /\
  DatabaseManager.interactions (train_user_preferences DatabaseManager.api elements 7 Examples.db1).2
    = DatabaseManager.interactions Examples.db1 /\
  DatabaseManager.courses (train_user_preferences DatabaseManager.api elements 7 Examples.db1).2
    = DatabaseManager.courses Examples.db1.
Proof.
  apply (course_like_is_thanked_and_lost BotExamples.get_all_tags elements 7 "like" 1 Examples.db1).
  apply elem_of_cons. by left.
Defined.

Lemma callback_history_change_witness :
  exists kind item_type digits item_id,
    Py.split "_" "bookmark_event_2" = [kind; item_type; digits] /\
    kind ∈ ["like"; "dislike"; "bookmark"]%string /\
    PyInt.int digits = Ok item_id /\
    log_accepted item_type kind = true /\
    DatabaseManager.interactions
      (RecommendationBot._handle_callback BotExamples.get_all_tags elements 7 "bookmark_event_2"
         Examples.db3).2
    = (DatabaseManager.interactions Examples.db3
       ++ [logged_row 7 item_id item_type kind Examples.db3])%list.
Proof.
  apply (callback_history_change BotExamples.get_all_tags elements 7 "bookmark_event_2" Examples.db3).
  vm_compute. discriminate.
Defined.

Lemma tag_editor_buttons_do_nothing_witness :
  exists rows,
    RecommendationBot._edit_tags BotExamples.get_all_tags 7 Examples.db1
      = Ok [RecommendationBot.edit_message_text "Выберите интересующие вас теги:"
              (Some rows)] /\
    length rows = (Nat.min 15 3 + 1)%nat /\
    forall row b, row ∈ rows -> b ∈ row ->
      forall user_id' db',
        RecommendationBot._handle_callback BotExamples.get_all_tags elements user_id'
          (RecommendationBot.callback_data b) db' = ([], db').
Proof.
  apply (tag_editor_buttons_do_nothing BotExamples.get_all_tags elements 7 Examples.db1
           ["ml"; "ai"; "frontend"]%string).
  vm_compute. reflexivity.
Defined.

Lemma reset_is_undone_by_next_feedback_witness :
  DatabaseManager.get_user_preferences 7
    (RecommendationBot._handle_callback BotExamples.get_all_tags elements 7 "dislike_event_2"
       (RecommendationBot.after_reset 7 Examples.db3)).2
  = DatabaseManager.get_user_preferences 7
      (RecommendationBot._handle_callback BotExamples.get_all_tags elements 7 "dislike_event_2"
         Examples.db3).2.
Proof.
  apply (reset_is_undone_by_next_feedback BotExamples.get_all_tags elements 7 "dislike" "event" 2
           Examples.db3).
  - apply elem_of_cons. right. apply elem_of_cons. by left.
  - reflexivity.
  - vm_compute. discriminate.
Defined.

